(** * Preference Compatibility Engine of the ShagMe matching services

    A shallow embedding of [PreferenceFilteringService]
    (preferenceFilteringService.ts) and of the preference helpers of
    [MatchingService] (matchingService.ts), with the properties of the
    engine stated and proved over it.

    Modelling conventions.
    - A JavaScript [number] is a rational, or one of the three non-finite
      values [Infinity], [-Infinity] and [NaN].  Division by zero, the
      absorbing behaviour of [NaN] and the comparison rules of the
      non-finite values follow ECMAScript; the sign of zero is not
      modelled.
    - Arithmetic comes at two levels.  The operations of [JS] are exact:
      they carry the properties that rest on comparisons, on the shape of
      the data and on which values a function reads.  The operations of
      scope [b64] round every result to binary64 (round to nearest, ties to
      even, with subnormal numbers and overflow), as the program does; the
      functions whose results are sums of quotients are given again in
      [Binary64] with these operations, and the properties whose truth
      depends on rounding are stated about them.
    - An optional field ([x?: T], or a field the code guards with [?.] or
      [||]) is an [option].
    - [Date.now()] and [Math.random()] are inputs: the current time is a
      parameter, the random source is an explicit state.
    - [Math.pow] is a primitive of the runtime; it is a parameter of the
      aggregator. *)

From Stdlib Require Import QArith Qpower Qminmax Qabs Qround Lqa Lia ZArith.
From Stdlib Require Import List String Bool Permutation Sorted.
From Stdlib Require Import Morphisms Setoid.
Import ListNotations.

Local Open Scope Q_scope.

(** ** JavaScript numbers *)

Module JS.

Inductive number : Type :=
| Fin (q : Q)
| PosInf
| NegInf
| NaN.

Definition zero : number := Fin 0.
Definition one : number := Fin 1.

(** Equality of numbers as values: finite numbers are compared as
    rationals.  (This is mathematical identity, not the [===] operator:
    [NaN] is identified with itself.) *)
Definition num_eq (a b : number) : Prop :=
  match a, b with
  | Fin x, Fin y => x == y
  | PosInf, PosInf => True
  | NegInf, NegInf => True
  | NaN, NaN => True
  | _, _ => False
  end.

Definition neg (a : number) : number :=
  match a with
  | Fin x => Fin (- x)
  | PosInf => NegInf
  | NegInf => PosInf
  | NaN => NaN
  end.

Definition add (a b : number) : number :=
  match a, b with
  | NaN, _ | _, NaN => NaN
  | Fin x, Fin y => Fin (x + y)
  | PosInf, NegInf | NegInf, PosInf => NaN
  | PosInf, _ | _, PosInf => PosInf
  | NegInf, _ | _, NegInf => NegInf
  end.

Definition sub (a b : number) : number := add a (neg b).

(** The infinity whose sign is the sign of [x]; [NaN] at zero. *)
Definition signed_inf (x : Q) : number :=
  match x ?= 0 with
  | Gt => PosInf
  | Lt => NegInf
  | Eq => NaN
  end.

Definition mul (a b : number) : number :=
  match a, b with
  | NaN, _ | _, NaN => NaN
  | Fin x, Fin y => Fin (x * y)
  | PosInf, Fin y | Fin y, PosInf => signed_inf y
  | NegInf, Fin y | Fin y, NegInf => signed_inf (- y)
  | PosInf, PosInf | NegInf, NegInf => PosInf
  | PosInf, NegInf | NegInf, PosInf => NegInf
  end.

Definition div (a b : number) : number :=
  match a, b with
  | NaN, _ | _, NaN => NaN
  | Fin x, Fin y => if Qeq_bool y 0 then signed_inf x else Fin (x / y)
  | Fin _, (PosInf | NegInf) => Fin 0
  | PosInf, Fin y => if Qle_bool 0 y then PosInf else NegInf
  | NegInf, Fin y => if Qle_bool 0 y then NegInf else PosInf
  | (PosInf | NegInf), (PosInf | NegInf) => NaN
  end.

(** [a < b]; every comparison with [NaN] is false. *)
Definition lt (a b : number) : bool :=
  match a, b with
  | NaN, _ | _, NaN => false
  | Fin x, Fin y => negb (Qle_bool y x)
  | NegInf, (Fin _ | PosInf) => true
  | Fin _, PosInf => true
  | _, _ => false
  end.

Definition gt (a b : number) : bool := lt b a.

(** [a <= b]. *)
Definition le (a b : number) : bool :=
  match a, b with
  | NaN, _ | _, NaN => false
  | Fin x, Fin y => Qle_bool x y
  | NegInf, _ => true
  | _, PosInf => true
  | _, _ => false
  end.

Definition ge (a b : number) : bool := le b a.

(** [a === b] on numbers. *)
Definition eqb (a b : number) : bool :=
  match a, b with
  | Fin x, Fin y => Qeq_bool x y
  | PosInf, PosInf | NegInf, NegInf => true
  | _, _ => false
  end.

Definition abs (a : number) : number :=
  match a with
  | Fin x => Fin (Qabs x)
  | PosInf | NegInf => PosInf
  | NaN => NaN
  end.

(** [Math.min] of two arguments. *)
Definition min (a b : number) : number :=
  match a, b with
  | NaN, _ | _, NaN => NaN
  | _, _ => if lt b a then b else a
  end.

(** Truthiness of a number: [0] and [NaN] are falsy. *)
Definition truthy (a : number) : bool :=
  match a with
  | Fin x => negb (Qeq_bool x 0)
  | NaN => false
  | _ => true
  end.

(** [x || d] for an optional number. *)
Definition or_else (x : option number) (d : number) : number :=
  match x with
  | Some v => if truthy v then v else d
  | None => d
  end.

(** The value lies in the closed interval [[0,1]]. *)
Definition in_unit (a : number) : Prop :=
  match a with
  | Fin x => 0 <= x /\ x <= 1
  | _ => False
  end.

End JS.

Import JS.

Declare Scope js_scope.
Delimit Scope js_scope with js.
Infix "+" := JS.add : js_scope.
Infix "-" := JS.sub : js_scope.
Infix "*" := JS.mul : js_scope.
Infix "/" := JS.div : js_scope.
Infix "<?" := JS.lt : js_scope.
Infix ">?" := JS.gt : js_scope.
Infix "<=?" := JS.le : js_scope.
Infix ">=?" := JS.ge : js_scope.
Infix "=~" := JS.num_eq (at level 70, no associativity).

Local Open Scope string_scope.

(** Number literals of the source. *)
Definition of_nat (n : nat) : number := Fin (inject_Z (Z.of_nat n)).
Definition of_Z (z : Z) : number := Fin (inject_Z z).
Definition dec1 (tenths : Z) : number := Fin (tenths # 10).

(** ** Strings, arrays and optional values as the code uses them *)

(** Truthiness of an optional string: [undefined] and [''] are falsy. *)
Definition str_truthy (x : option string) : bool :=
  match x with
  | Some s => negb (s =? "")
  | None => false
  end.

(** [x || d] for an optional string. *)
Definition str_or (x : option string) (d : string) : string :=
  match x with
  | Some s => if s =? "" then d else s
  | None => d
  end.

(** [xs || []]: an array is always truthy. *)
Definition arr_or {A : Type} (x : option (list A)) : list A :=
  match x with
  | Some l => l
  | None => []
  end.

(** [Array.prototype.includes] on strings. *)
Definition includes (l : list string) (s : string) : bool :=
  existsb (String.eqb s) l.

(** [Array.prototype.some]. *)
Definition some {A : Type} (l : list A) (f : A -> bool) : bool :=
  existsb f l.

(** [Array.prototype.indexOf] on strings: the first index, or [-1]. *)
Fixpoint indexOf (l : list string) (s : string) : Z :=
  match l with
  | [] => (-1)%Z
  | x :: r =>
      if x =? s then 0%Z
      else let i := indexOf r s in if (i <? 0)%Z then (-1)%Z else (i + 1)%Z
  end.

(** ** Data model (types/profile.ts, types/matching.ts)

    Only the fields the engine reads are kept. *)

Record Lifestyle : Type := {
  smoking : option string;
  drinking : option string;
  drugs : option string;
  exercise : option string;
  diet : option string
}.

Record PersonalInfo : Type := {
  age : number;
  sexualOrientation : string;
  lookingFor : option (list string);
  education : option string;
  height : option number;
  bodyType : option string;
  languages : option (list string);
  lifestyle : option Lifestyle;
  interests : option (list string)
}.

Record AgeRange : Type := {
  ar_min : number;
  ar_max : number
}.

Record MatchingPreferences : Type := {
  ageRange : option AgeRange;
  bodyTypes : option (list string)
}.

Record Verification : Type := {
  isVerified : bool
}.

(** [photos] holds the photo ids; [createdAt] and [lastActiveAt] hold the
    [getTime()] value of the [Date]. *)
Record UserProfile : Type := {
  userId : string;
  personalInfo : PersonalInfo;
  photos : option (list string);
  preferences : option MatchingPreferences;
  createdAt : option number;
  lastActiveAt : option number;
  verification : option Verification
}.

(** [p.personalInfo.lifestyle?.f]. *)
Definition lifestyle_field (f : Lifestyle -> option string) (p : UserProfile)
  : option string :=
  match lifestyle (personalInfo p) with
  | Some l => f l
  | None => None
  end.

Record PreferenceWeights : Type := {
  w_physical : number;
  w_lifestyle : number;
  w_social : number;
  w_relationship : number
}.

Record MinimumThresholds : Type := {
  t_overall : number;
  t_physical : option number;
  t_lifestyle : option number;
  t_social : option number;
  t_relationship : option number
}.

Record PhysicalBreakdown : Type := {
  b_bodyType : number;
  b_height : number;
  b_age : number;
  b_appearance : number
}.

Record LifestyleBreakdown : Type := {
  b_smoking : number;
  b_drinking : number;
  b_exercise : number;
  b_diet : number;
  b_socialHabits : number
}.

Record SocialBreakdown : Type := {
  b_education : number;
  b_occupation : number;
  b_interests : number;
  b_languages : number;
  b_personality : number
}.

Record RelationshipBreakdown : Type := {
  b_relationshipType : number;
  b_sexualOrientation : number;
  b_commitmentLevel : number;
  b_familyGoals : number;
  b_communication : number
}.

(** One category of [CategoryScores]: [{ score, breakdown }]. *)
Record CategoryScore (B : Type) : Type := {
  score : number;
  breakdown : B
}.
Arguments score {B} _.
Arguments breakdown {B} _.

(** [lifestyle_cat] is the field [lifestyle]; the name is taken by
    [PersonalInfo]. *)
Record CategoryScores : Type := {
  physical : CategoryScore PhysicalBreakdown;
  lifestyle_cat : CategoryScore LifestyleBreakdown;
  social : CategoryScore SocialBreakdown;
  relationship : CategoryScore RelationshipBreakdown
}.

Record PreferenceFilteringConfig : Type := {
  enableCategoryWeighting : bool;
  enableDealBreakerFiltering : bool;
  enableMustHaveFiltering : bool;
  enableNiceToHaveBoosts : bool;
  defaultWeights : PreferenceWeights;
  scoringAlgorithm : string;
  enableMachineLearning : bool;
  enableUserFeedbackLearning : bool
}.

(** The configuration the constructor builds when it is given none. *)
Definition defaultConfig : PreferenceFilteringConfig := {|
  enableCategoryWeighting := true;
  enableDealBreakerFiltering := true;
  enableMustHaveFiltering := true;
  enableNiceToHaveBoosts := true;
  defaultWeights := {| w_physical := dec1 3; w_lifestyle := Fin (25 # 100);
                       w_social := Fin (25 # 100); w_relationship := dec1 2 |};
  scoringAlgorithm := "weighted_average";
  enableMachineLearning := false;
  enableUserFeedbackLearning := false
|}.

(** [x === 'lit'] for an optional string. *)
Definition str_is (x : option string) (lit : string) : bool :=
  match x with
  | Some s => s =? lit
  | None => false
  end.

(** ** PreferenceFilteringService: deal breakers and category scorers *)

(** The names [Object.prototype] defines.  [levels] is an object literal, so
    [levels[education]] finds them on the prototype chain. *)
Definition prototypeKeys : list string :=
  ["constructor"; "hasOwnProperty"; "isPrototypeOf"; "propertyIsEnumerable";
   "toLocaleString"; "toString"; "valueOf"; "__proto__"; "__defineGetter__";
   "__defineSetter__"; "__lookupGetter__"; "__lookupSetter__"].

(** [getEducationLevel]: [levels[education] || 2].  A key of the table
    gives its level and an unknown key gives [2]; for a key of
    [Object.prototype] the lookup returns a function (or the prototype
    itself), which is truthy and counts as [NaN] in the arithmetic of the
    two callers. *)
Definition getEducationLevel (education : string) : number :=
  if education =? "high_school" then of_Z 1
  else if education =? "some_college" then of_Z 2
  else if education =? "bachelors" then of_Z 3
  else if education =? "masters" then of_Z 4
  else if education =? "phd" then of_Z 5
  else if education =? "trade_school" then of_Z 2
  else if education =? "associate" then of_Z 2
  else if includes prototypeKeys education then NaN
  else of_Z 2.

(** [userProfile.preferences?.bodyTypes || []]. *)
Definition preferredBodyTypes_of (userProfile : UserProfile) : list string :=
  arr_or (match preferences userProfile with
          | Some p => bodyTypes p
          | None => None
          end).

(** Milliseconds in a day: [1000 * 60 * 60 * 24]. *)
Definition msPerDay : number :=
  (of_Z 1000 * of_Z 60 * of_Z 60 * of_Z 24)%js.

Section DealBreakers.

(** The value of [Date.now()]. *)
Variable now : number.

Definition isDealBreakerTriggered
  (userProfile candidate : UserProfile) (dealBreaker : string) : bool :=
  if dealBreaker =? "smoking" then
    str_is (lifestyle_field smoking candidate) "regularly"
    || str_is (lifestyle_field smoking candidate) "socially"
  else if dealBreaker =? "no_photos" then
    match photos candidate with
    | None => true
    | Some ps => (List.length ps =? 0)%nat
    end
  else if dealBreaker =? "height_mismatch" then
    let userHeight := or_else (height (personalInfo userProfile)) zero in
    let candidateHeight := or_else (height (personalInfo candidate)) zero in
    (JS.abs (userHeight - candidateHeight) >? of_Z 20)%js
  else if dealBreaker =? "body_type_mismatch" then
    let preferredBodyTypes := preferredBodyTypes_of userProfile in
    let candidateBodyType := bodyType (personalInfo candidate) in
    (0 <? List.length preferredBodyTypes)%nat
    && match candidateBodyType with
       | None => false
       | Some b => negb (includes preferredBodyTypes b)
       end
  else if dealBreaker =? "drinking_heavily" then
    str_is (lifestyle_field drinking candidate) "frequently"
  else if dealBreaker =? "drug_use" then
    str_is (lifestyle_field drugs candidate) "regularly"
    || str_is (lifestyle_field drugs candidate) "occasionally"
  else if dealBreaker =? "no_exercise" then
    str_is (lifestyle_field exercise candidate) "never"
  else if dealBreaker =? "no_verification" then
    match verification candidate with
    | Some v => negb (isVerified v)
    | None => true
    end
  else if dealBreaker =? "education_mismatch" then
    let userEducation := education (personalInfo userProfile) in
    let candidateEducation := education (personalInfo candidate) in
    match userEducation, candidateEducation with
    | Some ue, Some ce =>
        if str_truthy userEducation && str_truthy candidateEducation then
          (getEducationLevel ue - getEducationLevel ce >? of_Z 2)%js
        else false
    | _, _ => false
    end
  else if dealBreaker =? "language_barrier" then
    let userLanguages := arr_or (languages (personalInfo userProfile)) in
    let candidateLanguages := arr_or (languages (personalInfo candidate)) in
    negb (some userLanguages (fun lang => includes candidateLanguages lang))
  else if dealBreaker =? "inactive_users" then
    let daysSinceActive :=
      match lastActiveAt candidate with
      | Some t => ((now - t) / msPerDay)%js
      | None => of_Z 999
      end in
    (daysSinceActive >? of_Z 14)%js
  else if dealBreaker =? "new_profiles" then
    let daysSinceCreated :=
      match createdAt candidate with
      | Some t => ((now - t) / msPerDay)%js
      | None => of_Z 999
      end in
    (daysSinceCreated <? of_Z 1)%js
  else if dealBreaker =? "age_gaps" then
    let ageDifference :=
      JS.abs (age (personalInfo userProfile) - age (personalInfo candidate))%js in
    (ageDifference >? of_Z 15)%js
  else if dealBreaker =? "relationship_mismatch" then
    let userLookingFor := arr_or (lookingFor (personalInfo userProfile)) in
    let candidateLookingFor := arr_or (lookingFor (personalInfo candidate)) in
    negb (some userLookingFor (fun type => includes candidateLookingFor type))
  else false.

(** The callback of [candidates.filter] in [applyDealBreakerFilters]: the
    [for] loop returns [false] at the first deal breaker that triggers. *)
Fixpoint passesDealBreakers
  (userProfile candidate : UserProfile) (dealBreakers : list string) : bool :=
  match dealBreakers with
  | [] => true
  | dealBreaker :: rest =>
      if isDealBreakerTriggered userProfile candidate dealBreaker then false
      else passesDealBreakers userProfile candidate rest
  end.

Definition applyDealBreakerFilters (config : PreferenceFilteringConfig)
  (userProfile : UserProfile) (candidates : list UserProfile)
  (dealBreakers : list string) : list UserProfile :=
  if negb (enableDealBreakerFiltering config)
     || (List.length dealBreakers =? 0)%nat
  then candidates
  else filter (fun candidate =>
                 passesDealBreakers userProfile candidate dealBreakers)
              candidates.

End DealBreakers.

(** *** Sub-factor scorers *)

Definition calculateBodyTypeCompatibility
  (userProfile candidate : UserProfile) : number :=
  let preferredBodyTypes := preferredBodyTypes_of userProfile in
  let candidateBodyType := bodyType (personalInfo candidate) in
  if (List.length preferredBodyTypes =? 0)%nat
     || negb (str_truthy candidateBodyType)
  then dec1 7
  else if includes preferredBodyTypes (str_or candidateBodyType "")
       then one else dec1 3.

Definition calculateHeightCompatibility
  (userProfile candidate : UserProfile) : number :=
  match height (personalInfo userProfile), height (personalInfo candidate) with
  | Some userHeight, Some candidateHeight =>
      if negb (truthy userHeight) || negb (truthy candidateHeight)
      then dec1 7
      else
        let heightDifference := JS.abs (userHeight - candidateHeight)%js in
        if (heightDifference <=? of_Z 5)%js then one
        else if (heightDifference <=? of_Z 15)%js then dec1 8
        else if (heightDifference <=? of_Z 25)%js then dec1 6
        else dec1 3
  | _, _ => dec1 7
  end.

Definition calculateAgeCompatibility
  (userProfile candidate : UserProfile) : number :=
  let userAge := age (personalInfo userProfile) in
  let candidateAge := age (personalInfo candidate) in
  let preferredAgeRange :=
    match preferences userProfile with
    | Some p => ageRange p
    | None => None
    end in
  match preferredAgeRange with
  | None =>
      let ageDifference := JS.abs (userAge - candidateAge)%js in
      if (ageDifference <=? of_Z 3)%js then one
      else if (ageDifference <=? of_Z 7)%js then dec1 8
      else if (ageDifference <=? of_Z 12)%js then dec1 6
      else dec1 3
  | Some range =>
      if (candidateAge >=? ar_min range)%js && (candidateAge <=? ar_max range)%js
      then one
      else
        let outsideBy :=
          JS.min (JS.abs (candidateAge - ar_min range)%js)
                 (JS.abs (candidateAge - ar_max range)%js) in
        if (outsideBy <=? of_Z 2)%js then dec1 7
        else if (outsideBy <=? of_Z 5)%js then dec1 4
        else dec1 1
  end.

Definition calculateAppearanceScore (candidate : UserProfile) : number :=
  let photoCount :=
    match photos candidate with
    | Some ps => List.length ps
    | None => 0%nat
    end in
  if (photoCount =? 0)%nat then dec1 2
  else if (5 <=? photoCount)%nat then one
  else if (3 <=? photoCount)%nat then dec1 8
  else if (2 <=? photoCount)%nat then dec1 6
  else dec1 4.

Definition calculateSmokingCompatibility
  (userProfile candidate : UserProfile) : number :=
  let userSmoking := str_or (lifestyle_field smoking userProfile) "unknown" in
  let candidateSmoking := str_or (lifestyle_field smoking candidate) "unknown" in
  if userSmoking =? candidateSmoking then one
  else if ((userSmoking =? "never") && (candidateSmoking =? "socially"))
          || ((userSmoking =? "socially") && (candidateSmoking =? "never"))
  then dec1 6
  else if ((userSmoking =? "never") && (candidateSmoking =? "regularly"))
          || ((userSmoking =? "regularly") && (candidateSmoking =? "never"))
  then dec1 2
  else dec1 5.

(** The shared shape of the drinking and exercise scorers: the distance of
    the two levels on an ordered scale, [far] beyond two steps. *)
Definition levelCompatibility (levels : list string) (far : number)
  (user candidate : string) : number :=
  if user =? candidate then one
  else
    let userLevel := indexOf levels user in
    let candidateLevel := indexOf levels candidate in
    if (0 <=? userLevel)%Z && (0 <=? candidateLevel)%Z then
      let difference := Z.abs (userLevel - candidateLevel) in
      if (difference <=? 1)%Z then dec1 8
      else if (difference <=? 2)%Z then dec1 6
      else far
    else dec1 5.

Definition calculateDrinkingCompatibility
  (userProfile candidate : UserProfile) : number :=
  let userDrinking := str_or (lifestyle_field drinking userProfile) "unknown" in
  let candidateDrinking := str_or (lifestyle_field drinking candidate) "unknown" in
  let drinkingLevels := ["never"; "rarely"; "socially"; "regularly"; "frequently"] in
  levelCompatibility drinkingLevels (dec1 3) userDrinking candidateDrinking.

Definition calculateExerciseCompatibility
  (userProfile candidate : UserProfile) : number :=
  let userExercise := str_or (lifestyle_field exercise userProfile) "unknown" in
  let candidateExercise := str_or (lifestyle_field exercise candidate) "unknown" in
  let exerciseLevels := ["never"; "rarely"; "sometimes"; "regularly"; "daily"] in
  levelCompatibility exerciseLevels (dec1 4) userExercise candidateExercise.

Definition calculateDietCompatibility
  (userProfile candidate : UserProfile) : number :=
  let userDiet := str_or (lifestyle_field diet userProfile) "unknown" in
  let candidateDiet := str_or (lifestyle_field diet candidate) "unknown" in
  if userDiet =? candidateDiet then one
  else if (userDiet =? "vegetarian") && (candidateDiet =? "vegan") then dec1 7
  else if (userDiet =? "vegan") && (candidateDiet =? "vegetarian") then dec1 7
  else if ((userDiet =? "omnivore") && (candidateDiet =? "vegetarian"))
          || ((userDiet =? "vegetarian") && (candidateDiet =? "omnivore"))
  then dec1 6
  else dec1 5.

Definition calculateSocialHabitsCompatibility
  (userProfile candidate : UserProfile) : number := dec1 5.

Definition calculateEducationCompatibility
  (userProfile candidate : UserProfile) : number :=
  let userEducation := education (personalInfo userProfile) in
  let candidateEducation := education (personalInfo candidate) in
  if negb (str_truthy userEducation) || negb (str_truthy candidateEducation)
  then dec1 5
  else
    let userLevel := getEducationLevel (str_or userEducation "") in
    let candidateLevel := getEducationLevel (str_or candidateEducation "") in
    let difference := JS.abs (userLevel - candidateLevel)%js in
    if JS.eqb difference (of_Z 0) then one
    else if JS.eqb difference (of_Z 1) then dec1 8
    else if JS.eqb difference (of_Z 2) then dec1 6
    else dec1 4.

Definition calculateOccupationCompatibility
  (userProfile candidate : UserProfile) : number := dec1 5.

Definition calculateInterestsCompatibility
  (userProfile candidate : UserProfile) : number :=
  let userInterests := arr_or (interests (personalInfo userProfile)) in
  let candidateInterests := arr_or (interests (personalInfo candidate)) in
  if (List.length userInterests =? 0)%nat
     || (List.length candidateInterests =? 0)%nat
  then dec1 5
  else
    let commonInterests :=
      filter (fun interest => includes candidateInterests interest)
             userInterests in
    let compatibility :=
      (of_nat (List.length commonInterests)
       / JS.min (of_nat (List.length userInterests))
                (of_nat (List.length candidateInterests)))%js in
    JS.min compatibility one.

Definition calculateLanguageCompatibility
  (userProfile candidate : UserProfile) : number :=
  let userLanguages := arr_or (languages (personalInfo userProfile)) in
  let candidateLanguages := arr_or (languages (personalInfo candidate)) in
  if (List.length userLanguages =? 0)%nat
     || (List.length candidateLanguages =? 0)%nat
  then dec1 7
  else
    let hasCommonLanguage :=
      some userLanguages (fun lang => includes candidateLanguages lang) in
    if hasCommonLanguage then one else dec1 2.

Definition calculateRelationshipTypeCompatibility
  (userProfile candidate : UserProfile) : number :=
  let userLookingFor := arr_or (lookingFor (personalInfo userProfile)) in
  let candidateLookingFor := arr_or (lookingFor (personalInfo candidate)) in
  let hasCommonType :=
    some userLookingFor (fun type => includes candidateLookingFor type) in
  if hasCommonType then one else dec1 2.

Definition calculateSexualOrientationCompatibility
  (userProfile candidate : UserProfile) : number :=
  let userOrientation := sexualOrientation (personalInfo userProfile) in
  let candidateOrientation := sexualOrientation (personalInfo candidate) in
  if userOrientation =? candidateOrientation then one
  else if (userOrientation =? "bisexual") || (candidateOrientation =? "bisexual")
  then dec1 8
  else dec1 3.

Definition calculateCommitmentCompatibility
  (userProfile candidate : UserProfile) : number := dec1 5.

Definition calculateFamilyGoalsCompatibility
  (userProfile candidate : UserProfile) : number := dec1 5.

(** *** Category scorers

    [totalScore += s; factorCount++] is written out as the code runs it. *)

Definition calculatePhysicalScore
  (userProfile candidate : UserProfile) : CategoryScore PhysicalBreakdown :=
  let totalScore := zero in
  let factorCount := 0%nat in
  let bodyTypeScore := calculateBodyTypeCompatibility userProfile candidate in
  let totalScore := (totalScore + bodyTypeScore)%js in
  let factorCount := S factorCount in
  let heightScore := calculateHeightCompatibility userProfile candidate in
  let totalScore := (totalScore + heightScore)%js in
  let factorCount := S factorCount in
  let ageScore := calculateAgeCompatibility userProfile candidate in
  let totalScore := (totalScore + ageScore)%js in
  let factorCount := S factorCount in
  let appearanceScore := calculateAppearanceScore candidate in
  let totalScore := (totalScore + appearanceScore)%js in
  let factorCount := S factorCount in
  let averageScore :=
    if (0 <? factorCount)%nat then (totalScore / of_nat factorCount)%js
    else zero in
  {| score := averageScore;
     breakdown := {| b_bodyType := bodyTypeScore;
                     b_height := heightScore;
                     b_age := ageScore;
                     b_appearance := appearanceScore |} |}.

Definition calculateLifestyleScore
  (userProfile candidate : UserProfile) : CategoryScore LifestyleBreakdown :=
  let totalScore := zero in
  let factorCount := 0%nat in
  let smokingScore := calculateSmokingCompatibility userProfile candidate in
  let totalScore := (totalScore + smokingScore)%js in
  let factorCount := S factorCount in
  let drinkingScore := calculateDrinkingCompatibility userProfile candidate in
  let totalScore := (totalScore + drinkingScore)%js in
  let factorCount := S factorCount in
  let exerciseScore := calculateExerciseCompatibility userProfile candidate in
  let totalScore := (totalScore + exerciseScore)%js in
  let factorCount := S factorCount in
  let dietScore := calculateDietCompatibility userProfile candidate in
  let totalScore := (totalScore + dietScore)%js in
  let factorCount := S factorCount in
  let socialScore := calculateSocialHabitsCompatibility userProfile candidate in
  let totalScore := (totalScore + socialScore)%js in
  let factorCount := S factorCount in
  let averageScore :=
    if (0 <? factorCount)%nat then (totalScore / of_nat factorCount)%js
    else dec1 5 in
  {| score := averageScore;
     breakdown := {| b_smoking := smokingScore;
                     b_drinking := drinkingScore;
                     b_exercise := exerciseScore;
                     b_diet := dietScore;
                     b_socialHabits := socialScore |} |}.

Definition calculateSocialScore
  (userProfile candidate : UserProfile) : CategoryScore SocialBreakdown :=
  let totalScore := zero in
  let factorCount := 0%nat in
  let educationScore := calculateEducationCompatibility userProfile candidate in
  let totalScore := (totalScore + educationScore)%js in
  let factorCount := S factorCount in
  let occupationScore := calculateOccupationCompatibility userProfile candidate in
  let totalScore := (totalScore + occupationScore)%js in
  let factorCount := S factorCount in
  let interestsScore := calculateInterestsCompatibility userProfile candidate in
  let totalScore := (totalScore + interestsScore)%js in
  let factorCount := S factorCount in
  let languageScore := calculateLanguageCompatibility userProfile candidate in
  let totalScore := (totalScore + languageScore)%js in
  let factorCount := S factorCount in
  let personalityScore := dec1 5 in
  let totalScore := (totalScore + personalityScore)%js in
  let factorCount := S factorCount in
  let averageScore :=
    if (0 <? factorCount)%nat then (totalScore / of_nat factorCount)%js
    else dec1 5 in
  {| score := averageScore;
     breakdown := {| b_education := educationScore;
                     b_occupation := occupationScore;
                     b_interests := interestsScore;
                     b_languages := languageScore;
                     b_personality := personalityScore |} |}.

Definition calculateRelationshipScore
  (userProfile candidate : UserProfile) : CategoryScore RelationshipBreakdown :=
  let totalScore := zero in
  let factorCount := 0%nat in
  let relationshipTypeScore :=
    calculateRelationshipTypeCompatibility userProfile candidate in
  let totalScore := (totalScore + relationshipTypeScore)%js in
  let factorCount := S factorCount in
  let orientationScore :=
    calculateSexualOrientationCompatibility userProfile candidate in
  let totalScore := (totalScore + orientationScore)%js in
  let factorCount := S factorCount in
  let commitmentScore := calculateCommitmentCompatibility userProfile candidate in
  let totalScore := (totalScore + commitmentScore)%js in
  let factorCount := S factorCount in
  let familyScore := calculateFamilyGoalsCompatibility userProfile candidate in
  let totalScore := (totalScore + familyScore)%js in
  let factorCount := S factorCount in
  let communicationScore := dec1 5 in
  let totalScore := (totalScore + communicationScore)%js in
  let factorCount := S factorCount in
  let averageScore :=
    if (0 <? factorCount)%nat then (totalScore / of_nat factorCount)%js
    else dec1 5 in
  {| score := averageScore;
     breakdown := {| b_relationshipType := relationshipTypeScore;
                     b_sexualOrientation := orientationScore;
                     b_commitmentLevel := commitmentScore;
                     b_familyGoals := familyScore;
                     b_communication := communicationScore |} |}.

Definition calculateCategoryScores
  (userProfile candidate : UserProfile) : CategoryScores :=
  {| physical := calculatePhysicalScore userProfile candidate;
     lifestyle_cat := calculateLifestyleScore userProfile candidate;
     social := calculateSocialScore userProfile candidate;
     relationship := calculateRelationshipScore userProfile candidate |}.

(** ** The compatibility aggregator *)

Section Aggregator.

(** [Math.pow] of the runtime. *)
Variable Math_pow : number -> number -> number.

Variable config : PreferenceFilteringConfig.

Definition calculateWeightedCompatibility
  (categoryScores : CategoryScores) (weights : PreferenceWeights) : number :=
  let physical_w := w_physical weights in
  let lifestyle_w := w_lifestyle weights in
  let social_w := w_social weights in
  let relationship_w := w_relationship weights in
  let totalWeight := (physical_w + lifestyle_w + social_w + relationship_w)%js in
  let normalizedWeights :=
    {| w_physical := (physical_w / totalWeight)%js;
       w_lifestyle := (lifestyle_w / totalWeight)%js;
       w_social := (social_w / totalWeight)%js;
       w_relationship := (relationship_w / totalWeight)%js |} in
  if scoringAlgorithm config =? "weighted_average" then
    (score (physical categoryScores) * w_physical normalizedWeights
     + score (lifestyle_cat categoryScores) * w_lifestyle normalizedWeights
     + score (social categoryScores) * w_social normalizedWeights
     + score (relationship categoryScores) * w_relationship normalizedWeights)%js
  else if scoringAlgorithm config =? "multiplicative" then
    Math_pow
      (score (physical categoryScores) * score (lifestyle_cat categoryScores)
       * score (social categoryScores) * score (relationship categoryScores))%js
      (of_Z 1 / of_Z 4)%js
  else if scoringAlgorithm config =? "hybrid" then
    let weightedAverage :=
      (score (physical categoryScores) * w_physical normalizedWeights
       + score (lifestyle_cat categoryScores) * w_lifestyle normalizedWeights
       + score (social categoryScores) * w_social normalizedWeights
       + score (relationship categoryScores) * w_relationship normalizedWeights)%js in
    let minScore :=
      JS.min (JS.min (JS.min (score (physical categoryScores))
                             (score (lifestyle_cat categoryScores)))
                     (score (social categoryScores)))
             (score (relationship categoryScores)) in
    let penalty := if (minScore <? dec1 3)%js then (minScore / dec1 3)%js else one in
    (weightedAverage * penalty)%js
  else dec1 5.

End Aggregator.

(** ** Preference analysis: the random source as state *)

(** The source of [Math.random()]: the values it will return, and how many
    have been drawn. *)
Record Rng : Type := {
  draws : nat -> number;
  drawn : nat
}.

(** Computations that may call [Math.random()]. *)
Definition Rand (A : Type) : Type := Rng -> A * Rng.

Definition ret {A : Type} (a : A) : Rand A := fun g => (a, g).

Definition bind {A B : Type} (m : Rand A) (k : A -> Rand B) : Rand B :=
  fun g => let (a, g') := m g in k a g'.

Notation "x <- m ;; k" := (bind m (fun x => k))
  (at level 61, m at next level, right associativity).

Definition Math_random : Rand number :=
  fun g => (draws g (drawn g), {| draws := draws g; drawn := S (drawn g) |}).

Record PreferenceLists : Type := {
  pl_physical : list string;
  pl_lifestyle : list string;
  pl_social : list string;
  pl_relationship : list string
}.

Record DealBreakerAnalysis : Type := {
  passed : bool;
  triggeredDealBreakers : list string;
  passedDealBreakers : list string
}.

Record MustHaveAnalysis : Type := {
  totalMustHaves : nat;
  satisfiedMustHaves : nat;
  satisfiedItems : list string;
  mh_missedItems : list string
}.

Record NiceToHaveAnalysis : Type := {
  totalNiceToHaves : nat;
  matchedNiceToHaves : nat;
  matchedItems : list string;
  nth_missedItems : list string
}.

Record PreferenceAlignment : Type := {
  totalScore : number;
  categoryAlignments : CategoryScores;
  matchedPreferences : PreferenceLists;
  mismatchedPreferences : PreferenceLists;
  dealBreakerAnalysis : DealBreakerAnalysis;
  mustHaveAnalysis : MustHaveAnalysis;
  niceToHaveAnalysis : NiceToHaveAnalysis
}.

(** [by_] is the field [by]. *)
Record SortSpec : Type := {
  by_ : string;
  direction : string
}.

(** The fields of [AdvancedMatchingCriteria] the preference phases read. *)
Record AdvancedMatchingCriteria : Type := {
  preferenceWeights : PreferenceWeights;
  minimumThresholds : MinimumThresholds;
  dealBreakers : list string;
  mustHaves : list string;
  niceToHaves : list string;
  sort : SortSpec
}.

Definition emptyPreferenceLists : PreferenceLists :=
  {| pl_physical := []; pl_lifestyle := []; pl_social := [];
     pl_relationship := [] |}.

Definition analyzePreferenceMatches (userProfile candidate : UserProfile)
  : PreferenceLists * PreferenceLists :=
  (emptyPreferenceLists, emptyPreferenceLists).

(** [items.forEach] with two arrays that grow by [push]: [test] decides, for
    each item in turn, which of the two receives it. *)
Fixpoint partitionM (test : string -> Rand bool) (items : list string)
  (yes no : list string) : Rand (list string * list string) :=
  match items with
  | [] => ret (yes, no)
  | item :: rest =>
      b <- test item ;;
      if b then partitionM test rest (yes ++ [item]) no
      else partitionM test rest yes (no ++ [item])
  end.

Section Analysis.

Variable Math_pow : number -> number -> number.
Variable config : PreferenceFilteringConfig.
Variable now : number.

Definition analyzeDealBreakers (userProfile candidate : UserProfile)
  (dealBreakers : list string) : DealBreakerAnalysis :=
  let triggered :=
    filter (fun d => isDealBreakerTriggered now userProfile candidate d)
           dealBreakers in
  let passedList :=
    filter (fun d => negb (isDealBreakerTriggered now userProfile candidate d))
           dealBreakers in
  {| passed := (List.length triggered =? 0)%nat;
     triggeredDealBreakers := triggered;
     passedDealBreakers := passedList |}.

Definition analyzeMustHaves (userProfile candidate : UserProfile)
  (mustHaves : list string) : Rand MustHaveAnalysis :=
  r <- partitionM (fun mustHave =>
                     x <- Math_random ;; ret (x >? dec1 3)%js)
                  mustHaves [] [] ;;
  let (satisfied, missed) := r in
  ret {| totalMustHaves := List.length mustHaves;
         satisfiedMustHaves := List.length satisfied;
         satisfiedItems := satisfied;
         mh_missedItems := missed |}.

Definition analyzeNiceToHaves (userProfile candidate : UserProfile)
  (niceToHaves : list string) : Rand NiceToHaveAnalysis :=
  r <- partitionM (fun niceToHave =>
                     x <- Math_random ;; ret (x >? dec1 5)%js)
                  niceToHaves [] [] ;;
  let (matched, missed) := r in
  ret {| totalNiceToHaves := List.length niceToHaves;
         matchedNiceToHaves := List.length matched;
         matchedItems := matched;
         nth_missedItems := missed |}.

Definition analyzePreferenceMatch (userProfile candidate : UserProfile)
  (criteria : AdvancedMatchingCriteria) : Rand PreferenceAlignment :=
  let categoryScores := calculateCategoryScores userProfile candidate in
  let totalScore :=
    calculateWeightedCompatibility Math_pow config categoryScores
                                   (preferenceWeights criteria) in
  let (matched, mismatched) := analyzePreferenceMatches userProfile candidate in
  let dealBreakerAnalysis :=
    analyzeDealBreakers userProfile candidate (dealBreakers criteria) in
  mustHaveAnalysis <- analyzeMustHaves userProfile candidate (mustHaves criteria) ;;
  niceToHaveAnalysis <-
    analyzeNiceToHaves userProfile candidate (niceToHaves criteria) ;;
  ret {| totalScore := totalScore;
         categoryAlignments := categoryScores;
         matchedPreferences := matched;
         mismatchedPreferences := mismatched;
         dealBreakerAnalysis := dealBreakerAnalysis;
         mustHaveAnalysis := mustHaveAnalysis;
         niceToHaveAnalysis := niceToHaveAnalysis |}.

End Analysis.

(** ** MatchingService: threshold gate, ranking and validation *)

(** [t && s < t] for an optional per-category threshold [t]: an absent,
    zero or [NaN] threshold rejects nothing. *)
Definition belowThreshold (t : option number) (s : number) : bool :=
  match t with
  | Some v => truthy v && (s <? v)%js
  | None => false
  end.

Definition meetsMinimumThresholds
  (preferenceAlignment : PreferenceAlignment) (thresholds : MinimumThresholds)
  : bool :=
  if (totalScore preferenceAlignment <? t_overall thresholds)%js then false
  else
    let categoryScores := categoryAlignments preferenceAlignment in
    if belowThreshold (t_physical thresholds) (score (physical categoryScores))
    then false
    else if belowThreshold (t_lifestyle thresholds)
                           (score (lifestyle_cat categoryScores))
    then false
    else if belowThreshold (t_social thresholds) (score (social categoryScores))
    then false
    else if belowThreshold (t_relationship thresholds)
                           (score (relationship categoryScores))
    then false
    else true.

(** The fields of [PreferenceMatchResult] the ranking reads; [basicScore] is
    the [score] inherited from [MatchResult]. *)
Record PreferenceMatchResult : Type := {
  targetUserId : string;
  basicScore : number;
  compatibilityScore : number
}.

(** [Array.prototype.sort(comparefn)].  ECMAScript requires the sort to be
    stable, and reads a [NaN] result of the comparator as [0]; with a
    consistent comparator every stable sort returns the same array, here
    computed by insertion: [x] moves behind [y] only when
    [comparefn(x, y) > 0].  (With a comparator that is not consistent, as
    [NaN] scores make it, the order is left to the implementation; the
    model then fixes this insertion order, and only what holds of every
    order is stated about it.) *)
Fixpoint sort_insert {A : Type} (comparefn : A -> A -> number)
  (x : A) (l : list A) : list A :=
  match l with
  | [] => [x]
  | y :: r =>
      if (zero <? comparefn x y)%js then y :: sort_insert comparefn x r
      else x :: y :: r
  end.

Fixpoint Array_sort {A : Type} (comparefn : A -> A -> number)
  (l : list A) : list A :=
  match l with
  | [] => []
  | x :: r => sort_insert comparefn x (Array_sort comparefn r)
  end.

(** [Array.prototype.slice(0, k)] for an integer [k]. *)
Definition slice0 {A : Type} (k : Z) (l : list A) : list A :=
  if (k <? 0)%Z
  then firstn (Z.to_nat (Z.max (Z.of_nat (List.length l) + k) 0)) l
  else firstn (Z.to_nat k) l.

Record MatchingConfig : Type := {
  defaultRadius : number;
  maxRadius : number;
  maxResults : Z;
  cooldownPeriod : number
}.

(** The configuration [MatchingService] starts with. *)
Definition defaultMatchingConfig : MatchingConfig :=
  {| defaultRadius := of_Z 25; maxRadius := of_Z 100; maxResults := 50%Z;
     cooldownPeriod := of_Z 5 |}.

(** The comparator of Phase 4 of [findAdvancedMatches]. *)
Definition compareMatches (criteria : AdvancedMatchingCriteria)
  (a b : PreferenceMatchResult) : number :=
  if by_ (sort criteria) =? "compatibility" then
    if direction (sort criteria) =? "desc"
    then (compatibilityScore b - compatibilityScore a)%js
    else (compatibilityScore a - compatibilityScore b)%js
  else (basicScore b - basicScore a)%js.

(** Phases 4 and 5 of [findAdvancedMatches]: the scored matches are sorted
    and cut to [maxResults]; the result is what the method returns. *)
Definition findAdvancedMatches_rank (config : MatchingConfig)
  (criteria : AdvancedMatchingCriteria)
  (preferenceMatches : list PreferenceMatchResult) : list PreferenceMatchResult :=
  let sorted := Array_sort (compareMatches criteria) preferenceMatches in
  let limitedResults := slice0 (maxResults config) sorted in
  limitedResults.

(** *** Errors *)

(** A template literal: its text and the values spliced into it. *)
Inductive piece : Type :=
| Str (s : string)
| Num (n : number)
| ISODate (d : option number).

Record MatchingError : Type := {
  code : string;
  message : string;
  field : option string
}.

Inductive exn : Type :=
| Error (msg : list piece)
| MatchingValidationError (errors : list MatchingError) (msg : list piece).

Inductive result (A : Type) : Type :=
| Return (a : A)
| Throw (e : exn).
Arguments Return {A} _.
Arguments Throw {A} _.

Record CriteriaPreferences : Type := {
  cp_ageRange : option AgeRange;
  maxDistance : number
}.

(** The fields of [MatchingCriteria] the validation reads. *)
Record MatchingCriteria : Type := {
  mc_userId : string;
  mc_preferences : CriteriaPreferences
}.

Definition validateMatchingCriteria (config : MatchingConfig)
  (criteria : MatchingCriteria) : result unit :=
  if (maxDistance (mc_preferences criteria) >? maxRadius config)%js then
    Throw (Error [Str "Maximum distance cannot exceed ";
                  Num (maxRadius config); Str "km"])
  else
    match cp_ageRange (mc_preferences criteria) with
    | Some range =>
        if (ar_min range <? of_Z 18)%js || (ar_max range >? of_Z 99)%js
        then Throw (Error [Str "Invalid age range"])
        else Return tt
    | None => Return tt
    end.

Section FindMatches.

(** [userCooldowns], with each [Date] as its [getTime()] value. *)
Variable userCooldowns : string -> option number.

(** The value of [new Date()]. *)
Variable now : number.

Variable config : MatchingConfig.

Definition isUserOnCooldown (userId : string) : bool :=
  match userCooldowns userId with
  | None => false
  | Some cooldownEnd => (now <? cooldownEnd)%js
  end.

(** The results of the body of [findMatches] after the validation: location
    lookup, candidate filtering, scoring, sorting and truncation. *)
Variable MatchResult : Type.
Variable discover : string -> MatchingCriteria -> result (list MatchResult).

(** [findMatches]: the [catch] block logs and rethrows. *)
Definition findMatches (userId : string) (criteria : MatchingCriteria)
  : result (list MatchResult) :=
  if isUserOnCooldown userId then
    Throw (Error [Str "User is on cooldown until ";
                  ISODate (userCooldowns userId)])
  else
    match validateMatchingCriteria config criteria with
    | Throw e => Throw e
    | Return _ => discover userId criteria
    end.

End FindMatches.

(** ** Explanations, suggestions and settings *)

(** [Math.round]: the nearest integer, a half going upwards. *)
Definition Math_round (a : number) : number :=
  match a with
  | Fin x => Fin (inject_Z (Qfloor (x + (1 # 2))))
  | _ => a
  end.

(** [Object.entries(categoryAlignments)] with each entry reduced to the
    [score] the callers read: the keys in the order the object literal of
    [calculateCategoryScores] lists them. *)
Definition categoryEntries (c : CategoryScores) : list (string * number) :=
  [("physical", score (physical c)); ("lifestyle", score (lifestyle_cat c));
   ("social", score (social c)); ("relationship", score (relationship c))].

Record MatchExplanation : Type := {
  matchId : list piece;
  primaryReasons : list (list piece);
  secondaryReasons : list (list piece);
  compatibilityHighlights : list (list piece);
  potentialConcerns : list (list piece);
  overallAssessment : string;
  recommendationStrength : number
}.

(** The text [`<label> ${category} compatibility (${Math.round(s * 100)}%)`]. *)
Definition reasonText (label category : string) (s : number) : list piece :=
  [Str label; Str category; Str " compatibility (";
   Num (Math_round (s * of_Z 100)%js); Str "%)"].

(** The [forEach] of [generateMatchExplanation] over the category entries,
    with the three arrays it pushes to. *)
Fixpoint explainCategories (entries : list (string * number))
  (primary secondary concerns : list (list piece))
  : list (list piece) * list (list piece) * list (list piece) :=
  match entries with
  | [] => (primary, secondary, concerns)
  | (category, s) :: rest =>
      if (s >=? dec1 8)%js then
        explainCategories rest
          (primary ++ [reasonText "Excellent " category s]) secondary concerns
      else if (s >=? dec1 6)%js then
        explainCategories rest primary
          (secondary ++ [reasonText "Good " category s]) concerns
      else if (s <? dec1 4)%js then
        explainCategories rest primary secondary
          (concerns ++ [reasonText "Lower " category s])
      else explainCategories rest primary secondary concerns
  end.

(** [PreferenceFilteringService.generateMatchExplanation]. *)
Definition generateMatchExplanation (userProfile candidate : UserProfile)
  (preferenceAlignment : PreferenceAlignment) : MatchExplanation :=
  let '(primary, secondary, concerns) :=
    explainCategories
      (categoryEntries (categoryAlignments preferenceAlignment)) [] [] [] in
  let highlights :=
    map (fun m => [Str "Matching "; Str m; Str " preference"])
        (pl_physical (matchedPreferences preferenceAlignment)) in
  let overall :=
    if (totalScore preferenceAlignment >=? Fin (85 # 100))%js then "excellent"
    else if (totalScore preferenceAlignment >=? dec1 7)%js then "very_good"
    else if (totalScore preferenceAlignment >=? Fin (55 # 100))%js then "good"
    else "fair" in
  {| matchId := [Str "match-"; Str (userId userProfile); Str "-";
                 Str (userId candidate)];
     primaryReasons := primary;
     secondaryReasons := secondary;
     compatibilityHighlights := highlights;
     potentialConcerns := concerns;
     overallAssessment := overall;
     recommendationStrength := totalScore preferenceAlignment |}.

Record CurrentSettings : Type := {
  restrictiveness : string;
  expectedMatches : nat;
  averageCompatibility : number
}.

Definition analyzeCurrentSettings (userProfile : UserProfile)
  (currentResults : list PreferenceMatchResult) : CurrentSettings :=
  let avgCompatibility :=
    if (0 <? List.length currentResults)%nat then
      (fold_left (fun sum m => (sum + compatibilityScore m)%js)
                 currentResults zero
       / of_nat (List.length currentResults))%js
    else zero in
  let restrictiveness :=
    if (avgCompatibility >? dec1 8)%js then "very_strict"
    else if (avgCompatibility >? Fin (65 # 100))%js then "strict"
    else if (avgCompatibility >? dec1 5)%js then "moderate"
    else if (avgCompatibility >? Fin (35 # 100))%js then "relaxed"
    else "very_relaxed" in
  {| restrictiveness := restrictiveness;
     expectedMatches := List.length currentResults;
     averageCompatibility := avgCompatibility |}.

(** ** MatchingService: the remaining helpers

    The helpers of [MatchingService] whose names [PreferenceFilteringService]
    also uses live in a module of their own. *)

Record MatchingAlgorithmWeights : Type := {
  distance : number;
  age_weight : number;
  commonInterests : number;
  activityLevel : number;
  profileCompleteness : number
}.

(** [Partial<MatchingAlgorithmWeights>]: a key is given or left out. *)
Record PartialWeights : Type := {
  new_distance : option number;
  new_age : option number;
  new_commonInterests : option number;
  new_activityLevel : option number;
  new_profileCompleteness : option number
}.

(** [new Date(t).getTime()]: the time value of a date built from a number
    ([TimeClip]): whole milliseconds, [NaN] beyond 8.64e15 in magnitude. *)
Definition Date_of (t : number) : number :=
  match t with
  | Fin x =>
      if Qle_bool (Qabs x) (inject_Z 8640000000000000)
      then Fin (inject_Z (if Qle_bool 0 x then Qfloor x else Qceiling x))
      else NaN
  | _ => NaN
  end.

Module MatchingService.

Definition initialWeights : MatchingAlgorithmWeights :=
  {| distance := dec1 3; age_weight := dec1 2;
     commonInterests := Fin (25 # 100); activityLevel := Fin (15 # 100);
     profileCompleteness := dec1 1 |}.

Definition calculateDistanceScore (distance maxDistance : number) : number :=
  if (distance >=? maxDistance)%js then zero
  else (one - distance / maxDistance)%js.

Definition calculateAgeCompatibility (userProfile candidateProfile : UserProfile)
  : number :=
  let userAge := age (personalInfo userProfile) in
  let candidateAge := age (personalInfo candidateProfile) in
  let ageDiff := JS.abs (userAge - candidateAge)%js in
  if (ageDiff <=? of_Z 2)%js then one
  else if (ageDiff <=? of_Z 5)%js then dec1 8
  else if (ageDiff <=? of_Z 10)%js then dec1 6
  else if (ageDiff <=? of_Z 15)%js then dec1 4
  else dec1 2.

(** [setCooldown], at the time [now]. *)
Definition setCooldown (userCooldowns : string -> option number)
  (now : number) (config : MatchingConfig) (userId : string)
  : string -> option number :=
  let cooldownEnd :=
    Date_of (now + cooldownPeriod config * of_Z 60 * of_Z 1000)%js in
  fun u => if u =? userId then Some cooldownEnd else userCooldowns u.

Definition clearCooldown (userCooldowns : string -> option number)
  (userId : string) : string -> option number :=
  fun u => if u =? userId then None else userCooldowns u.

(** [getActiveCooldowns], at the time [now]. *)
Definition getActiveCooldowns (userCooldowns : string -> option number)
  (now : number) : string -> option number :=
  fun u =>
    match userCooldowns u with
    | Some cooldownEnd =>
        if (cooldownEnd >? now)%js then Some cooldownEnd else None
    | None => None
    end.

(** [{ ...this.weights, ...newWeights }]. *)
Definition mergeWeights (weights : MatchingAlgorithmWeights)
  (newWeights : PartialWeights) : MatchingAlgorithmWeights :=
  let pick (n : option number) (o : number) :=
    match n with Some v => v | None => o end in
  {| distance := pick (new_distance newWeights) (distance weights);
     age_weight := pick (new_age newWeights) (age_weight weights);
     commonInterests :=
       pick (new_commonInterests newWeights) (commonInterests weights);
     activityLevel :=
       pick (new_activityLevel newWeights) (activityLevel weights);
     profileCompleteness :=
       pick (new_profileCompleteness newWeights)
            (profileCompleteness weights) |}.

(** [Object.values(weights).reduce((sum, weight) => sum + weight, 0)]. *)
Definition totalOf (weights : MatchingAlgorithmWeights) : number :=
  (zero + distance weights + age_weight weights + commonInterests weights
   + activityLevel weights + profileCompleteness weights)%js.

Definition updateWeights (weights : MatchingAlgorithmWeights)
  (newWeights : PartialWeights) : MatchingAlgorithmWeights :=
  let merged := mergeWeights weights newWeights in
  let totalWeight := totalOf merged in
  if negb (JS.eqb totalWeight one) then
    {| distance := (distance merged / totalWeight)%js;
       age_weight := (age_weight merged / totalWeight)%js;
       commonInterests := (commonInterests merged / totalWeight)%js;
       activityLevel := (activityLevel merged / totalWeight)%js;
       profileCompleteness := (profileCompleteness merged / totalWeight)%js |}
  else merged.

(** The [forEach] of [getTopScoringCategory], with [topCategory] and
    [topScore]. *)
Fixpoint topOf (entries : list (string * number))
  (topCategory : string) (topScore : number) : string :=
  match entries with
  | [] => topCategory
  | (category, s) :: rest =>
      if (s >? topScore)%js then topOf rest category s
      else topOf rest topCategory topScore
  end.

Definition getTopScoringCategory (categoryScores : CategoryScores) : string :=
  topOf (categoryEntries categoryScores) "overall" zero.

(** [MatchingService.generateMatchExplanation]: the sentence. *)
Definition generateMatchExplanation (userProfile candidate : UserProfile)
  (preferenceAlignment : PreferenceAlignment) : list piece :=
  let score := Math_round (totalScore preferenceAlignment * of_Z 100)%js in
  let topCategory :=
    getTopScoringCategory (categoryAlignments preferenceAlignment) in
  if (score >=? of_Z 85)%js then
    [Str "Excellent match ("; Num score; Str "%) with outstanding ";
     Str topCategory; Str " compatibility and strong overall alignment."]
  else if (score >=? of_Z 70)%js then
    [Str "Very good match ("; Num score; Str "%) with strong ";
     Str topCategory; Str " compatibility and good overall fit."]
  else if (score >=? of_Z 55)%js then
    [Str "Good match ("; Num score; Str "%) with decent ";
     Str topCategory; Str " compatibility and potential for connection."]
  else
    [Str "Fair match ("; Num score;
     Str "%) with some compatible factors but mixed overall alignment."].

Definition generateImprovementSuggestions (userProfile : UserProfile)
  (preferenceAlignment : PreferenceAlignment) : list (list piece) :=
  let suggestions :=
    map (fun e : string * number =>
           [Str "Consider adjusting "; Str (fst e);
            Str " preferences to find more compatible matches"])
        (filter (fun e : string * number => (snd e <? dec1 5)%js)
                (categoryEntries (categoryAlignments preferenceAlignment))) in
  if (List.length suggestions =? 0)%nat then
    [[Str "Your preferences are well-optimized for finding compatible matches"]]
  else suggestions.

End MatchingService.

(** ** Binary64 arithmetic

    The program computes in IEEE-754 binary64.  [round64] rounds a rational
    to the nearest binary64 value, ties to even: 53 significant bits, the
    subnormal numbers below [2^-1022] on the grid of [2^-1074], and
    [Infinity] from [2^1024] on.  A rounded operation is the exact one
    followed by [round64]. *)

(** [2^e]. *)
Definition pow2 (e : Z) : Q := 2 ^ e.

(** The binade of a positive rational: [2^(ilog2 q) <= q < 2^(ilog2 q + 1)]. *)
Definition ilog2 (q : Q) : Z :=
  let e := (Z.log2 (Qnum q) - Z.log2 (Zpos (Qden q)))%Z in
  if Qle_bool (pow2 e) q then e else (e - 1)%Z.

(** The nearest integer, the even one at a tie. *)
Definition nearest_even (m : Q) : Z :=
  let f := Qfloor m in
  match Qcompare (m - inject_Z f) (1 # 2) with
  | Lt => f
  | Gt => (f + 1)%Z
  | Eq => if Z.even f then f else (f + 1)%Z
  end.

(** Rounding of a positive rational: to a multiple of the unit in the last
    place of its binade. *)
Definition round_pos (q : Q) : number :=
  let ex := Z.max (ilog2 q - 52) (-1074) in
  let r := inject_Z (nearest_even (q / pow2 ex)) * pow2 ex in
  if Qle_bool (pow2 1024) r then PosInf else Fin r.

Definition round64 (q : Q) : number :=
  let q := Qred q in
  match Qcompare q 0 with
  | Eq => Fin 0
  | Gt => round_pos q
  | Lt => JS.neg (round_pos (- q))
  end.

(** The rounding of a result: the non-finite values are kept. *)
Definition fl (a : number) : number :=
  match a with
  | Fin q => round64 q
  | _ => a
  end.

Definition add64 (a b : number) : number := fl (JS.add a b).
Definition sub64 (a b : number) : number := fl (JS.sub a b).
Definition mul64 (a b : number) : number := fl (JS.mul a b).
Definition div64 (a b : number) : number := fl (JS.div a b).

(** A decimal literal of the source, as the parser reads it. *)
Definition lit64 (q : Q) : number := round64 q.

Declare Scope b64_scope.
Delimit Scope b64_scope with b64.
Infix "+" := add64 : b64_scope.
Infix "-" := sub64 : b64_scope.
Infix "*" := mul64 : b64_scope.
Infix "/" := div64 : b64_scope.

(** The functions whose results depend on the rounding, with the rounded
    operations: the text of each is the text of its exact counterpart. *)
Module Binary64.

Section Aggregator.

Variable Math_pow : number -> number -> number.

Variable config : PreferenceFilteringConfig.

Definition calculateWeightedCompatibility
  (categoryScores : CategoryScores) (weights : PreferenceWeights) : number :=
  let physical_w := w_physical weights in
  let lifestyle_w := w_lifestyle weights in
  let social_w := w_social weights in
  let relationship_w := w_relationship weights in
  let totalWeight :=
    (physical_w + lifestyle_w + social_w + relationship_w)%b64 in
  let normalizedWeights :=
    {| w_physical := (physical_w / totalWeight)%b64;
       w_lifestyle := (lifestyle_w / totalWeight)%b64;
       w_social := (social_w / totalWeight)%b64;
       w_relationship := (relationship_w / totalWeight)%b64 |} in
  if scoringAlgorithm config =? "weighted_average" then
    (score (physical categoryScores) * w_physical normalizedWeights
     + score (lifestyle_cat categoryScores) * w_lifestyle normalizedWeights
     + score (social categoryScores) * w_social normalizedWeights
     + score (relationship categoryScores) * w_relationship normalizedWeights)%b64
  else if scoringAlgorithm config =? "multiplicative" then
    Math_pow
      (score (physical categoryScores) * score (lifestyle_cat categoryScores)
       * score (social categoryScores) * score (relationship categoryScores))%b64
      (of_Z 1 / of_Z 4)%b64
  else if scoringAlgorithm config =? "hybrid" then
    let weightedAverage :=
      (score (physical categoryScores) * w_physical normalizedWeights
       + score (lifestyle_cat categoryScores) * w_lifestyle normalizedWeights
       + score (social categoryScores) * w_social normalizedWeights
       + score (relationship categoryScores) * w_relationship normalizedWeights)%b64 in
    let minScore :=
      JS.min (JS.min (JS.min (score (physical categoryScores))
                             (score (lifestyle_cat categoryScores)))
                     (score (social categoryScores)))
             (score (relationship categoryScores)) in
    let penalty :=
      if (minScore <? lit64 (3 # 10))%js then (minScore / lit64 (3 # 10))%b64
      else one in
    (weightedAverage * penalty)%b64
  else lit64 (5 # 10).

End Aggregator.

(** [analyzeCurrentSettings]. *)
Definition analyzeCurrentSettings (userProfile : UserProfile)
  (currentResults : list PreferenceMatchResult) : CurrentSettings :=
  let avgCompatibility :=
    if (0 <? List.length currentResults)%nat then
      (fold_left (fun sum m => (sum + compatibilityScore m)%b64)
                 currentResults zero
       / of_nat (List.length currentResults))%b64
    else zero in
  let restrictiveness :=
    if (avgCompatibility >? lit64 (8 # 10))%js then "very_strict"
    else if (avgCompatibility >? lit64 (65 # 100))%js then "strict"
    else if (avgCompatibility >? lit64 (5 # 10))%js then "moderate"
    else if (avgCompatibility >? lit64 (35 # 100))%js then "relaxed"
    else "very_relaxed" in
  {| restrictiveness := restrictiveness;
     expectedMatches := List.length currentResults;
     averageCompatibility := avgCompatibility |}.

(** The weights [MatchingService] starts from. *)
Definition initialWeights : MatchingAlgorithmWeights :=
  {| distance := lit64 (3 # 10); age_weight := lit64 (2 # 10);
     commonInterests := lit64 (25 # 100); activityLevel := lit64 (15 # 100);
     profileCompleteness := lit64 (1 # 10) |}.

(** [MatchingService.updateWeights]. *)
Definition totalOf (weights : MatchingAlgorithmWeights) : number :=
  (zero + distance weights + age_weight weights + commonInterests weights
   + activityLevel weights + profileCompleteness weights)%b64.

Definition updateWeights (weights : MatchingAlgorithmWeights)
  (newWeights : PartialWeights) : MatchingAlgorithmWeights :=
  let merged := MatchingService.mergeWeights weights newWeights in
  let totalWeight := totalOf merged in
  if negb (JS.eqb totalWeight one) then
    {| distance := (distance merged / totalWeight)%b64;
       age_weight := (age_weight merged / totalWeight)%b64;
       commonInterests := (commonInterests merged / totalWeight)%b64;
       activityLevel := (activityLevel merged / totalWeight)%b64;
       profileCompleteness := (profileCompleteness merged / totalWeight)%b64 |}
  else merged.

End Binary64.

(** ** The properties as the specification words them *)

(** Aggregation under [weighted_average], as specified: the sum over the
    four categories of (category score x weight / total weight). *)
Definition weightedAverage_spec (categoryScores : CategoryScores)
  (weights : PreferenceWeights) : number :=
  let total :=
    (w_physical weights + w_lifestyle weights + w_social weights
     + w_relationship weights)%js in
  (score (physical categoryScores) * w_physical weights / total
   + score (lifestyle_cat categoryScores) * w_lifestyle weights / total
   + score (social categoryScores) * w_social weights / total
   + score (relationship categoryScores) * w_relationship weights / total)%js.

Definition finiteWeights (p l s r : Q) : PreferenceWeights :=
  {| w_physical := Fin p; w_lifestyle := Fin l; w_social := Fin s;
     w_relationship := Fin r |}.

(** The arithmetic mean of a list of sub-factor values. *)
Definition sum (l : list number) : number :=
  fold_left JS.add l zero.

Definition mean (l : list number) : number :=
  (sum l / of_nat (List.length l))%js.

Definition physicalFactors (b : PhysicalBreakdown) : list number :=
  [b_bodyType b; b_height b; b_age b; b_appearance b].

Definition lifestyleFactors (b : LifestyleBreakdown) : list number :=
  [b_smoking b; b_drinking b; b_exercise b; b_diet b; b_socialHabits b].

Definition socialFactors (b : SocialBreakdown) : list number :=
  [b_education b; b_occupation b; b_interests b; b_languages b;
   b_personality b].

Definition relationshipFactors (b : RelationshipBreakdown) : list number :=
  [b_relationshipType b; b_sexualOrientation b; b_commitmentLevel b;
   b_familyGoals b; b_communication b].

(** A category is the mean of its own breakdown, and all of it is in
    [[0,1]]. *)
Definition categoryWellFormed {B : Type} (factors : B -> list number)
  (c : CategoryScore B) : Prop :=
  score c =~ mean (factors (breakdown c))
  /\ Forall in_unit (factors (breakdown c))
  /\ in_unit (score c).

(** The thresholds [t] with [overall] set to [o] and the per-category
    thresholds unchanged. *)
Definition withOverall (t : MinimumThresholds) (o : number)
  : MinimumThresholds :=
  {| t_overall := o;
     t_physical := t_physical t;
     t_lifestyle := t_lifestyle t;
     t_social := t_social t;
     t_relationship := t_relationship t |}.

(** The candidates (given by their alignments) the gate accepts. *)
Definition accepted (thresholds : MinimumThresholds)
  (pool : list PreferenceAlignment) : list PreferenceAlignment :=
  filter (fun a => meetsMinimumThresholds a thresholds) pool.

(** Ranking properties.  [descending a b]: [a] may stand before [b] in a
    list ordered by compatibility score, highest first. *)
Definition descending (a b : PreferenceMatchResult) : Prop :=
  (compatibilityScore b <=? compatibilityScore a)%js = true.

Definition finiteScore (m : PreferenceMatchResult) : Prop :=
  exists q, compatibilityScore m = Fin q.

(** The results whose compatibility score is [q]. *)
Definition withScore (q : number) (l : list PreferenceMatchResult)
  : list PreferenceMatchResult :=
  filter (fun m => JS.eqb (compatibilityScore m) q) l.

(** A tie-break on candidate id: of two results with equal compatibility
    scores the one standing first has the id that comes [before]. *)
Fixpoint tiesBrokenById (before : string -> string -> bool)
  (l : list PreferenceMatchResult) : bool :=
  match l with
  | [] => true
  | a :: r =>
      forallb (fun b =>
                 implb (JS.eqb (compatibilityScore a) (compatibilityScore b))
                       (before (targetUserId a) (targetUserId b))) r
      && tiesBrokenById before r
  end.

(** Validation as specified: the fields of the criteria that violate a
    rule, and whether an error lists every one of them. *)
Definition distanceViolated (config : MatchingConfig)
  (criteria : MatchingCriteria) : bool :=
  (maxDistance (mc_preferences criteria) >? maxRadius config)%js.

Definition ageRangeViolated (criteria : MatchingCriteria) : bool :=
  match cp_ageRange (mc_preferences criteria) with
  | Some range => (ar_min range <? of_Z 18)%js || (ar_max range >? of_Z 99)%js
  | None => false
  end.

Definition violatedFields (config : MatchingConfig)
  (criteria : MatchingCriteria) : list string :=
  ((if distanceViolated config criteria then ["maxDistance"] else [])
   ++ (if ageRangeViolated criteria then ["ageRange"] else []))%list.

Definition listsEveryField (e : exn) (fields : list string) : bool :=
  match e with
  | MatchingValidationError errors _ =>
      forallb (fun f =>
                 existsb (fun er => match field er with
                                    | Some g => g =? f
                                    | None => false
                                    end) errors) fields
  | Error _ => false
  end.

(** The ids [isDealBreakerTriggered] has a case for. *)
Definition knownDealBreakers : list string :=
  ["smoking"; "no_photos"; "height_mismatch"; "body_type_mismatch";
   "drinking_heavily"; "drug_use"; "no_exercise"; "no_verification";
   "education_mismatch"; "language_barrier"; "inactive_users";
   "new_profiles"; "age_gaps"; "relationship_mismatch"].

(** The tiers of a match, lowest first: of the structured assessment, and
    of the sentence (read off its opening words). *)
Definition assessmentTier (assessment : string) : nat :=
  if assessment =? "excellent" then 3
  else if assessment =? "very_good" then 2
  else if assessment =? "good" then 1
  else 0.

Definition sentenceTier (sentence : list piece) : nat :=
  match sentence with
  | Str opening :: _ =>
      if opening =? "Excellent match (" then 3
      else if opening =? "Very good match (" then 2
      else if opening =? "Good match (" then 1
      else 0
  | _ => 0
  end.

(** *** Properties up to rounding *)

(** All four weights scaled by the same constant, as the caller computes
    them. *)
Definition scaleWeights64 (k : number) (weights : PreferenceWeights)
  : PreferenceWeights :=
  {| w_physical := (k * w_physical weights)%b64;
     w_lifestyle := (k * w_lifestyle weights)%b64;
     w_social := (k * w_social weights)%b64;
     w_relationship := (k * w_relationship weights)%b64 |}.

(** One rounding changes a value of the normal range by a factor between
    [1 - 2^-53] and its inverse [rho]. *)
Definition rho : Q := 9007199254740992 # 9007199254740991.

(** [rho^k]. *)
Fixpoint rpow (k : nat) : Q :=
  match k with
  | O => 1
  | S k => rho * rpow k
  end.

(** [x] and [y] agree up to [k] roundings: each is at most [rho^k] times
    the other.  ([rho^k - 1] is less than [(k + 1) * 2^-53] for the [k] at
    hand.) *)
Definition close (k : nat) (x y : Q) : Prop :=
  x <= y * rpow k /\ y <= x * rpow k.

Definition close_num (k : nat) (a b : number) : Prop :=
  match a, b with
  | Fin x, Fin y => 0 <= x /\ 0 <= y /\ close k x y
  | _, _ => False
  end.

(** [x] is zero, or between [2^a] and [2^b]. *)
Definition magnitude (a b : Z) (x : Q) : Prop :=
  x == 0 \/ (pow2 a <= x /\ x <= pow2 b).

(** A weight of ordinary magnitude: zero, or between [2^-200] and
    [2^200]. *)
Definition ordinary (x : Q) : Prop := magnitude (-200) 200 x.

(** A score of [[0,1]] of ordinary magnitude: zero, or at least
    [2^-200]. *)
Definition ordinaryScore (a : number) : Prop :=
  match a with
  | Fin x => magnitude (-200) 0 x
  | _ => False
  end.

(** A finite score of ordinary magnitude between [lo] and [hi]. *)
Definition scoreWithin (lo hi : Q) (a : number) : Prop :=
  match a with
  | Fin x => magnitude (-200) 0 x /\ lo <= x /\ x <= hi
  | _ => False
  end.

(** In [[0,1]] up to rounding: not [NaN], not negative, and above 1 by
    less than [2^-49]. *)
Definition nearly_unit (a : number) : Prop :=
  match a with
  | Fin x => 0 <= x /\ x <= 1 + (1 # 562949953421312)
  | _ => False
  end.

(** The value of a finite number. *)
Definition valueOf (a : number) : Q :=
  match a with
  | Fin x => x
  | _ => 0
  end.

(** The exact sum of the values of a list. *)
Definition exactSum {A : Type} (val : A -> Q) (l : list A) : Q :=
  fold_right (fun m t => val m + t) 0 l.

(** ** Concrete inputs

    An instance of [Math.pow] at the exponent 1/4 and the profiles of the
    demonstration, for evaluating the model. *)

(** The fourth root of a non-negative rational to eight decimals, by two
    integer square roots. *)
Definition root4 (x : Q) : Q :=
  Z.sqrt (Z.sqrt (Qnum x * 10 ^ 32 / Zpos (Qden x))) # 100000000.

(** [Math.pow(b, 1/4)] in fixed point: a negative base gives [NaN]. *)
Definition Math_pow_quarter (b e : number) : number :=
  match b with
  | Fin x => if Qle_bool 0 x then Fin (root4 x) else NaN
  | PosInf => PosInf
  | NegInf => NaN
  | NaN => NaN
  end.

Definition sampleProfile (id : string) (age_ : Z) (height_ : option Z)
  (bodyType_ smoking_ drinking_ education_ : string)
  (interests_ : list string) (photoCount : nat) : UserProfile :=
  {| userId := id;
     personalInfo :=
       {| age := of_Z age_;
          sexualOrientation := "straight";
          lookingFor := Some ["casual"; "serious"];
          education := Some education_;
          height := option_map of_Z height_;
          bodyType := Some bodyType_;
          languages := Some ["English"];
          lifestyle := Some {| smoking := Some smoking_;
                               drinking := Some drinking_;
                               drugs := None;
                               exercise := Some "regularly";
                               diet := None |};
          interests := Some interests_ |};
     photos := Some (repeat "photo" photoCount);
     preferences := Some {| ageRange := Some {| ar_min := of_Z 24;
                                                 ar_max := of_Z 32 |};
                            bodyTypes := Some ["athletic"; "slim"] |};
     createdAt := None;
     lastActiveAt := None;
     verification := Some {| isVerified := true |} |}.

Definition user001 : UserProfile :=
  sampleProfile "user-001" 28 (Some 175%Z) "athletic" "never" "socially"
                "bachelors" ["fitness"; "travel"; "cooking"] 3.

Definition candidate001 : UserProfile :=
  sampleProfile "candidate-001" 26 (Some 175%Z) "athletic" "never" "socially"
                "bachelors" ["fitness"; "travel"; "reading"] 3.

Definition candidate002 : UserProfile :=
  sampleProfile "candidate-002" 32 None "average" "occasionally" "frequently"
                "masters" ["music"; "art"; "dining"] 1.

(** A value of [Date.now()]. *)
Definition sampleNow : number := of_Z 1700000000000.

(** A profile with no height. *)
Definition user002 : UserProfile :=
  sampleProfile "user-002" 30 None "average" "never" "rarely"
                "bachelors" ["music"] 2.

(** Category scores with the given four values and the breakdowns of
    [user001] against [candidate001]. *)
Definition scoresOf (p l s r : number) : CategoryScores :=
  let c := calculateCategoryScores user001 candidate001 in
  {| physical := {| score := p; breakdown := breakdown (physical c) |};
     lifestyle_cat := {| score := l; breakdown := breakdown (lifestyle_cat c) |};
     social := {| score := s; breakdown := breakdown (social c) |};
     relationship := {| score := r; breakdown := breakdown (relationship c) |} |}.

Definition configWith (algorithm : string) : PreferenceFilteringConfig :=
  {| enableCategoryWeighting := true;
     enableDealBreakerFiltering := true;
     enableMustHaveFiltering := true;
     enableNiceToHaveBoosts := true;
     defaultWeights := defaultWeights defaultConfig;
     scoringAlgorithm := algorithm;
     enableMachineLearning := false;
     enableUserFeedbackLearning := false |}.

Definition sampleSort : SortSpec :=
  {| by_ := "compatibility"; direction := "desc" |}.

Definition sampleCriteria : AdvancedMatchingCriteria :=
  {| preferenceWeights := defaultWeights defaultConfig;
     minimumThresholds := {| t_overall := dec1 6; t_physical := Some (dec1 4);
                             t_lifestyle := Some (dec1 3);
                             t_social := Some (dec1 3);
                             t_relationship := Some (dec1 4) |};
     dealBreakers := ["inactive_users"];
     mustHaves := ["non_smoker"];
     niceToHaves := [];
     sort := sampleSort |}.

Definition scored (id : string) (basic compat : number)
  : PreferenceMatchResult :=
  {| targetUserId := id; basicScore := basic; compatibilityScore := compat |}.

(** Three scored matches with the same compatibility score, in the order
    of their basic scores. *)
Definition tiedMatches : list PreferenceMatchResult :=
  [scored "candidate-002" (dec1 9) (dec1 8);
   scored "candidate-001" (dec1 7) (dec1 8);
   scored "candidate-003" (dec1 5) (dec1 8)].

Definition mixedMatches : list PreferenceMatchResult :=
  [scored "candidate-002" (dec1 9) (dec1 7);
   scored "candidate-001" (dec1 7) (dec1 9);
   scored "candidate-003" (dec1 5) (dec1 7)].

(** Criteria that break both validation rules. *)
Definition invalidCriteria : MatchingCriteria :=
  {| mc_userId := "user-001";
     mc_preferences := {| cp_ageRange := Some {| ar_min := of_Z 17;
                                                 ar_max := of_Z 120 |};
                          maxDistance := of_Z 150 |} |}.

Definition noCooldowns : string -> option number := fun _ => None.

(** The alignments of [candidate001] and [candidate002] with [user001]
    under the default weights, with no random draws consumed. *)
Definition alignmentOf (candidate : UserProfile) : PreferenceAlignment :=
  fst (analyzePreferenceMatch Math_pow_quarter defaultConfig sampleNow
         user001 candidate
         {| preferenceWeights := defaultWeights defaultConfig;
            minimumThresholds := {| t_overall := dec1 6; t_physical := None;
                                    t_lifestyle := None; t_social := None;
                                    t_relationship := None |};
            dealBreakers := [];
            mustHaves := [];
            niceToHaves := [];
            sort := sampleSort |}
         {| draws := fun _ => dec1 5; drawn := 0 |}).

Definition samplePool : list PreferenceAlignment :=
  [alignmentOf candidate001; alignmentOf candidate002].

Definition candidate003 : UserProfile :=
  sampleProfile "candidate-003" 24 (Some 168%Z) "slim" "never" "rarely"
                "high_school" ["fitness"; "cooking"; "hiking"] 2.

(** [candidate001], last active at the time [t]. *)
Definition lastSeenAt (t : number) : UserProfile :=
  {| userId := userId candidate001;
     personalInfo := personalInfo candidate001;
     photos := photos candidate001;
     preferences := preferences candidate001;
     createdAt := createdAt candidate001;
     lastActiveAt := Some t;
     verification := verification candidate001 |}.

Definition smokingCriteria : AdvancedMatchingCriteria :=
  {| preferenceWeights := defaultWeights defaultConfig;
     minimumThresholds := minimumThresholds sampleCriteria;
     dealBreakers := ["smoking"; "no_photos"];
     mustHaves := ["non_smoker"; "active"];
     niceToHaves := ["travel"];
     sort := sampleSort |}.

Definition criteriaSortedBy (key dir : string) : AdvancedMatchingCriteria :=
  {| preferenceWeights := defaultWeights defaultConfig;
     minimumThresholds := minimumThresholds sampleCriteria;
     dealBreakers := [];
     mustHaves := [];
     niceToHaves := [];
     sort := {| by_ := key; direction := dir |} |}.

Definition sampleRng : Rng := {| draws := fun _ => dec1 5; drawn := 0 |}.

Definition validCriteria : MatchingCriteria :=
  {| mc_userId := "user-001";
     mc_preferences := {| cp_ageRange := Some {| ar_min := of_Z 24;
                                                 ar_max := of_Z 32 |};
                          maxDistance := of_Z 25 |} |}.

(** [updateWeights({distance: 0.5})]. *)
Definition newDistanceWeight64 : PartialWeights :=
  {| new_distance := Some (lit64 (5 # 10)); new_age := None;
     new_commonInterests := None; new_activityLevel := None;
     new_profileCompleteness := None |}.

(** Four weights given by decimal literals, as the program holds them. *)
Definition literalWeights (p l s r : Q) : PreferenceWeights :=
  {| w_physical := lit64 p; w_lifestyle := lit64 l; w_social := lit64 s;
     w_relationship := lit64 r |}.

(** Results that all score high, and results that all score low. *)
Definition strictMatches : list PreferenceMatchResult :=
  [scored "candidate-002" (lit64 (9 # 10)) (lit64 (85 # 100));
   scored "candidate-001" (lit64 (7 # 10)) (lit64 (9 # 10));
   scored "candidate-003" (lit64 (5 # 10)) (lit64 (95 # 100))].

Definition relaxedMatches : list PreferenceMatchResult :=
  [scored "candidate-002" (lit64 (9 # 10)) (lit64 (2 # 10));
   scored "candidate-001" (lit64 (7 # 10)) (lit64 (3 # 10));
   scored "candidate-003" (lit64 (5 # 10)) (lit64 (1 # 10))].

(** ** Facts about numbers *)

Lemma num_eq_refl (a : number) : a =~ a.
Proof. destruct a; simpl; auto; reflexivity. Qed.

Lemma num_eq_sym (a b : number) : a =~ b -> b =~ a.
Proof. destruct a, b; simpl; auto; intros H; symmetry; exact H. Qed.

Lemma num_eq_trans (a b c : number) : a =~ b -> b =~ c -> a =~ c.
Proof.
  destruct a, b, c; simpl; auto; try contradiction.
  intros H1 H2; rewrite H1; exact H2.
Qed.

#[global] Instance num_eq_Equivalence : Equivalence num_eq.
Proof.
  split; [exact num_eq_refl | exact num_eq_sym | exact num_eq_trans].
Qed.

#[global] Instance signed_inf_Proper : Proper (Qeq ==> eq) signed_inf.
Proof. intros x y H; unfold signed_inf; rewrite H; reflexivity. Qed.

#[global] Instance neg_Proper : Proper (num_eq ==> num_eq) neg.
Proof.
  intros [x| | | ] [y| | | ]; simpl; auto; intros H; rewrite H; reflexivity.
Qed.

#[global] Instance add_Proper : Proper (num_eq ==> num_eq ==> num_eq) JS.add.
Proof.
  intros [x| | | ] [y| | | ] H1 [u| | | ] [v| | | ] H2;
    simpl in *; auto; try contradiction.
  rewrite H1, H2; reflexivity.
Qed.

#[global] Instance sub_Proper : Proper (num_eq ==> num_eq ==> num_eq) JS.sub.
Proof. intros a b H1 c d H2; unfold JS.sub; rewrite H1, H2; reflexivity. Qed.

#[global] Instance mul_Proper : Proper (num_eq ==> num_eq ==> num_eq) JS.mul.
Proof.
  intros [x| | | ] [y| | | ] H1 [u| | | ] [v| | | ] H2;
    simpl in *; auto; try contradiction;
    try (rewrite H1, H2; reflexivity);
    try (rewrite H1; apply num_eq_refl);
    try (rewrite H2; apply num_eq_refl).
Qed.

#[global] Instance div_Proper : Proper (num_eq ==> num_eq ==> num_eq) JS.div.
Proof.
  intros [x| | | ] [y| | | ] H1 [u| | | ] [v| | | ] H2;
    simpl in *; auto; try contradiction;
    try reflexivity;
    try (rewrite H2; apply num_eq_refl).
  rewrite H2, H1. destruct (Qeq_bool v 0); [apply num_eq_refl|].
  simpl. rewrite H1, H2. reflexivity.
Qed.

#[global] Instance lt_Proper : Proper (num_eq ==> num_eq ==> eq) JS.lt.
Proof.
  intros [x| | | ] [y| | | ] H1 [u| | | ] [v| | | ] H2;
    simpl in *; auto; try contradiction.
  rewrite H1, H2; reflexivity.
Qed.

#[global] Instance in_unit_Proper : Proper (num_eq ==> iff) in_unit.
Proof.
  intros [x| | | ] [y| | | ] H; simpl in *; try tauto.
  rewrite H; tauto.
Qed.

Lemma Qeq_bool_false (x : Q) : ~ x == 0 -> Qeq_bool x 0 = false.
Proof.
  intros H. destruct (Qeq_bool x 0) eqn:E; [|reflexivity].
  apply Qeq_bool_eq in E. contradiction.
Qed.

Lemma Qle_bool_true (x y : Q) : x <= y -> Qle_bool x y = true.
Proof. intros H; apply Qle_bool_iff; exact H. Qed.

Lemma Qle_bool_false (x y : Q) : y < x -> Qle_bool x y = false.
Proof.
  intros H. destruct (Qle_bool x y) eqn:E; [|reflexivity].
  apply Qle_bool_iff in E. lra.
Qed.

Lemma signed_inf_pos (x : Q) : 0 < x -> signed_inf x = PosInf.
Proof.
  intros H. unfold signed_inf.
  rewrite (proj1 (Qgt_alt x 0) H). reflexivity.
Qed.

Lemma signed_inf_neg (x : Q) : x < 0 -> signed_inf x = NegInf.
Proof.
  intros H. unfold signed_inf.
  rewrite (proj1 (Qlt_alt x 0) H). reflexivity.
Qed.

Lemma signed_inf_zero (x : Q) : x == 0 -> signed_inf x = NaN.
Proof.
  intros H. unfold signed_inf.
  rewrite (proj1 (Qeq_alt x 0) H). reflexivity.
Qed.

(** ** Binary64 rounding *)

(** *** Powers of two *)
Lemma pow2_pos (e : Z) : 0 < pow2 e.
Proof. apply Qpower_0_lt. reflexivity. Qed.

Lemma pow2_add (a b : Z) : pow2 (a + b) == pow2 a * pow2 b.
Proof. apply Qpower_plus. discriminate. Qed.

Lemma pow2_le (a b : Z) : (a <= b)%Z -> pow2 a <= pow2 b.
Proof. intros H. apply Qpower_le_compat_l; [exact H|]. discriminate. Qed.

Lemma pow2_lt (a b : Z) : (a < b)%Z -> pow2 a < pow2 b.
Proof. intros H. apply Qpower_lt_compat_l; [exact H|]. reflexivity. Qed.

Lemma pow2_lt_inv (a b : Z) : pow2 a < pow2 b -> (a < b)%Z.
Proof.
  intros H. destruct (Z_lt_le_dec a b) as [L|L]; [exact L|].
  apply pow2_le in L. apply Qle_not_lt in L. contradiction.
Qed.

Lemma pow2_succ (a : Z) : pow2 (a + 1) == 2 * pow2 a.
Proof. rewrite pow2_add. change (pow2 1) with 2. ring. Qed.

Lemma pow2_of_Z (k : Z) : (0 <= k)%Z -> pow2 k == inject_Z (2 ^ k).
Proof. intros H. symmetry. apply (Zpower_Qpower 2 k H). Qed.


Lemma Zlog2_pow2 (n : Z) :
  (0 < n)%Z ->
  pow2 (Z.log2 n) <= inject_Z n /\ inject_Z n < pow2 (Z.log2 n + 1).
Proof.
  intros H. destruct (Z.log2_spec n H) as [L U].
  pose proof (Z.log2_nonneg n) as N.
  rewrite !pow2_of_Z by lia. rewrite <- Zle_Qle, <- Zlt_Qlt.
  rewrite Z.add_1_r. split; assumption.
Qed.

(** [ilog2 q] is the exponent of the binade of [q]. *)
Lemma ilog2_spec (q : Q) :
  0 < q -> pow2 (ilog2 q) <= q /\ q < pow2 (ilog2 q + 1).
Proof.
  intros Hq. unfold ilog2. destruct q as [n d].
  cbn [Qnum Qden].
  assert (Hn : (0 < n)%Z) by (unfold Qlt in Hq; simpl in Hq; lia).
  destruct (Zlog2_pow2 n Hn) as [La Ua].
  destruct (Zlog2_pow2 (Zpos d) eq_refl) as [Lb Ub].
  set (a := Z.log2 n) in *. set (b := Z.log2 (Zpos d)) in *.
  assert (E : (n # d) * inject_Z (Zpos d) == inject_Z n).
  { rewrite (Qmake_Qdiv n d). field. discriminate. }
  assert (HD : 0 < inject_Z (Z.pos d)) by reflexivity.
  assert (EA : pow2 a == pow2 (a - b) * pow2 b).
  { rewrite <- pow2_add. replace (a - b + b)%Z with a by lia. reflexivity. }
  assert (EA1 : pow2 (a + 1) == 2 * pow2 a) by apply pow2_succ.
  assert (EB1 : pow2 (b + 1) == 2 * pow2 b) by apply pow2_succ.
  assert (EP1 : pow2 (a - b) == 2 * pow2 (a - b - 1)).
  { rewrite <- pow2_succ. replace (a - b - 1 + 1)%Z with (a - b)%Z by lia.
    reflexivity. }
  assert (EP2 : pow2 (a - b + 1) == 2 * pow2 (a - b)) by apply pow2_succ.
  pose proof (pow2_pos (a - b)) as HP. pose proof (pow2_pos b) as HB.
  pose proof (pow2_pos (a - b - 1)) as HP'.
  rewrite EA1 in Ua. rewrite EB1 in Ub. clear EA1 EB1.
  destruct (Qle_bool (pow2 (a - b)) (n # d)) eqn:C.
  - apply Qle_bool_iff in C. split; [exact C|].
    rewrite EP2. clear EP2 EP1 HP' C.
    generalize dependent (pow2 (a - b)). generalize dependent (pow2 a).
    generalize dependent (pow2 b). generalize dependent (inject_Z (Z.pos d)).
    generalize dependent (inject_Z n). generalize dependent (n # d).
    intros. nra.
  - assert (C' : n # d < pow2 (a - b)).
    { destruct (Qlt_le_dec (n # d) (pow2 (a - b))) as [H|H]; [exact H|].
      apply Qle_bool_iff in H. congruence. }
    replace (a - b - 1 + 1)%Z with (a - b)%Z by lia.
    split; [|exact C']. clear EP2 C C'.
    generalize dependent (pow2 (a - b - 1)).
    generalize dependent (pow2 (a - b)). generalize dependent (pow2 a).
    generalize dependent (pow2 b). generalize dependent (inject_Z (Z.pos d)).
    generalize dependent (inject_Z n). generalize dependent (n # d).
    intros. nra.
Qed.

Lemma nearest_even_spec (m : Q) :
  m - (1 # 2) <= inject_Z (nearest_even m)
  /\ inject_Z (nearest_even m) <= m + (1 # 2).
Proof.
  unfold nearest_even.
  pose proof (Qfloor_le m) as L. pose proof (Qlt_floor m) as U.
  rewrite inject_Z_plus in U. change (inject_Z 1) with 1 in U.
  destruct (Qcompare (m - inject_Z (Qfloor m)) (1 # 2)) eqn:C.
  - apply Qeq_alt in C. destruct (Z.even (Qfloor m)).
    + split; lra.
    + rewrite inject_Z_plus. change (inject_Z 1) with 1. split; lra.
  - apply Qlt_alt in C. split; lra.
  - apply Qgt_alt in C. rewrite inject_Z_plus. change (inject_Z 1) with 1.
    split; lra.
Qed.

Lemma nearest_even_nonneg (m : Q) : 0 <= m -> (0 <= nearest_even m)%Z.
Proof.
  intros H. unfold nearest_even.
  assert (F : (0 <= Qfloor m)%Z).
  { change 0%Z with (Qfloor 0). apply Qfloor_resp_le. exact H. }
  destruct (Qcompare _ _); [destruct (Z.even _)| |]; lia.
Qed.

(** A value at most an integer does not round above it. *)
Lemma nearest_even_le (m : Q) (k : Z) :
  m <= inject_Z k -> (nearest_even m <= k)%Z.
Proof.
  intros H. destruct (nearest_even_spec m) as [_ U].
  destruct (Z_le_gt_dec (nearest_even m) k) as [L|G]; [exact L|].
  assert (G' : (k + 1 <= nearest_even m)%Z) by lia.
  rewrite Zle_Qle, inject_Z_plus in G'. change (inject_Z 1) with 1 in G'.
  lra.
Qed.

Lemma ilog2_le (q : Q) (k : Z) : 0 < q -> q <= pow2 k -> (ilog2 q <= k)%Z.
Proof.
  intros Hq Hk. destruct (ilog2_spec q Hq) as [L _].
  destruct (Z_le_gt_dec (ilog2 q) k) as [H|H]; [exact H|].
  assert (pow2 k < pow2 (ilog2 q)) by (apply pow2_lt; lia). lra.
Qed.

Lemma ilog2_ge (q : Q) (k : Z) : 0 < q -> pow2 k <= q -> (k <= ilog2 q)%Z.
Proof.
  intros Hq Hk. destruct (ilog2_spec q Hq) as [_ U].
  assert (pow2 k < pow2 (ilog2 q + 1)) by lra.
  apply pow2_lt_inv in H. lia.
Qed.

(** In the normal range rounding commits a relative error of at most
    [2^-53]. *)
Lemma round_pos_accurate (q : Q) :
  pow2 (-1022) <= q -> q <= pow2 1023 ->
  exists y, round_pos q = Fin y /\ q <= y * rho /\ y <= q * rho.
Proof.
  intros Hlo Hhi.
  assert (Hq : 0 < q) by (pose proof (pow2_pos (-1022)); lra).
  pose proof (ilog2_le q 1023 Hq Hhi) as E1.
  pose proof (ilog2_ge q (-1022) Hq Hlo) as E2.
  destruct (ilog2_spec q Hq) as [L U].
  unfold round_pos.
  replace (Z.max (ilog2 q - 52) (-1074)) with (ilog2 q - 52)%Z by lia.
  set (e := ilog2 q) in *.
  pose proof (pow2_pos (e - 52)) as HP.
  destruct (nearest_even_spec (q / pow2 (e - 52))) as [NL NU].
  generalize dependent (inject_Z (nearest_even (q / pow2 (e - 52)))).
  intros n NL NU.
  assert (EP : pow2 (e - 52) == pow2 e * (1 # 4503599627370496)).
  { replace (e - 52)%Z with (e + -52)%Z by lia. rewrite pow2_add.
    reflexivity. }
  assert (EM : q / pow2 (e - 52) * pow2 (e - 52) == q) by (field; lra).
  assert (EH : pow2 1024 == 2 * pow2 1023) by (apply (pow2_succ 1023)).
  assert (B : q - pow2 (e - 52) * (1 # 2) <= n * pow2 (e - 52)
              /\ n * pow2 (e - 52) <= q + pow2 (e - 52) * (1 # 2)).
  { clear EP. generalize dependent (q / pow2 (e - 52)). intros m NL NU EM.
    generalize dependent (pow2 (e - 52)). intros P HP EM. split; nra. }
  clear NL NU EM.
  generalize dependent (n * pow2 (e - 52)). intros r B.
  generalize dependent (pow2 (e - 52)). intros P HP EP B.
  rewrite (Qle_bool_false (pow2 1024) r).
  - exists r. split; [reflexivity|]. unfold rho.
    generalize dependent (pow2 e). intros. split; lra.
  - rewrite EH. generalize dependent (pow2 e). generalize dependent (pow2 1023).
    intros. lra.
Qed.

(** A value at most a representable power of two does not round above it,
    whatever its magnitude. *)
Lemma round_pos_le_pow2 (q : Q) (k : Z) :
  0 < q -> q <= pow2 k -> (-1074 <= k)%Z -> (k <= 1023)%Z ->
  exists y, round_pos q = Fin y /\ 0 <= y /\ y <= pow2 k.
Proof.
  intros Hq Hk K1 K2.
  pose proof (ilog2_le q k Hq Hk) as E.
  unfold round_pos.
  set (ex := Z.max (ilog2 q - 52) (-1074)).
  assert (Hex : (ex <= k)%Z) by (unfold ex; lia).
  pose proof (pow2_pos ex) as HP.
  assert (EK : pow2 k == inject_Z (2 ^ (k - ex)) * pow2 ex).
  { rewrite <- pow2_of_Z by lia. rewrite <- pow2_add.
    replace (k - ex + ex)%Z with k by lia. reflexivity. }
  assert (M : q / pow2 ex <= inject_Z (2 ^ (k - ex))).
  { apply Qle_shift_div_r; [exact HP|]. rewrite <- EK. exact Hk. }
  pose proof (nearest_even_le _ _ M) as N.
  assert (N0 : (0 <= nearest_even (q / pow2 ex))%Z).
  { apply nearest_even_nonneg. apply Qle_shift_div_l; [exact HP|]. lra. }
  rewrite Zle_Qle in N, N0. change (inject_Z 0) with 0 in N0.
  generalize dependent (inject_Z (nearest_even (q / pow2 ex))). intros n N N0.
  assert (R : n * pow2 ex <= pow2 k).
  { rewrite EK. apply Qmult_le_compat_r; [exact N|lra]. }
  assert (R0 : 0 <= n * pow2 ex) by (apply Qmult_le_0_compat; lra).
  assert (EH : pow2 k < pow2 1024) by (apply pow2_lt; lia).
  rewrite (Qle_bool_false (pow2 1024) (n * pow2 ex)) by lra.
  exists (n * pow2 ex). split; [reflexivity|]. split; assumption.
Qed.

(** *** [round64] *)

Lemma round64_Proper (x y : Q) : x == y -> round64 x = round64 y.
Proof. intros H. unfold round64. rewrite (Qred_complete x y H). reflexivity. Qed.

Lemma round64_zero (x : Q) : x == 0 -> round64 x = Fin 0.
Proof. intros H. rewrite (round64_Proper x 0 H). reflexivity. Qed.

Lemma round64_pos (x : Q) : 0 < x -> round64 x = round_pos (Qred x).
Proof.
  intros H. unfold round64.
  assert (G : 0 < Qred x) by (rewrite Qred_correct; exact H).
  apply Qgt_alt in G. rewrite G. reflexivity.
Qed.



Lemma round64_accurate (x : Q) :
  pow2 (-1022) <= x -> x <= pow2 1023 ->
  exists y, round64 x = Fin y /\ x <= y * rho /\ y <= x * rho.
Proof.
  intros Hlo Hhi.
  assert (Hx : 0 < x) by (pose proof (pow2_pos (-1022)); lra).
  rewrite (round64_pos x Hx).
  destruct (round_pos_accurate (Qred x)) as [y [E [A B]]].
  - rewrite Qred_correct; exact Hlo.
  - rewrite Qred_correct; exact Hhi.
  - rewrite Qred_correct in A, B. exists y. auto.
Qed.

Lemma round64_le_pow2 (x : Q) (k : Z) :
  0 <= x -> x <= pow2 k -> (-1074 <= k)%Z -> (k <= 1023)%Z ->
  exists y, round64 x = Fin y /\ 0 <= y /\ y <= pow2 k.
Proof.
  intros H0 Hk K1 K2.
  destruct (Qle_lt_or_eq _ _ H0) as [Hx|Hx].
  - rewrite (round64_pos x Hx).
    apply round_pos_le_pow2; try assumption; rewrite Qred_correct; assumption.
  - rewrite (round64_zero x) by (symmetry; exact Hx).
    exists 0. split; [reflexivity|]. pose proof (pow2_pos k). split; lra.
Qed.

(** *** Relative error *)

Lemma rho_gt_1 : 1 < rho.
Proof. reflexivity. Qed.

Lemma rpow_ge_1 (k : nat) : 1 <= rpow k.
Proof.
  induction k as [|k IH]; simpl; [lra|].
  pose proof rho_gt_1. generalize dependent rho. intros. nra.
Qed.

Lemma rpow_add (j k : nat) : rpow (j + k) == rpow j * rpow k.
Proof. induction j as [|j IH]; simpl; [ring|]. rewrite IH. ring. Qed.

Lemma rpow_le (j k : nat) : (j <= k)%nat -> rpow j <= rpow k.
Proof.
  intros H. replace k with (j + (k - j))%nat by lia. rewrite rpow_add.
  pose proof (rpow_ge_1 j). pose proof (rpow_ge_1 (k - j)).
  generalize dependent (rpow j). generalize dependent (rpow (k - j)).
  intros. nra.
Qed.

(** The accumulated error stays small over thousands of roundings. *)
Lemma rpow_linear (k : nat) :
  (k <= 2000)%nat ->
  rpow k <= 1 + inject_Z (Z.of_nat k) * (1 # 2251799813685248).
Proof.
  induction k as [|k IH]; intros H.
  - cbn [rpow Z.of_nat]. change (inject_Z 0) with 0. lra.
  - assert (Hk : (k <= 2000)%nat) by lia. specialize (IH Hk).
    rewrite Nat2Z.inj_succ, <- Z.add_1_r, inject_Z_plus.
    change (inject_Z 1) with 1. cbn [rpow]. unfold rho.
    assert (B0 : 0 <= inject_Z (Z.of_nat k)).
    { change 0 with (inject_Z 0). rewrite <- Zle_Qle. lia. }
    assert (B1 : inject_Z (Z.of_nat k) <= 2000).
    { change 2000 with (inject_Z 2000). rewrite <- Zle_Qle. lia. }
    generalize dependent (inject_Z (Z.of_nat k)). generalize dependent (rpow k).
    intros. lra.
Qed.

Lemma rpow_small (k : nat) : (k <= 2000)%nat -> rpow k <= 2.
Proof.
  intros H. pose proof (rpow_linear k H) as L.
  assert (B1 : inject_Z (Z.of_nat k) <= 2000).
  { change 2000 with (inject_Z 2000). rewrite <- Zle_Qle. lia. }
  generalize dependent (inject_Z (Z.of_nat k)). intros. lra.
Qed.

#[global] Instance close_Proper (k : nat) :
  Proper (Qeq ==> Qeq ==> iff) (close k).
Proof. intros x x' Hx y y' Hy. unfold close. rewrite Hx, Hy. reflexivity. Qed.

#[global] Instance magnitude_Proper (a b : Z) : Proper (Qeq ==> iff) (magnitude a b).
Proof. intros x x' Hx. unfold magnitude. rewrite Hx. reflexivity. Qed.

Lemma close_refl (x : Q) : close 0 x x.
Proof. unfold close. simpl. split; lra. Qed.

Lemma close_weaken (j k : nat) (x y : Q) :
  (j <= k)%nat -> 0 <= x -> 0 <= y -> close j x y -> close k x y.
Proof.
  intros H Hx Hy [A B]. apply rpow_le in H. pose proof (rpow_ge_1 j).
  unfold close. generalize dependent (rpow j). generalize dependent (rpow k).
  intros. split; nra.
Qed.

Lemma close_sym (k : nat) (x y : Q) : close k x y -> close k y x.
Proof. intros [A B]. split; assumption. Qed.

Lemma close_trans (j k : nat) (x y z : Q) :
  0 <= x -> 0 <= y -> 0 <= z ->
  close j x y -> close k y z -> close (j + k) x z.
Proof.
  intros Hx Hy Hz [A B] [C D]. unfold close. rewrite rpow_add.
  pose proof (rpow_ge_1 j). pose proof (rpow_ge_1 k).
  generalize dependent (rpow j). generalize dependent (rpow k).
  intros. split; nra.
Qed.

Lemma close_add (k : nat) (x x' y y' : Q) :
  close k x x' -> close k y y' -> close k (x + y) (x' + y').
Proof.
  intros [A B] [C D]. unfold close. generalize dependent (rpow k).
  intros. split; nra.
Qed.

Lemma close_mul (j k : nat) (x x' y y' : Q) :
  0 <= x -> 0 <= x' -> 0 <= y -> 0 <= y' ->
  close j x x' -> close k y y' -> close (j + k) (x * y) (x' * y').
Proof.
  intros Hx Hx' Hy Hy' [A B] [C D]. unfold close. rewrite rpow_add.
  pose proof (rpow_ge_1 j). pose proof (rpow_ge_1 k).
  generalize dependent (rpow j). generalize dependent (rpow k).
  intros Rk C D Hk Rj A B Hj.
  split.
  - apply Qle_trans with ((x' * Rj) * (y' * Rk)); [|ring_simplify; lra].
    apply Qmult_le_compat_nonneg; split; assumption.
  - apply Qle_trans with ((x * Rj) * (y * Rk)); [|ring_simplify; lra].
    apply Qmult_le_compat_nonneg; split; assumption.
Qed.

Lemma close_inv (k : nat) (y y' : Q) :
  0 < y -> 0 < y' -> close k y y' -> close k (/ y) (/ y').
Proof.
  intros Hy Hy' [A B]. unfold close. pose proof (rpow_ge_1 k).
  generalize dependent (rpow k). intros R A B HR.
  split.
  - setoid_replace (/ y' * R) with (R / y') by (unfold Qdiv; ring).
    apply Qle_shift_div_l; [exact Hy'|].
    setoid_replace (/ y * y') with (y' / y) by (unfold Qdiv; ring).
    apply Qle_shift_div_r; [exact Hy|]. lra.
  - setoid_replace (/ y * R) with (R / y) by (unfold Qdiv; ring).
    apply Qle_shift_div_l; [exact Hy|].
    setoid_replace (/ y' * y) with (y / y') by (unfold Qdiv; ring).
    apply Qle_shift_div_r; [exact Hy'|]. lra.
Qed.

Lemma close_div (j k : nat) (x x' y y' : Q) :
  0 <= x -> 0 <= x' -> 0 < y -> 0 < y' ->
  close j x x' -> close k y y' -> close (j + k) (x / y) (x' / y').
Proof.
  intros Hx Hx' Hy Hy' HX HY. unfold Qdiv.
  apply close_mul; try assumption.
  - apply Qlt_le_weak, Qinv_lt_0_compat; exact Hy.
  - apply Qlt_le_weak, Qinv_lt_0_compat; exact Hy'.
  - apply close_inv; assumption.
Qed.

Lemma close_zero (k : nat) (X x : Q) : X == 0 -> 0 <= x -> close k X x -> x == 0.
Proof. intros HX Hx [_ B]. rewrite HX in B. lra. Qed.

(** *** Magnitudes *)

Lemma magnitude_nonneg (a b : Z) (x : Q) : magnitude a b x -> 0 <= x.
Proof. intros [H|[H _]]; [lra|]. pose proof (pow2_pos a). lra. Qed.

Lemma magnitude_weaken (a b a' b' : Z) (x : Q) :
  magnitude a b x -> (a' <= a)%Z -> (b <= b')%Z -> magnitude a' b' x.
Proof.
  intros [H|[L U]] Ha Hb; [left; exact H|right].
  apply pow2_le in Ha, Hb. split; lra.
Qed.

Lemma magnitude_add (a b : Z) (x y : Q) :
  magnitude a b x -> magnitude a b y -> magnitude a (b + 1) (x + y).
Proof.
  intros Hx Hy. pose proof (magnitude_nonneg _ _ _ Hx). pose proof (magnitude_nonneg _ _ _ Hy).
  pose proof (pow2_succ b) as E. pose proof (pow2_pos b).
  destruct Hx as [Hx|[L U]], Hy as [Hy|[L' U']].
  - left. lra.
  - right. split; lra.
  - right. split; lra.
  - right. split; lra.
Qed.

Lemma magnitude_mul (a b c d : Z) (x y : Q) :
  magnitude a b x -> magnitude c d y -> magnitude (a + c) (b + d) (x * y).
Proof.
  intros [Hx|[L U]] [Hy|[L' U']].
  - left. rewrite Hx. ring.
  - left. rewrite Hx. ring.
  - left. rewrite Hy. ring.
  - right. rewrite !pow2_add.
    pose proof (pow2_pos a). pose proof (pow2_pos c).
    split; apply Qmult_le_compat_nonneg; split; lra.
Qed.

Lemma magnitude_div (a b c d : Z) (x y : Q) :
  magnitude a b x -> pow2 c <= y -> y <= pow2 d -> magnitude (a - d) (b - c) (x / y).
Proof.
  intros Hx L' U'. pose proof (pow2_pos c) as Hc. pose proof (pow2_pos d) as Hd.
  destruct Hx as [Hx|[L U]].
  - left. rewrite Hx. field. lra.
  - right. pose proof (pow2_pos a) as Ha.
    assert (Ea : pow2 a == pow2 (a - d) * pow2 d).
    { rewrite <- pow2_add. replace (a - d + d)%Z with a by lia. reflexivity. }
    assert (Eb : pow2 b == pow2 (b - c) * pow2 c).
    { rewrite <- pow2_add. replace (b - c + c)%Z with b by lia. reflexivity. }
    pose proof (pow2_pos (a - d)). pose proof (pow2_pos (b - c)).
    split.
    + apply Qle_shift_div_l; [lra|].
      apply Qle_trans with (pow2 (a - d) * pow2 d); [|lra].
      apply Qmult_le_compat_nonneg; split; lra.
    + apply Qle_shift_div_r; [lra|].
      apply Qle_trans with (pow2 (b - c) * pow2 c); [lra|].
      apply Qmult_le_compat_nonneg; split; lra.
Qed.

(** One rounding: a value within relative error [rho^k] of an exact
    quantity of ordinary magnitude rounds to a value within [rho^(k+1)]. *)
Lemma round64_step (k : nat) (X x : Q) (a b : Z) :
  0 <= x -> close k X x -> (k <= 2000)%nat ->
  magnitude a b X -> (-1021 <= a)%Z -> (b <= 1022)%Z ->
  exists y, round64 x = Fin y /\ 0 <= y /\ close (S k) X y.
Proof.
  intros Hx HC Hk HX Ha Hb.
  destruct HX as [HX|[L U]].
  - pose proof (close_zero k X x HX Hx HC) as Zx.
    rewrite (round64_zero x Zx). exists 0. split; [reflexivity|].
    split; [lra|]. unfold close. rewrite HX. split; lra.
  - pose proof (rpow_small k Hk) as R2. pose proof (rpow_ge_1 k) as R1.
    destruct HC as [A B].
    pose proof (pow2_pos a) as Pa.
    assert (La : pow2 (-1022) <= pow2 (a - 1)) by (apply pow2_le; lia).
    assert (Ea : pow2 (a - 1 + 1) == 2 * pow2 (a - 1)) by apply pow2_succ.
    replace (a - 1 + 1)%Z with a in Ea by lia.
    assert (Ub : pow2 (b + 1) <= pow2 1023) by (apply pow2_le; lia).
    pose proof (pow2_succ b) as Eb.
    destruct (round64_accurate x) as [y [E [C D]]].
    + generalize dependent (rpow k). intros. nra.
    + generalize dependent (rpow k). intros. nra.
    + exists y. split; [exact E|].
      assert (Hy : 0 <= y).
      { pose proof rho_gt_1. generalize dependent rho.
        generalize dependent (rpow k). intros. nra. }
      split; [exact Hy|].
      unfold close. cbn [rpow]. pose proof rho_gt_1.
      generalize dependent rho. generalize dependent (rpow k).
      intros. split; nra.
Qed.

(** ** Weight normalization (aggregator) *)

Lemma add_fin (x y : Q) : (Fin x + Fin y)%b64 = round64 (x + y).
Proof. reflexivity. Qed.

Lemma mul_fin (x y : Q) : (Fin x * Fin y)%b64 = round64 (x * y).
Proof. reflexivity. Qed.

Lemma div_fin (x y : Q) : ~ y == 0 -> (Fin x / Fin y)%b64 = round64 (x / y).
Proof.
  intros H. unfold div64. cbn [JS.div].
  rewrite (Qeq_bool_false y H). reflexivity.
Qed.

(** The left-to-right rounded sum of four values. *)
Lemma sum4_close (K : nat) (a b : Z) (X1 X2 X3 X4 p1 p2 p3 p4 : Q) :
  (K <= 19)%nat -> (-1021 <= a)%Z -> (b <= 1019)%Z ->
  0 <= p1 -> 0 <= p2 -> 0 <= p3 -> 0 <= p4 ->
  close K X1 p1 -> close K X2 p2 -> close K X3 p3 -> close K X4 p4 ->
  magnitude a b X1 -> magnitude a b X2 -> magnitude a b X3 -> magnitude a b X4 ->
  exists v, (Fin p1 + Fin p2 + Fin p3 + Fin p4)%b64 = Fin v /\ 0 <= v
            /\ close (K + 3) (X1 + X2 + X3 + X4) v.
Proof.
  intros HK Ha Hb P1 P2 P3 P4 C1 C2 C3 C4 Z1 Z2 Z3 Z4.
  pose proof (magnitude_nonneg _ _ _ Z1). pose proof (magnitude_nonneg _ _ _ Z2).
  pose proof (magnitude_nonneg _ _ _ Z3). pose proof (magnitude_nonneg _ _ _ Z4).
  rewrite add_fin.
  destruct (round64_step K (X1 + X2) (p1 + p2) a (b + 1)) as [t1 [E1 [T1 D1]]];
    try lia; [lra|apply close_add; assumption|apply magnitude_add; assumption|].
  rewrite E1, add_fin.
  destruct (round64_step (S K) (X1 + X2 + X3) (t1 + p3) a (b + 1 + 1))
    as [t2 [E2 [T2 D2]]]; try lia.
  { lra. }
  { apply close_add; [exact D1|]. apply (close_weaken K); auto. }
  { apply magnitude_add; [apply magnitude_add; assumption|].
    apply (magnitude_weaken a b); [assumption|lia|lia]. }
  rewrite E2, add_fin.
  destruct (round64_step (S (S K)) (X1 + X2 + X3 + X4) (t2 + p4) a (b + 1 + 1 + 1))
    as [t3 [E3 [T3 D3]]]; try lia.
  { lra. }
  { apply close_add; [exact D2|]. apply (close_weaken K); auto. }
  { apply magnitude_add; [apply magnitude_add; [apply magnitude_add; assumption|]|].
    - apply (magnitude_weaken a b); [assumption|lia|lia].
    - apply (magnitude_weaken a b); [assumption|lia|lia]. }
  exists t3. split; [exact E3|]. split; [exact T3|].
  replace (K + 3)%nat with (S (S (S K))) by lia. exact D3.
Qed.

Lemma magnitude_sum4 (a b : Z) (X1 X2 X3 X4 : Q) :
  magnitude a b X1 -> magnitude a b X2 -> magnitude a b X3 -> magnitude a b X4 ->
  magnitude a (b + 3) (X1 + X2 + X3 + X4).
Proof.
  intros Z1 Z2 Z3 Z4.
  replace (b + 3)%Z with (b + 1 + 1 + 1)%Z by lia.
  apply magnitude_add; [apply magnitude_add; [apply magnitude_add; assumption|]|].
  - apply (magnitude_weaken a b); [assumption|lia|lia].
  - apply (magnitude_weaken a b); [assumption|lia|lia].
Qed.

(** One term of the weighted average: the score times the normalized
    weight. *)
Lemma term64_close (j : nat) (W w T t sc : Q) :
  (j <= 7)%nat -> 0 <= w -> close j W w -> magnitude (-300) 300 W ->
  0 < t -> close (j + 3) T t -> pow2 (-300) <= T -> T <= pow2 303 ->
  magnitude (-200) 0 sc ->
  exists p, (Fin sc * (Fin w / Fin t))%b64 = Fin p /\ 0 <= p
            /\ close (2 * j + 5) (sc * (W / T)) p
            /\ magnitude (-803) 600 (sc * (W / T)).
Proof.
  intros Hj Hw CW ZW Ht CT TL TU Zs.
  pose proof (magnitude_nonneg _ _ _ ZW) as HW. pose proof (magnitude_nonneg _ _ _ Zs) as Hs.
  assert (HT : 0 < T) by (pose proof (pow2_pos (-300)); lra).
  assert (ZQ : magnitude (-603) 600 (W / T)).
  { replace (-603)%Z with (-300 - 303)%Z by lia.
    replace 600%Z with (300 - -300)%Z by lia. apply magnitude_div; assumption. }
  rewrite div_fin by lra.
  destruct (round64_step (j + (j + 3)) (W / T) (w / t) (-603) 600)
    as [n [En [Hn Cn]]]; try lia.
  { apply Qle_shift_div_l; lra. }
  { apply close_div; try assumption; lra. }
  { exact ZQ. }
  rewrite En, mul_fin.
  assert (ZP : magnitude (-803) 600 (sc * (W / T))).
  { replace (-803)%Z with (-200 + -603)%Z by lia.
    replace 600%Z with (0 + 600)%Z by lia. apply magnitude_mul; assumption. }
  destruct (round64_step (0 + S (j + (j + 3))) (sc * (W / T)) (sc * n) (-803) 600)
    as [p [Ep [Hp Cp]]]; try lia.
  { apply Qmult_le_0_compat; assumption. }
  { apply close_mul; try assumption.
    - apply magnitude_nonneg in ZQ. exact ZQ.
    - apply close_refl. }
  { exact ZP. }
  exists p. split; [exact Ep|]. split; [exact Hp|]. split; [|exact ZP].
  replace (2 * j + 5)%nat with (S (0 + S (j + (j + 3)))) by lia. exact Cp.
Qed.

(** The weighted average as the code computes it, against its exact value. *)
Lemma weighted_average64_close (j : nat)
  (W1 W2 W3 W4 w1 w2 w3 w4 s1 s2 s3 s4 : Q) :
  (j <= 6)%nat ->
  0 <= w1 -> 0 <= w2 -> 0 <= w3 -> 0 <= w4 ->
  close j W1 w1 -> close j W2 w2 -> close j W3 w3 -> close j W4 w4 ->
  magnitude (-300) 300 W1 -> magnitude (-300) 300 W2 -> magnitude (-300) 300 W3 ->
  magnitude (-300) 300 W4 -> 0 < W1 + W2 + W3 + W4 ->
  magnitude (-200) 0 s1 -> magnitude (-200) 0 s2 -> magnitude (-200) 0 s3 -> magnitude (-200) 0 s4 ->
  exists t v,
    (Fin w1 + Fin w2 + Fin w3 + Fin w4)%b64 = Fin t /\ 0 < t
    /\ (Fin s1 * (Fin w1 / Fin t) + Fin s2 * (Fin w2 / Fin t)
        + Fin s3 * (Fin w3 / Fin t) + Fin s4 * (Fin w4 / Fin t))%b64 = Fin v
    /\ 0 <= v
    /\ close (2 * j + 8)
         (s1 * (W1 / (W1 + W2 + W3 + W4)) + s2 * (W2 / (W1 + W2 + W3 + W4))
          + s3 * (W3 / (W1 + W2 + W3 + W4)) + s4 * (W4 / (W1 + W2 + W3 + W4)))
         v
    /\ magnitude (-803) 603
         (s1 * (W1 / (W1 + W2 + W3 + W4)) + s2 * (W2 / (W1 + W2 + W3 + W4))
          + s3 * (W3 / (W1 + W2 + W3 + W4)) + s4 * (W4 / (W1 + W2 + W3 + W4))).
Proof.
  intros Hj P1 P2 P3 P4 C1 C2 C3 C4 Z1 Z2 Z3 Z4 HT S1 S2 S3 S4.
  destruct (sum4_close j (-300) 300 W1 W2 W3 W4 w1 w2 w3 w4)
    as [t [Et [Ht Ct]]]; try assumption; try lia.
  set (T := W1 + W2 + W3 + W4) in *.
  assert (ZT : magnitude (-300) 303 T) by (apply (magnitude_sum4 (-300) 300); assumption).
  assert (TB : pow2 (-300) <= T /\ T <= pow2 303).
  { destruct ZT as [ZT|ZT]; [lra|exact ZT]. }
  destruct TB as [TL TU].
  assert (Ht' : 0 < t).
  { destruct Ct as [A _]. pose proof (rpow_ge_1 (j + 3)).
    generalize dependent (rpow (j + 3)). intros. nra. }
  destruct (term64_close j W1 w1 T t s1) as [p1 [E1 [H1 [D1 R1]]]];
    try assumption; try lia.
  destruct (term64_close j W2 w2 T t s2) as [p2 [E2 [H2 [D2 R2]]]];
    try assumption; try lia.
  destruct (term64_close j W3 w3 T t s3) as [p3 [E3 [H3 [D3 R3]]]];
    try assumption; try lia.
  destruct (term64_close j W4 w4 T t s4) as [p4 [E4 [H4 [D4 R4]]]];
    try assumption; try lia.
  destruct (sum4_close (2 * j + 5) (-803) 600
              (s1 * (W1 / T)) (s2 * (W2 / T)) (s3 * (W3 / T)) (s4 * (W4 / T))
              p1 p2 p3 p4) as [v [Ev [Hv Cv]]]; try assumption; try lia.
  exists t, v. split; [exact Et|]. split; [exact Ht'|].
  rewrite E1, E2, E3, E4. split; [exact Ev|]. split; [exact Hv|].
  split.
  - replace (2 * j + 8)%nat with (2 * j + 5 + 3)%nat by lia. exact Cv.
  - apply (magnitude_sum4 (-803) 600); assumption.
Qed.

Lemma weightedAverage_spec_fin (cs : CategoryScores) (p l s r s1 s2 s3 s4 : Q) :
  score (physical cs) = Fin s1 -> score (lifestyle_cat cs) = Fin s2 ->
  score (social cs) = Fin s3 -> score (relationship cs) = Fin s4 ->
  ~ p + l + s + r == 0 ->
  weightedAverage_spec cs (finiteWeights p l s r)
  = Fin (s1 * p / (p + l + s + r) + s2 * l / (p + l + s + r)
         + s3 * s / (p + l + s + r) + s4 * r / (p + l + s + r)).
Proof.
  intros E1 E2 E3 E4 HT. unfold weightedAverage_spec.
  rewrite E1, E2, E3, E4.
  cbn [finiteWeights w_physical w_lifestyle w_social w_relationship JS.add
       JS.mul JS.div].
  rewrite (Qeq_bool_false _ HT). reflexivity.
Qed.

Lemma scaled_weight_close (k p : Q) :
  pow2 (-100) <= k -> k <= pow2 100 -> ordinary p ->
  exists w, (Fin k * Fin p)%b64 = Fin w /\ 0 <= w /\ close 1 (k * p) w
            /\ magnitude (-300) 300 (k * p).
Proof.
  intros K1 K2 Hp.
  assert (Z : magnitude (-300) 300 (k * p)).
  { replace (-300)%Z with (-100 + -200)%Z by lia.
    replace 300%Z with (100 + 200)%Z by lia.
    apply magnitude_mul; [right; split; assumption|exact Hp]. }
  rewrite mul_fin.
  destruct (round64_step 0 (k * p) (k * p) (-300) 300) as [w [E [H C]]];
    try lia; try assumption.
  - apply magnitude_nonneg in Z. exact Z.
  - apply close_refl.
  - exists w. auto.
Qed.

(** C1, as the code has it.  Under [weighted_average], for weights of
    ordinary magnitude (zero, or between [2^-200] and [2^200]) that are not
    all zero and category scores of [[0,1]] of ordinary magnitude, the value
    [calculateWeightedCompatibility] computes is the sum over the categories
    of (score x weight / total weight) up to rounding: it lies within the
    factor [rho^8] of the exact sum.  Scaling the four weights by a constant
    between [2^-100] and [2^100] leaves the result within [rho^10] of the
    same sum, hence within [rho^18] of the unscaled result; it does not
    leave it unchanged. *)
Theorem weighted_average_normalizes_up_to_rounding
  (Math_pow : number -> number -> number) (config : PreferenceFilteringConfig)
  (categoryScores : CategoryScores) (p l s r k : Q) :
  scoringAlgorithm config = "weighted_average"%string ->
  ordinary p -> ordinary l -> ordinary s -> ordinary r ->
  0 < p + l + s + r ->
  ordinaryScore (score (physical categoryScores)) ->
  ordinaryScore (score (lifestyle_cat categoryScores)) ->
  ordinaryScore (score (social categoryScores)) ->
  ordinaryScore (score (relationship categoryScores)) ->
  pow2 (-100) <= k -> k <= pow2 100 ->
  close_num 8 (weightedAverage_spec categoryScores (finiteWeights p l s r))
    (Binary64.calculateWeightedCompatibility Math_pow config categoryScores
       (finiteWeights p l s r))
  /\ close_num 10 (weightedAverage_spec categoryScores (finiteWeights p l s r))
       (Binary64.calculateWeightedCompatibility Math_pow config categoryScores
          (scaleWeights64 (Fin k) (finiteWeights p l s r)))
  /\ close_num 18
       (Binary64.calculateWeightedCompatibility Math_pow config categoryScores
          (finiteWeights p l s r))
       (Binary64.calculateWeightedCompatibility Math_pow config categoryScores
          (scaleWeights64 (Fin k) (finiteWeights p l s r))).
Proof.
  intros Halg Hp Hl Hs Hr HT S1 S2 S3 S4 K1 K2.
  destruct (score (physical categoryScores)) as [s1| | | ] eqn:E1;
    try contradiction.
  destruct (score (lifestyle_cat categoryScores)) as [s2| | | ] eqn:E2;
    try contradiction.
  destruct (score (social categoryScores)) as [s3| | | ] eqn:E3;
    try contradiction.
  destruct (score (relationship categoryScores)) as [s4| | | ] eqn:E4;
    try contradiction.
  cbn [ordinaryScore] in S1, S2, S3, S4.
  rewrite (weightedAverage_spec_fin categoryScores p l s r s1 s2 s3 s4)
    by (assumption || lra).
  unfold Binary64.calculateWeightedCompatibility.
  rewrite Halg, E1, E2, E3, E4. cbn [String.eqb Ascii.eqb Bool.eqb].
  cbn [scaleWeights64 finiteWeights w_physical w_lifestyle w_social
       w_relationship].
  assert (Hk : 0 < k) by (pose proof (pow2_pos (-100)); lra).
  pose proof (magnitude_nonneg _ _ _ Hp) as P0. pose proof (magnitude_nonneg _ _ _ Hl) as L0.
  pose proof (magnitude_nonneg _ _ _ Hs) as S0. pose proof (magnitude_nonneg _ _ _ Hr) as R0.
  (* the weights as given *)
  destruct (weighted_average64_close 0 p l s r p l s r s1 s2 s3 s4)
    as [t [v [Et [Ht [Ev [Hv [Cv Zv]]]]]]];
    try assumption; try lia; try apply close_refl;
    try (eapply magnitude_weaken; [eassumption|lia|lia]).
  rewrite Et, Ev.
  (* the scaled weights *)
  destruct (scaled_weight_close k p K1 K2 Hp) as [p' [Ep' [Hp' [Cp' Zp']]]].
  destruct (scaled_weight_close k l K1 K2 Hl) as [l' [El' [Hl' [Cl' Zl']]]].
  destruct (scaled_weight_close k s K1 K2 Hs) as [s' [Es' [Hs' [Cs' Zs']]]].
  destruct (scaled_weight_close k r K1 K2 Hr) as [r' [Er' [Hr' [Cr' Zr']]]].
  rewrite Ep', El', Es', Er'.
  destruct (weighted_average64_close 1 (k * p) (k * l) (k * s) (k * r)
              p' l' s' r' s1 s2 s3 s4)
    as [t' [v' [Et' [Ht' [Ev' [Hv' [Cv' Zv']]]]]]];
    try assumption; try lia.
  { nra. }
  rewrite Et', Ev'.
  set (e := s1 * p / (p + l + s + r) + s2 * l / (p + l + s + r)
            + s3 * s / (p + l + s + r) + s4 * r / (p + l + s + r)).
  assert (Ee : s1 * (p / (p + l + s + r)) + s2 * (l / (p + l + s + r))
               + s3 * (s / (p + l + s + r)) + s4 * (r / (p + l + s + r))
               == e).
  { unfold e. field. lra. }
  assert (Ee' : s1 * (k * p / (k * p + k * l + k * s + k * r))
                + s2 * (k * l / (k * p + k * l + k * s + k * r))
                + s3 * (k * s / (k * p + k * l + k * s + k * r))
                + s4 * (k * r / (k * p + k * l + k * s + k * r)) == e).
  { unfold e. field. split; [lra|].
    intros Hz. assert (k * (p + l + s + r) == 0) by (rewrite <- Hz; ring).
    nra. }
  rewrite Ee in Cv, Zv. rewrite Ee' in Cv'. clear Ee Ee' Zv'.
  assert (He : 0 <= e) by (apply magnitude_nonneg in Zv; exact Zv).
  cbn [close_num].
  split; [|split].
  - split; [exact He|]. split; [exact Hv|]. exact Cv.
  - split; [exact He|]. split; [exact Hv'|]. exact Cv'.
  - split; [exact Hv|]. split; [exact Hv'|].
    apply (close_trans 8 10 v e v'); try assumption.
    apply close_sym. exact Cv.
Qed.

(** C1, as the specification has it, fails: with the weights (0, 0, 0.1,
    0.3) and all four scores 0.6 the code returns 0.5999999999999999, which
    is not the sum of score x weight / total, 0.6; with the weights scaled
    by 10 it returns 0.6. *)
Lemma scaling_the_weights_changes_the_result :
  let scores :=
    scoresOf (lit64 (6 # 10)) (lit64 (6 # 10)) (lit64 (6 # 10))
             (lit64 (6 # 10)) in
  let weights :=
    {| w_physical := zero; w_lifestyle := zero;
       w_social := lit64 (1 # 10); w_relationship := lit64 (3 # 10) |} in
  Binary64.calculateWeightedCompatibility Math_pow_quarter defaultConfig
    scores weights
  =~ Fin (5404319552844594 # 9007199254740992)
  /\ weightedAverage_spec scores weights
     =~ Fin (5404319552844595 # 9007199254740992)
  /\ Binary64.calculateWeightedCompatibility Math_pow_quarter defaultConfig
       scores (scaleWeights64 (Fin 10) weights)
     =~ Fin (5404319552844595 # 9007199254740992)
  /\ ~ (Binary64.calculateWeightedCompatibility Math_pow_quarter
          defaultConfig scores (scaleWeights64 (Fin 10) weights)
        =~ Binary64.calculateWeightedCompatibility Math_pow_quarter
             defaultConfig scores weights).
Proof.
  vm_compute. repeat split; discriminate.
Qed.

(** ** The multiplicative floor *)

Lemma mul_zero_l (a b : number) :
  a =~ zero -> in_unit b -> (a * b =~ zero)%js.
Proof.
  destruct a as [x| | | ], b as [y| | | ]; simpl; try contradiction.
  intros H _. rewrite H. ring.
Qed.

Lemma mul_zero_r (a b : number) :
  in_unit a -> b =~ zero -> (a * b =~ zero)%js.
Proof.
  destruct a as [x| | | ], b as [y| | | ]; simpl; try contradiction.
  intros _ H. rewrite H. ring.
Qed.

Lemma mul_in_unit (a b : number) :
  in_unit a -> in_unit b -> in_unit (a * b)%js.
Proof.
  destruct a as [x| | | ], b as [y| | | ]; simpl; try contradiction.
  intros [? ?] [? ?]. split; nra.
Qed.

Lemma zero_in_unit (a : number) : a =~ zero -> in_unit a.
Proof.
  destruct a as [x| | | ]; simpl; try contradiction.
  intros H. rewrite H. split; lra.
Qed.

Lemma quarter : (of_Z 1 / of_Z 4)%js = Fin (1 # 4).
Proof. reflexivity. Qed.

(** C2. Under [multiplicative], for category scores in [[0,1]] of which at
    least one is exactly 0, [calculateWeightedCompatibility] returns exactly
    0, whatever the other three scores and the weights; the value it
    computes is [Math.pow] of the product of the four scores at the
    exponent 1/4.  ([Math.pow] returns 0 at base 0 and a positive
    exponent.) *)
Theorem multiplicative_zero_floor
  (Math_pow : number -> number -> number) (config : PreferenceFilteringConfig)
  (categoryScores : CategoryScores) (weights : PreferenceWeights) :
  (forall b e, b =~ zero -> (zero <? e)%js = true -> Math_pow b e =~ zero) ->
  scoringAlgorithm config = "multiplicative" ->
  in_unit (score (physical categoryScores)) ->
  in_unit (score (lifestyle_cat categoryScores)) ->
  in_unit (score (social categoryScores)) ->
  in_unit (score (relationship categoryScores)) ->
  (score (physical categoryScores) =~ zero
   \/ score (lifestyle_cat categoryScores) =~ zero
   \/ score (social categoryScores) =~ zero
   \/ score (relationship categoryScores) =~ zero) ->
  calculateWeightedCompatibility Math_pow config categoryScores weights
  = Math_pow (score (physical categoryScores)
              * score (lifestyle_cat categoryScores)
              * score (social categoryScores)
              * score (relationship categoryScores))%js (Fin (1 # 4))
  /\ calculateWeightedCompatibility Math_pow config categoryScores weights
     =~ zero.
Proof.
  intros Hpow Halg Hp Hl Hs Hr Hzero.
  unfold calculateWeightedCompatibility.
  rewrite Halg. cbn [String.eqb Ascii.eqb Bool.eqb]. rewrite quarter.
  split; [reflexivity|].
  apply Hpow; [|reflexivity].
  destruct Hzero as [H|[H|[H|H]]].
  - apply mul_zero_l; [|exact Hr]. apply mul_zero_l; [|exact Hs].
    apply mul_zero_l; [exact H|exact Hl].
  - apply mul_zero_l; [|exact Hr]. apply mul_zero_l; [|exact Hs].
    apply mul_zero_r; [exact Hp|exact H].
  - apply mul_zero_l; [|exact Hr].
    apply mul_zero_r; [|exact H]. apply mul_in_unit; assumption.
  - apply mul_zero_r; [|exact H].
    apply mul_in_unit; [|exact Hs]. apply mul_in_unit; assumption.
Qed.

(** The scores (0.9, 0.5, 0.5, 0.5) under the weights (0.6, 0.2, 0.1, 0.1):
    0.74 in exact arithmetic, 0.7400000000000001 as the program computes
    it. *)
Example scenario_C :
  calculateWeightedCompatibility Math_pow_quarter defaultConfig
    (scoresOf (dec1 9) (dec1 5) (dec1 5) (dec1 5))
    (finiteWeights (6 # 10) (2 # 10) (1 # 10) (1 # 10))
  =~ Fin (74 # 100)
  /\ Binary64.calculateWeightedCompatibility Math_pow_quarter defaultConfig
       (scoresOf (lit64 (9 # 10)) (lit64 (5 # 10)) (lit64 (5 # 10))
                 (lit64 (5 # 10)))
       (literalWeights (6 # 10) (2 # 10) (1 # 10) (1 # 10))
     =~ Fin (6665327448508335 # 9007199254740992).
Proof. vm_compute. split; reflexivity. Qed.

(** The category scores of the sample pair, as exact means; the program
    holds the binary64 values next to them. *)
Example categories_of_sample :
  let c := calculateCategoryScores user001 candidate001 in
  score (physical c) =~ Fin (95 # 100)
  /\ score (lifestyle_cat c) =~ Fin (9 # 10)
  /\ score (social c) =~ Fin (11 # 15)
  /\ score (relationship c) =~ Fin (7 # 10).
Proof. vm_compute. repeat split; reflexivity. Qed.

(** ** Weights that are zero or negative *)

Lemma normalized_sum_one (p l s r : Q) :
  ~ p + l + s + r == 0 ->
  p / (p + l + s + r) + l / (p + l + s + r) + s / (p + l + s + r)
  + r / (p + l + s + r) == 1.
Proof. intros H. field. exact H. Qed.

(** The weighted sum of four scores in [[0,1]] under non-negative
    normalized weights that sum to 1 is in [[0,1]]. *)
Lemma convex_combination_in_unit (sp sl ss sr np nl ns nr : Q) :
  0 <= sp <= 1 -> 0 <= sl <= 1 -> 0 <= ss <= 1 -> 0 <= sr <= 1 ->
  0 <= np -> 0 <= nl -> 0 <= ns -> 0 <= nr -> np + nl + ns + nr == 1 ->
  0 <= sp * np + sl * nl + ss * ns + sr * nr <= 1.
Proof.
  intros [? ?] [? ?] [? ?] [? ?] ? ? ? ? E.
  assert (0 <= sp * np <= np) by (split; nra).
  assert (0 <= sl * nl <= nl) by (split; nra).
  assert (0 <= ss * ns <= ns) by (split; nra).
  assert (0 <= sr * nr <= nr) by (split; nra).
  split; lra.
Qed.

Lemma min_in_unit (a b : number) :
  in_unit a -> in_unit b -> in_unit (JS.min a b).
Proof.
  destruct a as [x| | | ], b as [y| | | ]; simpl; try contradiction.
  intros Ha Hb. destruct (negb (Qle_bool x y)); simpl; assumption.
Qed.

(** The penalty of the [hybrid] algorithm is a factor in [[0,1]]. *)
Lemma penalty_in_unit (m : number) :
  in_unit m ->
  in_unit (if (m <? dec1 3)%js then (m / dec1 3)%js else one).
Proof.
  destruct m as [x| | | ]; simpl; try contradiction.
  intros [H0 H1].
  destruct (Qle_bool (3 # 10) x) eqn:E; simpl.
  - split; lra.
  - assert (Hlt : x < 3 # 10).
    { destruct (Qlt_le_dec x (3 # 10)) as [H|H]; [exact H|].
      apply Qle_bool_iff in H. congruence. }
    split.
    + apply Qle_shift_div_l; lra.
    + apply Qle_shift_div_r; lra.
Qed.

Lemma rpow_10_bound : rpow 10 <= 1 + (1 # 562949953421312).
Proof. apply Qle_bool_imp_le. vm_compute. reflexivity. Qed.

Lemma close_upper (k : nat) (X x : Q) :
  (k <= 10)%nat -> 0 <= X -> X <= 1 -> close k X x ->
  x <= 1 + (1 # 562949953421312).
Proof.
  intros Hk H0 H1 [_ B]. apply rpow_le in Hk. pose proof rpow_10_bound.
  pose proof (rpow_ge_1 k).
  generalize dependent (rpow k). generalize dependent (rpow 10). intros. nra.
Qed.

Lemma in_unit_nearly (a : number) : in_unit a -> nearly_unit a.
Proof.
  destruct a as [x| | | ]; cbn; try contradiction. intros [? ?]. split; lra.
Qed.

Lemma ordinaryScore_unit (x : Q) : magnitude (-200) 0 x -> 0 <= x /\ x <= 1.
Proof.
  intros H. pose proof (magnitude_nonneg _ _ _ H). split; [assumption|].
  destruct H as [H|[_ H]]; [lra|exact H].
Qed.

(** A product of two values of [[0,1]] rounds into [[0,1]]. *)
Lemma mul64_in_unit (a b : number) :
  in_unit a -> in_unit b -> in_unit (a * b)%b64.
Proof.
  destruct a as [x| | | ], b as [y| | | ]; cbn [in_unit]; try contradiction.
  intros [X0 X1] [Y0 Y1]. rewrite mul_fin.
  destruct (round64_le_pow2 (x * y) 0) as [z [E [Z0 Z1]]]; try lia.
  - apply Qmult_le_0_compat; assumption.
  - change (pow2 0) with 1. nra.
  - rewrite E. cbn [in_unit]. split; assumption.
Qed.

Lemma min_ordinaryScore (a b : number) :
  ordinaryScore a -> ordinaryScore b -> ordinaryScore (JS.min a b).
Proof.
  destruct a as [x| | | ], b as [y| | | ]; cbn [ordinaryScore]; try contradiction.
  intros Ha Hb. unfold JS.min, JS.lt.
  destruct (negb _); cbn [ordinaryScore]; assumption.
Qed.

Lemma lit64_3_10 :
  exists c, lit64 (3 # 10) = Fin c /\ pow2 (-2) <= c /\ c <= pow2 (-1).
Proof.
  eexists. split; [vm_compute; reflexivity|].
  split; apply Qle_bool_imp_le; vm_compute; reflexivity.
Qed.

Lemma lit64_5_10 : nearly_unit (lit64 (5 # 10)).
Proof.
  assert (E : exists c, lit64 (5 # 10) = Fin c /\ 0 <= c /\ c <= 1).
  { eexists. split; [vm_compute; reflexivity|].
    split; apply Qle_bool_imp_le; vm_compute; reflexivity. }
  destruct E as [c [E [H0 H1]]]. rewrite E. cbn. split; lra.
Qed.

(** The exact weighted average of scores of [[0,1]] is a convex
    combination. *)
Lemma exact_average_unit (s1 s2 s3 s4 p l s r : Q) :
  0 <= s1 <= 1 -> 0 <= s2 <= 1 -> 0 <= s3 <= 1 -> 0 <= s4 <= 1 ->
  0 <= p -> 0 <= l -> 0 <= s -> 0 <= r -> 0 < p + l + s + r ->
  s1 * (p / (p + l + s + r)) + s2 * (l / (p + l + s + r))
  + s3 * (s / (p + l + s + r)) + s4 * (r / (p + l + s + r)) <= 1.
Proof.
  intros H1 H2 H3 H4 Hp Hl Hs Hr HT.
  apply (convex_combination_in_unit s1 s2 s3 s4); try assumption;
    try (apply Qle_shift_div_l; lra).
  apply normalized_sum_one. lra.
Qed.

(** The aggregate on non-negative weights of ordinary magnitude. *)
Lemma aggregate64_nearly_unit
  (Math_pow : number -> number -> number) (config : PreferenceFilteringConfig)
  (categoryScores : CategoryScores) (p l s r : Q) :
  (forall b, in_unit b -> in_unit (Math_pow b (of_Z 1 / of_Z 4)%b64)) ->
  ordinary p -> ordinary l -> ordinary s -> ordinary r ->
  0 < p + l + s + r ->
  ordinaryScore (score (physical categoryScores)) ->
  ordinaryScore (score (lifestyle_cat categoryScores)) ->
  ordinaryScore (score (social categoryScores)) ->
  ordinaryScore (score (relationship categoryScores)) ->
  nearly_unit (Binary64.calculateWeightedCompatibility Math_pow config categoryScores
                 (finiteWeights p l s r)).
Proof.
  intros Hpow Hp Hl Hs Hr HT S1 S2 S3 S4.
  pose proof (min_ordinaryScore _ _
               (min_ordinaryScore _ _ (min_ordinaryScore _ _ S1 S2) S3) S4)
    as Hmin.
  unfold Binary64.calculateWeightedCompatibility.
  destruct (score (physical categoryScores)) as [s1| | | ];
    try contradiction.
  destruct (score (lifestyle_cat categoryScores)) as [s2| | | ];
    try contradiction.
  destruct (score (social categoryScores)) as [s3| | | ]; try contradiction.
  destruct (score (relationship categoryScores)) as [s4| | | ];
    try contradiction.
  cbn [ordinaryScore] in S1, S2, S3, S4.
  cbn [finiteWeights w_physical w_lifestyle w_social w_relationship].
  pose proof (magnitude_nonneg _ _ _ Hp) as P0. pose proof (magnitude_nonneg _ _ _ Hl) as L0.
  pose proof (magnitude_nonneg _ _ _ Hs) as S0. pose proof (magnitude_nonneg _ _ _ Hr) as R0.
  pose proof (ordinaryScore_unit _ S1) as U1.
  pose proof (ordinaryScore_unit _ S2) as U2.
  pose proof (ordinaryScore_unit _ S3) as U3.
  pose proof (ordinaryScore_unit _ S4) as U4.
  destruct (weighted_average64_close 0 p l s r p l s r s1 s2 s3 s4)
    as [t [v [Et [Ht [Ev [Hv [Cv Zv]]]]]]];
    try assumption; try lia; try apply close_refl;
    try (eapply magnitude_weaken; [eassumption|lia|lia]).
  rewrite Et, Ev.
  pose proof (exact_average_unit s1 s2 s3 s4 p l s r U1 U2 U3 U4 P0 L0 S0 R0 HT)
    as HE.
  pose proof (magnitude_nonneg _ _ _ Zv) as HE0.
  set (e := s1 * (p / (p + l + s + r)) + s2 * (l / (p + l + s + r))
            + s3 * (s / (p + l + s + r)) + s4 * (r / (p + l + s + r))) in *.
  destruct (scoringAlgorithm config =? "weighted_average")%string.
  { cbn [nearly_unit]. split; [exact Hv|].
    apply (close_upper 8 e v); try assumption; lia. }
  destruct (scoringAlgorithm config =? "multiplicative")%string.
  { apply in_unit_nearly, Hpow.
    repeat apply mul64_in_unit; cbn [in_unit]; assumption. }
  destruct (scoringAlgorithm config =? "hybrid")%string; [|apply lit64_5_10].
  destruct (JS.min (JS.min (JS.min (Fin s1) (Fin s2)) (Fin s3)) (Fin s4))
    as [m| | | ]; try contradiction.
  cbn [ordinaryScore] in Hmin. pose proof (ordinaryScore_unit _ Hmin) as Um.
  destruct lit64_3_10 as [c [Ec [C1 C2]]]. rewrite Ec.
  assert (Hc : 0 < c) by (pose proof (pow2_pos (-2)); lra).
  cbn [JS.lt].
  destruct (Qle_bool c m) eqn:Cmp; cbn [negb].
  - (* no penalty *)
    unfold one. rewrite mul_fin.
    destruct (round64_step (8 + 0) (e * 1) (v * 1) (-803 + 0) (603 + 0))
      as [y [Ey [Hy Cy]]]; try lia.
    + lra.
    + apply close_mul; try assumption; try lra. apply close_refl.
    + apply magnitude_mul; [exact Zv|]. right. change (pow2 0) with 1. split; lra.
    + rewrite Ey. cbn [nearly_unit]. split; [exact Hy|].
      apply (close_upper (S (8 + 0)) (e * 1) y); try assumption; try lia; lra.
  - (* the penalty [m / 0.3] *)
    assert (Hlt : m < c).
    { destruct (Qlt_le_dec m c) as [H|H]; [exact H|].
      apply Qle_bool_iff in H. congruence. }
    rewrite div_fin by lra.
    assert (Zq : magnitude (-199) 2 (m / c)).
    { replace (-199)%Z with (-200 - -1)%Z by lia.
      replace 2%Z with (0 - -2)%Z by lia. apply magnitude_div; assumption. }
    destruct (round64_step 0 (m / c) (m / c) (-199) 2) as [q [Eq [Hq Cq]]];
      try lia; try assumption.
    { apply Qle_shift_div_l; lra. }
    { apply close_refl. }
    rewrite Eq, mul_fin.
    assert (Hmc : m / c <= 1) by (apply Qle_shift_div_r; lra).
    assert (Hmc0 : 0 <= m / c) by (apply Qle_shift_div_l; lra).
    destruct (round64_step (8 + 1) (e * (m / c)) (v * q) (-803 + -199) (603 + 2))
      as [y [Ey [Hy Cy]]]; try lia.
    + apply Qmult_le_0_compat; assumption.
    + apply close_mul; assumption.
    + apply magnitude_mul; assumption.
    + rewrite Ey. cbn [nearly_unit]. split; [exact Hy|].
      apply (close_upper (S (8 + 1)) (e * (m / c)) y); try assumption; try lia.
      * apply Qmult_le_0_compat; assumption.
      * generalize dependent (m / c). intros. nra.
Qed.






(** Nor does the result stay in [[0,1]] when the total is negative: with
    the weights (0, -0.1, -0.4, -0.1) and all four scores 1 the code
    returns 1.0000000000000002. *)
Example negative_weights_can_exceed_one :
  Binary64.calculateWeightedCompatibility Math_pow_quarter defaultConfig
    (scoresOf one one one one)
    {| w_physical := zero; w_lifestyle := lit64 (- (1 # 10));
       w_social := lit64 (- (4 # 10)); w_relationship := lit64 (- (1 # 10)) |}
  =~ Fin (4503599627370497 # 4503599627370496).
Proof. vm_compute. reflexivity. Qed.

(** ** The threshold gate *)

Lemma lt_le_anti (s lo hi : number) :
  (lo <=? hi)%js = true -> (s <? hi)%js = false -> (s <? lo)%js = false.
Proof.
  destruct s as [x| | | ], lo as [a| | | ], hi as [b| | | ];
    simpl; try reflexivity; try discriminate.
  intros Hab Hx.
  apply Qle_bool_iff in Hab.
  apply negb_false_iff, Qle_bool_iff in Hx.
  apply negb_false_iff, Qle_bool_iff. lra.
Qed.

Lemma meets_overall_monotone (a : PreferenceAlignment)
  (t : MinimumThresholds) (lo hi : number) :
  (lo <=? hi)%js = true ->
  meetsMinimumThresholds a (withOverall t hi) = true ->
  meetsMinimumThresholds a (withOverall t lo) = true.
Proof.
  intros Hle. unfold meetsMinimumThresholds.
  cbn [withOverall t_overall t_physical t_lifestyle t_social t_relationship].
  destruct (totalScore a <? hi)%js eqn:Ehi; [discriminate|].
  rewrite (lt_le_anti _ _ _ Hle Ehi). trivial.
Qed.

(** C3. For a fixed pool of scored candidates, raising [thresholds.overall]
    with the per-category thresholds unchanged can only shrink the set
    [meetsMinimumThresholds] accepts: whoever passes under the higher
    overall threshold passes under the lower one. *)
Theorem raising_overall_threshold_shrinks
  (pool : list PreferenceAlignment) (t : MinimumThresholds) (lo hi : number) :
  (lo <=? hi)%js = true ->
  incl (accepted (withOverall t hi) pool) (accepted (withOverall t lo) pool)
  /\ forall a, meetsMinimumThresholds a (withOverall t hi) = true ->
               meetsMinimumThresholds a (withOverall t lo) = true.
Proof.
  intros Hle. split.
  - intros a Ha. unfold accepted in *.
    apply filter_In in Ha. destruct Ha as [Hin Hm].
    apply filter_In. split; [exact Hin|].
    eapply meets_overall_monotone; eassumption.
  - intros a. apply meets_overall_monotone. exact Hle.
Qed.

(** ** Deal breakers: heights *)

#[global] Instance abs_Proper : Proper (num_eq ==> num_eq) JS.abs.
Proof.
  intros [x| | | ] [y| | | ]; simpl; auto. intros H. rewrite H. reflexivity.
Qed.

#[global] Instance gt_Proper : Proper (num_eq ==> num_eq ==> eq) JS.gt.
Proof. intros a b H1 c d H2. unfold JS.gt. rewrite H1, H2. reflexivity. Qed.

Lemma abs_zero_sub (h : number) : JS.abs (zero - h)%js =~ JS.abs h.
Proof.
  destruct h as [x| | | ]; try exact I.
  change (Qabs (0 + - x) == Qabs x).
  assert (E : 0 + - x == - x) by ring. rewrite E. apply Qabs_opp.
Qed.

Lemma abs_sub_zero (h : number) : JS.abs (h - zero)%js =~ JS.abs h.
Proof.
  destruct h as [x| | | ]; try exact I.
  change (Qabs (x + - 0) == Qabs x).
  assert (E : x + - 0 == x) by ring. rewrite E. reflexivity.
Qed.

(** A height that is [0] or [NaN] never exceeds 20 in magnitude. *)
Lemma falsy_height_small (h : number) :
  truthy h = false -> (JS.abs h >? of_Z 20)%js = false.
Proof.
  destruct h as [x| | | ]; simpl; try discriminate; try reflexivity.
  intros H. apply negb_false_iff, Qeq_bool_eq in H.
  unfold JS.gt. simpl. apply negb_false_iff, Qle_bool_iff.
  rewrite H. simpl. unfold Qle; simpl; lia.
Qed.

(** C5, as the code has it.  The [height_mismatch] deal breaker triggers
    exactly when the absolute difference of the two heights exceeds 20,
    a missing height counting as 0.  Hence, when both heights are missing
    it does not trigger, and when exactly one is missing it triggers
    exactly when the other height exceeds 20 in magnitude. *)
Theorem height_mismatch_missing_as_zero
  (now : number) (userProfile candidate : UserProfile) :
  isDealBreakerTriggered now userProfile candidate "height_mismatch"
  = (JS.abs (or_else (height (personalInfo userProfile)) zero
             - or_else (height (personalInfo candidate)) zero)
     >? of_Z 20)%js
  /\ isDealBreakerTriggered now userProfile candidate "height_mismatch"
     = match height (personalInfo userProfile),
             height (personalInfo candidate) with
       | None, None => false
       | None, Some h | Some h, None => (JS.abs h >? of_Z 20)%js
       | Some hu, Some hc =>
           (JS.abs (or_else (Some hu) zero - or_else (Some hc) zero)
            >? of_Z 20)%js
       end.
Proof.
  split; [reflexivity|].
  unfold isDealBreakerTriggered. cbn [String.eqb Ascii.eqb Bool.eqb].
  destruct (height (personalInfo userProfile)) as [hu|],
           (height (personalInfo candidate)) as [hc|]; cbn [or_else].
  - reflexivity.
  - destruct (truthy hu) eqn:E.
    + rewrite abs_sub_zero. reflexivity.
    + rewrite (falsy_height_small hu E). reflexivity.
  - destruct (truthy hc) eqn:E.
    + rewrite abs_zero_sub. reflexivity.
    + rewrite (falsy_height_small hc E). reflexivity.
  - reflexivity.
Qed.

(** C5, as the specification has it, fails: with both heights missing the
    difference is 0 and the deal breaker does not trigger. *)
Lemma both_heights_missing_no_mismatch :
  height (personalInfo user002) = None
  /\ height (personalInfo candidate002) = None
  /\ isDealBreakerTriggered sampleNow user002 candidate002 "height_mismatch"
     = false.
Proof. repeat split. Qed.

(** ** Deal breakers: activity timestamps *)

(** C10. A candidate with no [lastActiveAt] always triggers
    [inactive_users] (999 days exceed 14), and a candidate with no
    [createdAt] never triggers [new_profiles] (999 days are not less than
    1); so a candidate missing both is removed by
    [applyDealBreakerFilters] whenever [inactive_users] is among the active
    deal breakers, and is kept when [new_profiles] is the only one. *)
Theorem missing_timestamps_asymmetry
  (now : number) (config : PreferenceFilteringConfig)
  (userProfile candidate : UserProfile) :
  (lastActiveAt candidate = None ->
   isDealBreakerTriggered now userProfile candidate "inactive_users" = true)
  /\ (createdAt candidate = None ->
      isDealBreakerTriggered now userProfile candidate "new_profiles" = false)
  /\ (lastActiveAt candidate = None -> createdAt candidate = None ->
      enableDealBreakerFiltering config = true ->
      (forall dealBreakers pool,
          In "inactive_users" dealBreakers ->
          ~ In candidate
               (applyDealBreakerFilters now config userProfile pool
                                        dealBreakers))
      /\ (forall pool,
             In candidate pool ->
             In candidate
                (applyDealBreakerFilters now config userProfile pool
                                         ["new_profiles"]))).
Proof.
  assert (Hin : lastActiveAt candidate = None ->
    isDealBreakerTriggered now userProfile candidate "inactive_users" = true).
  { intros H. unfold isDealBreakerTriggered.
    cbn [String.eqb Ascii.eqb Bool.eqb]. rewrite H. reflexivity. }
  assert (Hnew : createdAt candidate = None ->
    isDealBreakerTriggered now userProfile candidate "new_profiles" = false).
  { intros H. unfold isDealBreakerTriggered.
    cbn [String.eqb Ascii.eqb Bool.eqb]. rewrite H. reflexivity. }
  split; [exact Hin|]. split; [exact Hnew|].
  intros Hl Hc Hcfg. split.
  - intros dealBreakers pool Hdb Hcand.
    unfold applyDealBreakerFilters in Hcand. rewrite Hcfg in Hcand.
    destruct dealBreakers as [|d ds]; [contradiction|].
    cbn [negb orb List.length Nat.eqb] in Hcand.
    apply filter_In in Hcand. destruct Hcand as [_ Hpass].
    revert Hdb Hpass. generalize (d :: ds). intros l.
    induction l as [|x l IH]; [contradiction|].
    intros [->|Hdb]; cbn [passesDealBreakers].
    + rewrite (Hin Hl). discriminate.
    + destruct (isDealBreakerTriggered now userProfile candidate x);
        [discriminate|]. apply IH. exact Hdb.
  - intros pool Hpool. unfold applyDealBreakerFilters. rewrite Hcfg.
    cbn [negb orb List.length Nat.eqb].
    apply filter_In. split; [exact Hpool|].
    cbn [passesDealBreakers]. rewrite (Hnew Hc). reflexivity.
Qed.

(** ** Category scores: means of sub-factors in [[0,1]] *)

Lemma dec1_in_unit (k : Z) : (0 <= k <= 10)%Z -> in_unit (dec1 k).
Proof. intros H. unfold dec1, in_unit, Qle; simpl. lia. Qed.

Lemma one_in_unit : in_unit one.
Proof. unfold one, in_unit, Qle; simpl. lia. Qed.

Create HintDb scores.
#[local] Hint Resolve one_in_unit : scores.
#[local] Hint Extern 1 (in_unit (dec1 _)) =>
  (apply dec1_in_unit; lia) : scores.

(** Splits the goal on every test of the scorer under study. *)
Ltac split_tests :=
  repeat match goal with
         | |- context [if ?b then _ else _] => destruct b
         | |- context [match ?o with Some _ => _ | None => _ end] =>
             destruct o
         end.

Ltac constant_scorer f := unfold f; split_tests; auto with scores.

Lemma calculateBodyTypeCompatibility_unit (u c : UserProfile) :
  in_unit (calculateBodyTypeCompatibility u c).
Proof. constant_scorer calculateBodyTypeCompatibility. Qed.

Lemma calculateHeightCompatibility_unit (u c : UserProfile) :
  in_unit (calculateHeightCompatibility u c).
Proof. constant_scorer calculateHeightCompatibility. Qed.

Lemma calculateAgeCompatibility_unit (u c : UserProfile) :
  in_unit (calculateAgeCompatibility u c).
Proof. constant_scorer calculateAgeCompatibility. Qed.

Lemma calculateAppearanceScore_unit (c : UserProfile) :
  in_unit (calculateAppearanceScore c).
Proof. constant_scorer calculateAppearanceScore. Qed.

Lemma calculateSmokingCompatibility_unit (u c : UserProfile) :
  in_unit (calculateSmokingCompatibility u c).
Proof. constant_scorer calculateSmokingCompatibility. Qed.

Lemma levelCompatibility_unit (levels : list string) (far : number)
  (user candidate : string) :
  in_unit far -> in_unit (levelCompatibility levels far user candidate).
Proof. intros H. constant_scorer levelCompatibility. Qed.

Lemma calculateDrinkingCompatibility_unit (u c : UserProfile) :
  in_unit (calculateDrinkingCompatibility u c).
Proof.
  unfold calculateDrinkingCompatibility.
  apply levelCompatibility_unit. auto with scores.
Qed.

Lemma calculateExerciseCompatibility_unit (u c : UserProfile) :
  in_unit (calculateExerciseCompatibility u c).
Proof.
  unfold calculateExerciseCompatibility.
  apply levelCompatibility_unit. auto with scores.
Qed.

Lemma calculateDietCompatibility_unit (u c : UserProfile) :
  in_unit (calculateDietCompatibility u c).
Proof. constant_scorer calculateDietCompatibility. Qed.

Lemma calculateEducationCompatibility_unit (u c : UserProfile) :
  in_unit (calculateEducationCompatibility u c).
Proof. constant_scorer calculateEducationCompatibility. Qed.

Lemma inject_nat_nonneg (n : nat) : 0 <= inject_Z (Z.of_nat n).
Proof. unfold Qle; simpl. lia. Qed.

Lemma inject_nat_pos (n : nat) : (n <> 0)%nat -> 0 < inject_Z (Z.of_nat n).
Proof. intros H. unfold Qlt; simpl. lia. Qed.

(** The share of common interests, capped at 1. *)
Lemma capped_ratio_in_unit (a b c : nat) :
  (b <> 0)%nat -> (c <> 0)%nat ->
  in_unit (JS.min (of_nat a / JS.min (of_nat b) (of_nat c))%js one).
Proof.
  intros Hb Hc. unfold of_nat.
  assert (Hm : exists m, 0 < m
            /\ JS.min (Fin (inject_Z (Z.of_nat b)))
                      (Fin (inject_Z (Z.of_nat c))) = Fin m).
  { cbn [JS.min]. destruct (_ <? _)%js; eexists; split; try reflexivity;
      apply inject_nat_pos; assumption. }
  destruct Hm as (m & Hm & ->).
  cbn [JS.div]. rewrite (Qeq_bool_false m) by lra.
  assert (Hq : 0 <= inject_Z (Z.of_nat a) / m).
  { apply Qle_shift_div_l; [exact Hm|]. pose proof (inject_nat_nonneg a). lra. }
  cbn [JS.min one JS.lt].
  destruct (Qle_bool (inject_Z (Z.of_nat a) / m) 1) eqn:E; cbn [negb in_unit].
  - apply Qle_bool_iff in E. split; assumption.
  - split; lra.
Qed.

Lemma calculateInterestsCompatibility_unit (u c : UserProfile) :
  in_unit (calculateInterestsCompatibility u c).
Proof.
  unfold calculateInterestsCompatibility.
  destruct (List.length (arr_or (interests (personalInfo u))) =? 0)%nat eqn:Eu;
    cbn [orb]; [auto with scores|].
  destruct (List.length (arr_or (interests (personalInfo c))) =? 0)%nat eqn:Ec;
    [auto with scores|].
  apply Nat.eqb_neq in Eu, Ec.
  apply capped_ratio_in_unit; assumption.
Qed.

Lemma calculateLanguageCompatibility_unit (u c : UserProfile) :
  in_unit (calculateLanguageCompatibility u c).
Proof. constant_scorer calculateLanguageCompatibility. Qed.

Lemma calculateRelationshipTypeCompatibility_unit (u c : UserProfile) :
  in_unit (calculateRelationshipTypeCompatibility u c).
Proof. constant_scorer calculateRelationshipTypeCompatibility. Qed.

Lemma calculateSexualOrientationCompatibility_unit (u c : UserProfile) :
  in_unit (calculateSexualOrientationCompatibility u c).
Proof. constant_scorer calculateSexualOrientationCompatibility. Qed.

#[local] Hint Resolve calculateBodyTypeCompatibility_unit
  calculateHeightCompatibility_unit calculateAgeCompatibility_unit
  calculateAppearanceScore_unit calculateSmokingCompatibility_unit
  calculateDrinkingCompatibility_unit calculateExerciseCompatibility_unit
  calculateDietCompatibility_unit calculateEducationCompatibility_unit
  calculateInterestsCompatibility_unit calculateLanguageCompatibility_unit
  calculateRelationshipTypeCompatibility_unit
  calculateSexualOrientationCompatibility_unit : scores.

(** The mean of values in [[0,1]] is in [[0,1]]. *)
Lemma sum_bounds (l : list number) (acc : Q) :
  Forall in_unit l ->
  exists t, fold_left JS.add l (Fin acc) = Fin t
            /\ acc <= t
            /\ t <= acc + inject_Z (Z.of_nat (List.length l)).
Proof.
  intros H. revert acc. induction H as [|x l Hx Hl IH]; intros acc.
  - exists acc. cbn [fold_left List.length].
    change (inject_Z (Z.of_nat 0)) with 0. repeat split; lra.
  - destruct x as [q| | | ]; try contradiction. destruct Hx as [H0 H1].
    cbn [fold_left JS.add].
    destruct (IH (acc + q)) as (t & Ht & Hlo & Hhi).
    exists t. split; [exact Ht|].
    cbn [List.length]. rewrite Nat2Z.inj_succ. unfold Z.succ.
    rewrite inject_Z_plus. change (inject_Z 1) with 1.
    generalize dependent (inject_Z (Z.of_nat (List.length l))).
    intros n _ Hhi. split; lra.
Qed.

Lemma mean_in_unit (l : list number) :
  l <> [] -> Forall in_unit l -> in_unit (mean l).
Proof.
  intros Hne H. unfold mean, sum, zero, of_nat.
  destruct (sum_bounds l 0 H) as (t & -> & Hlo & Hhi).
  assert (Hn : 0 < inject_Z (Z.of_nat (List.length l))).
  { apply inject_nat_pos. destruct l; [congruence|discriminate]. }
  cbn [JS.div]. rewrite Qeq_bool_false by lra. cbn [in_unit]. split.
  - apply Qle_shift_div_l; lra.
  - apply Qle_shift_div_r; lra.
Qed.

Lemma category_from_mean {B : Type} (factors : B -> list number)
  (c : CategoryScore B) :
  score c = mean (factors (breakdown c)) ->
  factors (breakdown c) <> [] ->
  Forall in_unit (factors (breakdown c)) ->
  categoryWellFormed factors c.
Proof.
  intros Hs Hne Hf. unfold categoryWellFormed.
  rewrite Hs. split; [reflexivity|]. split; [exact Hf|].
  apply mean_in_unit; assumption.
Qed.


(** ** The scoring path and the random source *)

Lemma partitionM_draws (threshold : number) (items yes no : list string)
  (g : Rng) :
  let test := fun _ : string =>
                x <- Math_random ;; ret (x >? threshold)%js in
  drawn (snd (partitionM test items yes no g))
  = (drawn g + List.length items)%nat
  /\ draws (snd (partitionM test items yes no g)) = draws g.
Proof.
  cbv zeta. revert yes no g.
  induction items as [|item rest IH]; intros yes no g.
  - cbn. split; [lia|reflexivity].
  - cbn [partitionM bind Math_random ret List.length].
    destruct (draws g (drawn g) >? threshold)%js.
    + destruct (IH (yes ++ [item])%list no
                   {| draws := draws g; drawn := S (drawn g) |}) as [H1 H2].
      rewrite H1, H2. cbn. split; [lia|reflexivity].
    + destruct (IH yes (no ++ [item])%list
                   {| draws := draws g; drawn := S (drawn g) |}) as [H1 H2].
      rewrite H1, H2. cbn. split; [lia|reflexivity].
Qed.

Lemma analyzePreferenceMatch_scores
  (Math_pow : number -> number -> number) (config : PreferenceFilteringConfig)
  (now : number) (userProfile candidate : UserProfile)
  (criteria : AdvancedMatchingCriteria) (g : Rng) :
  let a := fst (analyzePreferenceMatch Math_pow config now userProfile
                                       candidate criteria g) in
  categoryAlignments a = calculateCategoryScores userProfile candidate
  /\ totalScore a
     = calculateWeightedCompatibility Math_pow config
         (calculateCategoryScores userProfile candidate)
         (preferenceWeights criteria).
Proof.
  cbv zeta. unfold analyzePreferenceMatch, analyzeMustHaves,
    analyzeNiceToHaves, analyzePreferenceMatches, bind, ret.
  destruct (partitionM _ (mustHaves criteria) [] [] g) as [[s1 m1] g1].
  destruct (partitionM _ (niceToHaves criteria) [] [] g1) as [[s2 m2] g2].
  cbn. split; reflexivity.
Qed.

Lemma analyzePreferenceMatch_draws
  (Math_pow : number -> number -> number) (config : PreferenceFilteringConfig)
  (now : number) (userProfile candidate : UserProfile)
  (criteria : AdvancedMatchingCriteria) (g : Rng) :
  drawn (snd (analyzePreferenceMatch Math_pow config now userProfile
                                     candidate criteria g))
  = (drawn g + List.length (mustHaves criteria)
     + List.length (niceToHaves criteria))%nat.
Proof.
  unfold analyzePreferenceMatch, analyzeMustHaves,
    analyzeNiceToHaves, analyzePreferenceMatches, bind, ret.
  pose proof (partitionM_draws (dec1 3) (mustHaves criteria) [] [] g) as H1.
  cbv zeta in H1. unfold bind, ret in H1.
  destruct (partitionM _ (mustHaves criteria) [] [] g) as [[s1 m1] g1].
  pose proof (partitionM_draws (dec1 5) (niceToHaves criteria) [] [] g1) as H2.
  cbv zeta in H2. unfold bind, ret in H2.
  destruct (partitionM _ (niceToHaves criteria) [] [] g1) as [[s2 m2] g2].
  cbn in *. destruct H1 as [H1 _], H2 as [H2 _]. lia.
Qed.

(** C6. For the same seeker, candidate and configuration, two runs of the
    scoring path give the same four category scores and the same overall
    score whatever [Math.random] returns in either run: both are the values
    of [calculateCategoryScores] and [calculateWeightedCompatibility],
    which draw nothing, although the analysis around them draws one random
    number for each must-have and each nice-to-have. *)
Theorem scoring_path_is_deterministic
  (Math_pow : number -> number -> number) (config : PreferenceFilteringConfig)
  (now : number) (userProfile candidate : UserProfile)
  (criteria : AdvancedMatchingCriteria) (g1 g2 : Rng) :
  let run1 := analyzePreferenceMatch Math_pow config now userProfile
                                     candidate criteria g1 in
  let run2 := analyzePreferenceMatch Math_pow config now userProfile
                                     candidate criteria g2 in
  categoryAlignments (fst run1) = categoryAlignments (fst run2)
  /\ totalScore (fst run1) = totalScore (fst run2)
  /\ categoryAlignments (fst run1)
     = calculateCategoryScores userProfile candidate
  /\ totalScore (fst run1)
     = calculateWeightedCompatibility Math_pow config
         (calculateCategoryScores userProfile candidate)
         (preferenceWeights criteria)
  /\ drawn (snd run1)
     = (drawn g1 + List.length (mustHaves criteria)
        + List.length (niceToHaves criteria))%nat.
Proof.
  cbv zeta.
  destruct (analyzePreferenceMatch_scores Math_pow config now userProfile
              candidate criteria g1) as [Hc1 Ht1].
  destruct (analyzePreferenceMatch_scores Math_pow config now userProfile
              candidate criteria g2) as [Hc2 Ht2].
  cbv zeta in *. rewrite Hc1, Hc2, Ht1, Ht2.
  repeat split. apply analyzePreferenceMatch_draws.
Qed.

(** The must-have analysis, by contrast, changes with the random source. *)
Example must_haves_follow_the_random_source :
  let criteria :=
    {| preferenceWeights := defaultWeights defaultConfig;
       minimumThresholds := {| t_overall := dec1 6; t_physical := None;
                               t_lifestyle := None; t_social := None;
                               t_relationship := None |};
       dealBreakers := [];
       mustHaves := ["non_smoker"];
       niceToHaves := [];
       sort := {| by_ := "compatibility"; direction := "desc" |} |} in
  let run := fun x =>
    fst (analyzePreferenceMatch Math_pow_quarter defaultConfig sampleNow
           user001 candidate001 criteria
           {| draws := fun _ => x; drawn := 0 |}) in
  satisfiedMustHaves (mustHaveAnalysis (run (dec1 9))) = 1%nat
  /\ satisfiedMustHaves (mustHaveAnalysis (run (dec1 1))) = 0%nat.
Proof. split; reflexivity. Qed.

(** ** Ranking: a stable sort by compatibility score *)

Section Ranking.

Variable criteria : AdvancedMatchingCriteria.
Hypothesis by_compatibility : by_ (sort criteria) = "compatibility".
Hypothesis descending_order : direction (sort criteria) = "desc".

(** On finite scores the comparator is positive exactly when its first
    argument has the strictly lower score. *)
Lemma compareMatches_positive (a b : PreferenceMatchResult) (x y : Q) :
  compatibilityScore a = Fin x -> compatibilityScore b = Fin y ->
  (zero <? compareMatches criteria a b)%js = negb (Qle_bool y x).
Proof.
  intros Ha Hb. unfold compareMatches.
  rewrite by_compatibility, descending_order.
  cbn [String.eqb Ascii.eqb Bool.eqb]. rewrite Ha, Hb.
  cbn [JS.sub JS.neg JS.add JS.lt zero]. f_equal.
  destruct (Qle_bool y x) eqn:E.
  - apply Qle_bool_iff in E. apply Qle_bool_iff. lra.
  - destruct (Qle_bool (y + - x) 0) eqn:E'; [|reflexivity].
    apply Qle_bool_iff in E'. assert (H : y <= x) by lra.
    apply Qle_bool_iff in H. congruence.
Qed.

Lemma sort_insert_perm (x : PreferenceMatchResult)
  (l : list PreferenceMatchResult) :
  Permutation (sort_insert (compareMatches criteria) x l) (x :: l).
Proof.
  induction l as [|y r IH]; cbn [sort_insert]; [reflexivity|].
  destruct (zero <? compareMatches criteria x y)%js; [|reflexivity].
  rewrite IH. apply perm_swap.
Qed.

Lemma Array_sort_perm (l : list PreferenceMatchResult) :
  Permutation (Array_sort (compareMatches criteria) l) l.
Proof.
  induction l as [|x r IH]; cbn [Array_sort]; [reflexivity|].
  rewrite sort_insert_perm. constructor. exact IH.
Qed.

Lemma descending_trans (a b c : PreferenceMatchResult) :
  descending a b -> descending b c -> descending a c.
Proof.
  unfold descending.
  destruct (compatibilityScore a) as [x| | | ],
           (compatibilityScore b) as [y| | | ],
           (compatibilityScore c) as [z| | | ];
    cbn [JS.le]; try reflexivity; try discriminate.
  intros H1 H2. apply Qle_bool_iff in H1, H2. apply Qle_bool_iff. lra.
Qed.

Lemma sort_insert_sorted (x : PreferenceMatchResult)
  (l : list PreferenceMatchResult) :
  finiteScore x -> Forall finiteScore l ->
  StronglySorted descending l ->
  StronglySorted descending (sort_insert (compareMatches criteria) x l).
Proof.
  intros [qx Hx] Hfin Hs. induction Hs as [|y r Hr IH Hy].
  - cbn. constructor; constructor.
  - inversion Hfin as [|? ? [qy Hqy] Hfr]; subst.
    cbn [sort_insert].
    rewrite (compareMatches_positive x y qx qy Hx Hqy).
    destruct (Qle_bool qy qx) eqn:E; cbn [negb].
    + assert (Hxy : descending x y).
      { unfold descending. rewrite Hx, Hqy. exact E. }
      constructor; [constructor; assumption|].
      constructor; [exact Hxy|].
      eapply Forall_impl; [|exact Hy].
      intros z Hz. eapply descending_trans; eassumption.
    + constructor; [apply IH; exact Hfr|].
      assert (Hyx : descending y x).
      { unfold descending. rewrite Hx, Hqy. cbn [JS.le].
        apply Qle_bool_iff.
        destruct (Qlt_le_dec qx qy) as [H|H]; [lra|].
        apply Qle_bool_iff in H. congruence. }
      eapply Permutation_Forall;
        [symmetry; apply sort_insert_perm|].
      constructor; assumption.
Qed.

Lemma Array_sort_sorted (l : list PreferenceMatchResult) :
  Forall finiteScore l ->
  StronglySorted descending (Array_sort (compareMatches criteria) l).
Proof.
  induction 1 as [|x r Hx Hr IH]; cbn [Array_sort]; [constructor|].
  apply sort_insert_sorted; [exact Hx| |exact IH].
  eapply Permutation_Forall; [symmetry; apply Array_sort_perm|exact Hr].
Qed.

(** Insertion keeps the results of any one score in their order. *)
Lemma sort_insert_stable (q : number) (x : PreferenceMatchResult)
  (l : list PreferenceMatchResult) :
  finiteScore x -> Forall finiteScore l ->
  withScore q (sort_insert (compareMatches criteria) x l)
  = withScore q (x :: l).
Proof.
  intros [qx Hx] Hfin. unfold withScore.
  induction Hfin as [|y r [qy Hqy] Hr IH]; [reflexivity|].
  cbn [sort_insert].
  rewrite (compareMatches_positive x y qx qy Hx Hqy).
  destruct (Qle_bool qy qx) eqn:E; cbn [negb]; [reflexivity|].
  cbn [filter] in *. rewrite IH.
  destruct (JS.eqb (compatibilityScore y) q) eqn:Ey; [|reflexivity].
  destruct (JS.eqb (compatibilityScore x) q) eqn:Ex; [|reflexivity].
  exfalso. rewrite Hx in Ex. rewrite Hqy in Ey.
  destruct q as [v| | | ]; cbn [JS.eqb] in *; try discriminate.
  apply Qeq_bool_eq in Ex, Ey.
  assert (H : qy <= qx) by lra. apply Qle_bool_iff in H. congruence.
Qed.

Lemma Array_sort_stable (q : number) (l : list PreferenceMatchResult) :
  Forall finiteScore l ->
  withScore q (Array_sort (compareMatches criteria) l) = withScore q l.
Proof.
  induction 1 as [|x r Hx Hr IH]; cbn [Array_sort]; [reflexivity|].
  rewrite sort_insert_stable.
  - unfold withScore in *. cbn [filter]. rewrite IH. reflexivity.
  - exact Hx.
  - eapply Permutation_Forall; [symmetry; apply Array_sort_perm|exact Hr].
Qed.

End Ranking.

Lemma StronglySorted_prefix {A : Type} (R : A -> A -> Prop) (l1 l2 : list A) :
  StronglySorted R (l1 ++ l2)%list -> StronglySorted R l1.
Proof.
  induction l1 as [|a l1 IH]; cbn; intros H; [constructor|].
  inversion H as [|? ? Hs Hf]; subst. constructor; [apply IH; exact Hs|].
  apply Forall_app in Hf. tauto.
Qed.

Lemma slice0_prefix {A : Type} (k : Z) (l : list A) :
  exists rest, l = (slice0 k l ++ rest)%list.
Proof.
  unfold slice0. destruct (k <? 0)%Z;
    eexists; symmetry; apply firstn_skipn.
Qed.

(** C7, as the code has it.  With [sort.by = 'compatibility'] and direction
    ['desc'], on results with finite scores, the list
    [findAdvancedMatches] returns is the head ([maxResults] long) of the
    scored matches sorted by compatibility score, highest first; the sort
    permutes the matches and is stable: results with equal scores keep the
    order they had among the scored matches.  No comparison of candidate
    ids takes part. *)
Theorem ranking_is_descending_and_stable
  (config : MatchingConfig) (criteria : AdvancedMatchingCriteria)
  (preferenceMatches : list PreferenceMatchResult) :
  by_ (sort criteria) = "compatibility" ->
  direction (sort criteria) = "desc" ->
  Forall finiteScore preferenceMatches ->
  let sorted := Array_sort (compareMatches criteria) preferenceMatches in
  let returned := findAdvancedMatches_rank config criteria preferenceMatches in
  Permutation sorted preferenceMatches
  /\ StronglySorted descending sorted
  /\ (forall q, withScore q sorted = withScore q preferenceMatches)
  /\ (exists rest, sorted = (returned ++ rest)%list)
  /\ StronglySorted descending returned.
Proof.
  intros Hby Hdir Hfin. cbv zeta.
  pose proof (Array_sort_sorted criteria Hby Hdir _ Hfin) as Hsorted.
  pose proof (slice0_prefix (maxResults config)
                (Array_sort (compareMatches criteria) preferenceMatches))
    as [rest Hrest].
  split; [apply Array_sort_perm|].
  split; [exact Hsorted|].
  split; [intros q; apply Array_sort_stable; assumption|].
  unfold findAdvancedMatches_rank.
  split; [exists rest; exact Hrest|].
  rewrite Hrest in Hsorted. eapply StronglySorted_prefix. exact Hsorted.
Qed.

(** C7, as the specification has it, fails: three matches with the same
    compatibility score come back in the order they went in, which is the
    order of their candidate ids neither upwards nor downwards. *)
Lemma ties_keep_input_order_not_id_order :
  let returned :=
    findAdvancedMatches_rank defaultMatchingConfig sampleCriteria tiedMatches in
  map targetUserId returned
  = ["candidate-002"; "candidate-001"; "candidate-003"]
  /\ tiesBrokenById String.leb returned = false
  /\ tiesBrokenById (fun a b => String.leb b a) returned = false.
Proof. vm_compute. repeat split. Qed.

Example ranking_of_mixed_scores :
  map targetUserId
      (findAdvancedMatches_rank defaultMatchingConfig sampleCriteria
                                mixedMatches)
  = ["candidate-001"; "candidate-002"; "candidate-003"].
Proof. vm_compute. reflexivity. Qed.

(** ** Validation of the matching criteria *)

Lemma validateMatchingCriteria_cases (config : MatchingConfig)
  (criteria : MatchingCriteria) :
  validateMatchingCriteria config criteria
  = if distanceViolated config criteria then
      Throw (Error [Str "Maximum distance cannot exceed ";
                    Num (maxRadius config); Str "km"])
    else if ageRangeViolated criteria then
      Throw (Error [Str "Invalid age range"])
    else Return tt.
Proof.
  unfold validateMatchingCriteria, distanceViolated, ageRangeViolated.
  destruct (maxDistance (mc_preferences criteria) >? maxRadius config)%js;
    [reflexivity|].
  destruct (cp_ageRange (mc_preferences criteria)) as [range|];
    [|reflexivity].
  destruct ((ar_min range <? of_Z 18)%js || (ar_max range >? of_Z 99)%js);
    reflexivity.
Qed.

(** C8, as the code has it.  When the user is not on cooldown,
    [findMatches] surfaces what [validateMatchingCriteria] throws: a plain
    [Error] with the message of the first rule violated, the distance rule
    before the age rule, and no list of fields; so no error of the
    validation lists every violated field when both rules are violated.
    With no rule violated the rest of the method runs. *)
Theorem validation_reports_first_violation_only
  (userCooldowns : string -> option number) (now : number)
  (config : MatchingConfig) (MatchResult : Type)
  (discover : string -> MatchingCriteria -> result (list MatchResult))
  (userId : string) (criteria : MatchingCriteria) :
  isUserOnCooldown userCooldowns now userId = false ->
  findMatches userCooldowns now config MatchResult discover userId criteria
  = (if distanceViolated config criteria then
       Throw (Error [Str "Maximum distance cannot exceed ";
                     Num (maxRadius config); Str "km"])
     else if ageRangeViolated criteria then
       Throw (Error [Str "Invalid age range"])
     else discover userId criteria)
  /\ (forall e, validateMatchingCriteria config criteria = Throw e ->
                exists msg, e = Error msg)
  /\ (forall e, validateMatchingCriteria config criteria = Throw e ->
                listsEveryField e (violatedFields config criteria) = false).
Proof.
  intros Hcool. unfold findMatches. rewrite Hcool.
  rewrite validateMatchingCriteria_cases.
  assert (Herr : forall e,
            (if distanceViolated config criteria
             then Throw (Error [Str "Maximum distance cannot exceed ";
                                Num (maxRadius config); Str "km"])
             else if ageRangeViolated criteria
                  then Throw (Error [Str "Invalid age range"])
                  else Return tt) = @Throw unit e ->
            exists msg, e = Error msg).
  { intros e. destruct (distanceViolated config criteria);
      [|destruct (ageRangeViolated criteria)]; intros H;
      inversion H; eexists; reflexivity. }
  split; [|split].
  - destruct (distanceViolated config criteria); [reflexivity|].
    destruct (ageRangeViolated criteria); reflexivity.
  - exact Herr.
  - intros e He. destruct (Herr e He) as [msg ->]. reflexivity.
Qed.

(** C8, as the specification has it, fails: criteria that break the
    distance rule and the age rule yield an [Error] that carries the
    distance message only. *)
Lemma two_violations_one_message :
  let outcome :=
    findMatches noCooldowns sampleNow defaultMatchingConfig
                PreferenceMatchResult (fun _ _ => Return [])
                "user-001" invalidCriteria in
  violatedFields defaultMatchingConfig invalidCriteria
  = ["maxDistance"; "ageRange"]
  /\ outcome = Throw (Error [Str "Maximum distance cannot exceed ";
                             Num (of_Z 100); Str "km"])
  /\ (forall e, outcome = Throw e ->
                listsEveryField e (violatedFields defaultMatchingConfig
                                                  invalidCriteria) = false).
Proof.
  vm_compute. repeat split. intros e H. inversion H. reflexivity.
Qed.

(** ** The fixed-point [Math.pow] meets what the theorems ask of it *)

Lemma root4_zero (x : Q) : x == 0 -> root4 x == 0.
Proof.
  intros H. unfold Qeq in H. simpl in H.
  assert (Hn : Qnum x = 0%Z) by lia.
  unfold root4. rewrite Hn. reflexivity.
Qed.

Lemma root4_bounds (x : Q) : 0 <= x -> x <= 1 -> 0 <= root4 x /\ root4 x <= 1.
Proof.
  intros H0 H1. unfold Qle in H0, H1. simpl in H0, H1.
  unfold root4.
  assert (Hd : (0 < Zpos (Qden x))%Z) by lia.
  assert (Hn0 : (0 <= Qnum x)%Z) by lia.
  assert (Hn1 : (Qnum x <= Zpos (Qden x))%Z) by lia.
  clear H0 H1.
  generalize dependent (Zpos (Qden x)). intros d Hd Hn1.
  generalize dependent (Qnum x). intros n Hn0 Hn1.
  assert (Hq : (n * 10 ^ 32 / d <= 10 ^ 32)%Z).
  { apply Z.div_le_upper_bound; [exact Hd|]. nia. }
  assert (Hs1 : (Z.sqrt (n * 10 ^ 32 / d) <= 10 ^ 16)%Z).
  { change (10 ^ 16)%Z with (Z.sqrt (10 ^ 32)).
    apply Z.sqrt_le_mono. exact Hq. }
  assert (Hs2 : (Z.sqrt (Z.sqrt (n * 10 ^ 32 / d)) <= 100000000)%Z).
  { change 100000000%Z with (Z.sqrt (10 ^ 16)).
    apply Z.sqrt_le_mono. exact Hs1. }
  pose proof (Z.sqrt_nonneg (Z.sqrt (n * 10 ^ 32 / d))) as Hs0.
  unfold Qle; cbn [Qnum Qden]. split; lia.
Qed.

Lemma Math_pow_quarter_zero (b e : number) :
  b =~ zero -> (zero <? e)%js = true -> Math_pow_quarter b e =~ zero.
Proof.
  destruct b as [x| | | ]; cbn [num_eq zero]; try contradiction.
  intros H _. unfold Math_pow_quarter.
  rewrite (Qle_bool_true 0 x) by (rewrite H; lra).
  cbn [num_eq]. apply root4_zero. exact H.
Qed.

Lemma Math_pow_quarter_unit (b : number) :
  in_unit b -> in_unit (Math_pow_quarter b (Fin (1 # 4))).
Proof.
  destruct b as [x| | | ]; cbn [in_unit]; try contradiction.
  intros [H0 H1]. unfold Math_pow_quarter.
  rewrite (Qle_bool_true 0 x H0). cbn [in_unit].
  apply root4_bounds; assumption.
Qed.

(** ** The theorems at concrete inputs *)

(** Discharges a side condition on a concrete weight, score or factor. *)
Ltac at_sample :=
  vm_compute;
  first [ reflexivity | discriminate | left; reflexivity
        | right; split; discriminate ].

Lemma weighted_average_normalizes_up_to_rounding_at_sample :
  let scores :=
    scoresOf (lit64 (9 # 10)) (lit64 (5 # 10)) (lit64 (5 # 10))
             (lit64 (5 # 10)) in
  let weights := finiteWeights (6 # 10) (2 # 10) (1 # 10) (1 # 10) in
  close_num 8 (weightedAverage_spec scores weights)
    (Binary64.calculateWeightedCompatibility Math_pow_quarter defaultConfig
       scores weights)
  /\ close_num 10 (weightedAverage_spec scores weights)
       (Binary64.calculateWeightedCompatibility Math_pow_quarter defaultConfig
          scores (scaleWeights64 (Fin 10) weights))
  /\ close_num 18
       (Binary64.calculateWeightedCompatibility Math_pow_quarter defaultConfig
          scores weights)
       (Binary64.calculateWeightedCompatibility Math_pow_quarter defaultConfig
          scores (scaleWeights64 (Fin 10) weights)).
Proof.
  apply (weighted_average_normalizes_up_to_rounding Math_pow_quarter
           defaultConfig
           (scoresOf (lit64 (9 # 10)) (lit64 (5 # 10)) (lit64 (5 # 10))
                     (lit64 (5 # 10)))
           (6 # 10) (2 # 10) (1 # 10) (1 # 10) 10); at_sample.
Defined.

Lemma multiplicative_zero_floor_at_sample :
  calculateWeightedCompatibility Math_pow_quarter (configWith "multiplicative")
    (scoresOf (dec1 9) zero (dec1 5) one) (defaultWeights defaultConfig)
  = Math_pow_quarter
      (dec1 9 * zero * dec1 5 * one)%js (Fin (1 # 4))
  /\ calculateWeightedCompatibility Math_pow_quarter
       (configWith "multiplicative")
       (scoresOf (dec1 9) zero (dec1 5) one) (defaultWeights defaultConfig)
     =~ zero.
Proof.
  apply (multiplicative_zero_floor Math_pow_quarter
           (configWith "multiplicative")
           (scoresOf (dec1 9) zero (dec1 5) one)
           (defaultWeights defaultConfig) Math_pow_quarter_zero);
    [ reflexivity
    | vm_compute; split; discriminate ..
    | right; left; reflexivity ].
Defined.

(** The total scores of the sample pool in exact arithmetic, and the
    candidates the gate accepts. *)
Example sample_pool_scores :
  Forall2 num_eq (map totalScore samplePool) [Fin (5 # 6); Fin (64 # 100)]
  /\ List.length (accepted (minimumThresholds sampleCriteria) samplePool) = 2%nat
  /\ List.length (accepted (withOverall (minimumThresholds sampleCriteria)
                                        (dec1 7)) samplePool) = 1%nat.
Proof. vm_compute. repeat constructor. Qed.

Lemma raising_overall_threshold_shrinks_at_sample :
  incl (accepted (withOverall (minimumThresholds sampleCriteria) (dec1 7))
                 samplePool)
       (accepted (withOverall (minimumThresholds sampleCriteria) (dec1 6))
                 samplePool)
  /\ forall a,
       meetsMinimumThresholds
         a (withOverall (minimumThresholds sampleCriteria) (dec1 7)) = true ->
       meetsMinimumThresholds
         a (withOverall (minimumThresholds sampleCriteria) (dec1 6)) = true.
Proof.
  apply (raising_overall_threshold_shrinks samplePool
           (minimumThresholds sampleCriteria) (dec1 6) (dec1 7)).
  reflexivity.
Defined.


Example negative_weights_are_not_clamped :
  Binary64.calculateWeightedCompatibility Math_pow_quarter defaultConfig
    (scoresOf (lit64 (9 # 10)) (lit64 (5 # 10)) (lit64 (5 # 10))
              (lit64 (5 # 10)))
    (finiteWeights (- (3 # 1)) (- (1 # 1)) 0 0)
  =~ lit64 (8 # 10).
Proof. vm_compute. reflexivity. Qed.

Lemma ranking_is_descending_and_stable_at_sample :
  Permutation (Array_sort (compareMatches sampleCriteria) mixedMatches)
              mixedMatches
  /\ StronglySorted descending
       (Array_sort (compareMatches sampleCriteria) mixedMatches)
  /\ (forall q,
        withScore q (Array_sort (compareMatches sampleCriteria) mixedMatches)
        = withScore q mixedMatches)
  /\ (exists rest,
        Array_sort (compareMatches sampleCriteria) mixedMatches
        = (findAdvancedMatches_rank defaultMatchingConfig sampleCriteria
                                    mixedMatches ++ rest)%list)
  /\ StronglySorted descending
       (findAdvancedMatches_rank defaultMatchingConfig sampleCriteria
                                 mixedMatches).
Proof.
  apply (ranking_is_descending_and_stable defaultMatchingConfig
           sampleCriteria mixedMatches);
    [ reflexivity | reflexivity
    | repeat constructor; eexists; reflexivity ].
Defined.

Lemma validation_reports_first_violation_only_at_sample :
  findMatches noCooldowns sampleNow defaultMatchingConfig
              PreferenceMatchResult (fun _ _ => Return []) "user-001"
              invalidCriteria
  = (if distanceViolated defaultMatchingConfig invalidCriteria then
       Throw (Error [Str "Maximum distance cannot exceed ";
                     Num (maxRadius defaultMatchingConfig); Str "km"])
     else if ageRangeViolated invalidCriteria then
       Throw (Error [Str "Invalid age range"])
     else Return [])
  /\ (forall e,
        validateMatchingCriteria defaultMatchingConfig invalidCriteria
        = Throw e -> exists msg, e = Error msg)
  /\ (forall e,
        validateMatchingCriteria defaultMatchingConfig invalidCriteria
        = Throw e ->
        listsEveryField e (violatedFields defaultMatchingConfig
                                          invalidCriteria) = false).
Proof.
  apply (validation_reports_first_violation_only noCooldowns sampleNow
           defaultMatchingConfig PreferenceMatchResult
           (fun _ _ => Return []) "user-001" invalidCriteria).
  reflexivity.
Defined.

Lemma missing_timestamps_asymmetry_at_sample :
  isDealBreakerTriggered sampleNow user001 candidate001 "inactive_users" = true
  /\ isDealBreakerTriggered sampleNow user001 candidate001 "new_profiles"
     = false
  /\ ~ In candidate001
         (applyDealBreakerFilters sampleNow defaultConfig user001
            [candidate001; candidate002] ["no_photos"; "inactive_users"])
  /\ In candidate001
        (applyDealBreakerFilters sampleNow defaultConfig user001
           [candidate001; candidate002] ["new_profiles"]).
Proof.
  destruct (missing_timestamps_asymmetry sampleNow defaultConfig user001
              candidate001) as (H1 & H2 & H3).
  destruct (H3 eq_refl eq_refl eq_refl) as [H4 H5].
  split; [exact (H1 eq_refl)|]. split; [exact (H2 eq_refl)|].
  split.
  - apply H4. right. left. reflexivity.
  - apply H5. left. reflexivity.
Defined.

(** * Further properties of the engine *)

(** ** The deal-breaker filter *)

Lemma passesDealBreakers_existsb (now : number)
  (userProfile candidate : UserProfile) (dealBreakers : list string) :
  passesDealBreakers now userProfile candidate dealBreakers
  = negb (existsb (isDealBreakerTriggered now userProfile candidate)
                  dealBreakers).
Proof.
  induction dealBreakers as [|d l IH]; cbn [passesDealBreakers existsb];
    [reflexivity|].
  destruct (isDealBreakerTriggered now userProfile candidate d);
    [reflexivity|exact IH].
Qed.

Lemma filter_idempotent {A : Type} (f : A -> bool) (l : list A) :
  filter f (filter f l) = filter f l.
Proof.
  induction l as [|a l IH]; cbn [filter]; [reflexivity|].
  destruct (f a) eqn:E; [|exact IH].
  cbn [filter]. rewrite E, IH. reflexivity.
Qed.

(** Only ['inactive_users'] and ['new_profiles'] read the clock. *)
Lemma isDealBreakerTriggered_clock_free (now1 now2 : number)
  (userProfile candidate : UserProfile) (dealBreaker : string) :
  dealBreaker <> "inactive_users" -> dealBreaker <> "new_profiles" ->
  isDealBreakerTriggered now1 userProfile candidate dealBreaker
  = isDealBreakerTriggered now2 userProfile candidate dealBreaker.
Proof.
  intros H1 H2. apply String.eqb_neq in H1, H2.
  unfold isDealBreakerTriggered. rewrite H1, H2. reflexivity.
Qed.

Lemma includes_false (l : list string) (s d : string) :
  includes l s = false -> In d l -> d <> s.
Proof.
  unfold includes. intros H Hin E. subst d.
  assert (T : existsb (String.eqb s) l = true).
  { apply existsb_exists. exists s. split; [exact Hin|apply String.eqb_refl]. }
  congruence.
Qed.

Lemma passesDealBreakers_clock_free (now1 now2 : number)
  (userProfile candidate : UserProfile) (dealBreakers : list string) :
  includes dealBreakers "inactive_users" = false ->
  includes dealBreakers "new_profiles" = false ->
  passesDealBreakers now1 userProfile candidate dealBreakers
  = passesDealBreakers now2 userProfile candidate dealBreakers.
Proof.
  intros H1 H2. rewrite !passesDealBreakers_existsb. f_equal.
  induction dealBreakers as [|d l IH]; [reflexivity|].
  cbn [existsb].
  rewrite (isDealBreakerTriggered_clock_free now1 now2 userProfile candidate d).
  - f_equal. apply IH.
    + unfold includes in *. cbn [existsb] in H1.
      apply orb_false_iff in H1. apply H1.
    + unfold includes in *. cbn [existsb] in H2.
      apply orb_false_iff in H2. apply H2.
  - apply (includes_false (d :: l)); [exact H1|left; reflexivity].
  - apply (includes_false (d :: l)); [exact H2|left; reflexivity].
Qed.

Lemma applyDealBreakerFilters_clock_free (now1 now2 : number)
  (config : PreferenceFilteringConfig) (userProfile : UserProfile)
  (pool : list UserProfile) (dealBreakers : list string) :
  includes dealBreakers "inactive_users" = false ->
  includes dealBreakers "new_profiles" = false ->
  applyDealBreakerFilters now1 config userProfile pool dealBreakers
  = applyDealBreakerFilters now2 config userProfile pool dealBreakers.
Proof.
  intros H1 H2. unfold applyDealBreakerFilters.
  destruct (negb (enableDealBreakerFiltering config)
            || (List.length dealBreakers =? 0)%nat); [reflexivity|].
  apply filter_ext. intros candidate.
  apply passesDealBreakers_clock_free; assumption.
Qed.

(** X1. The filter reads [Date.now()] at each call, for ['inactive_users']
    and ['new_profiles'] only.  With neither of the two among the deal
    breakers, applying them again to the filtered pool, at any later
    instant, changes nothing more; and the filter only removes candidates:
    what it returns is a sub-list of the pool. *)
Theorem clock_free_filter_is_idempotent
  (now1 now2 : number) (config : PreferenceFilteringConfig)
  (userProfile : UserProfile) (pool : list UserProfile)
  (dealBreakers : list string) :
  includes dealBreakers "inactive_users" = false ->
  includes dealBreakers "new_profiles" = false ->
  let once :=
    applyDealBreakerFilters now1 config userProfile pool dealBreakers in
  applyDealBreakerFilters now2 config userProfile once dealBreakers = once
  /\ incl once pool
  /\ (List.length once <= List.length pool)%nat.
Proof.
  intros H1 H2. cbv zeta.
  rewrite (applyDealBreakerFilters_clock_free now2 now1) by assumption.
  unfold applyDealBreakerFilters.
  destruct (negb (enableDealBreakerFiltering config)
            || (List.length dealBreakers =? 0)%nat).
  - split; [reflexivity|]. split; [apply incl_refl|lia].
  - split; [apply filter_idempotent|].
    split; [apply incl_filter|apply filter_length_le].
Qed.

(** With ['inactive_users'] a later run can remove more: a candidate last
    active exactly 14 days ago is kept, and removed a millisecond later. *)
Example a_later_run_can_remove_more :
  let pool := [lastSeenAt (of_Z 1698790400000)] in
  applyDealBreakerFilters sampleNow defaultConfig user001 pool
                          ["inactive_users"] = pool
  /\ applyDealBreakerFilters (of_Z 1700000000001) defaultConfig user001 pool
                             ["inactive_users"] = [].
Proof. split; reflexivity. Qed.

Lemma existsb_same_members {A : Type} (f : A -> bool) (l1 l2 : list A) :
  (forall x, In x l1 <-> In x l2) -> existsb f l1 = existsb f l2.
Proof.
  intros H.
  destruct (existsb f l1) eqn:E1, (existsb f l2) eqn:E2; try reflexivity.
  - apply existsb_exists in E1. destruct E1 as (x & Hx & Hf).
    assert (E : existsb f l2 = true)
      by (apply existsb_exists; exists x; split; [apply H; exact Hx|exact Hf]).
    congruence.
  - apply existsb_exists in E2. destruct E2 as (x & Hx & Hf).
    assert (E : existsb f l1 = true)
      by (apply existsb_exists; exists x; split; [apply H; exact Hx|exact Hf]).
    congruence.
Qed.

(** X2. The filter depends on the set of active deal breakers only: two
    lists with the same members, in any order and with any repetitions,
    keep the same candidates. *)
Theorem deal_breaker_order_is_irrelevant
  (now : number) (config : PreferenceFilteringConfig)
  (userProfile : UserProfile) (pool : list UserProfile)
  (dealBreakers1 dealBreakers2 : list string) :
  (forall d, In d dealBreakers1 <-> In d dealBreakers2) ->
  applyDealBreakerFilters now config userProfile pool dealBreakers1
  = applyDealBreakerFilters now config userProfile pool dealBreakers2.
Proof.
  intros H. unfold applyDealBreakerFilters.
  assert (E : (List.length dealBreakers1 =? 0)%nat
              = (List.length dealBreakers2 =? 0)%nat).
  { destruct dealBreakers1 as [|a l1], dealBreakers2 as [|b l2];
      try reflexivity.
    - destruct (proj2 (H b)); left; reflexivity.
    - destruct (proj1 (H a)); left; reflexivity. }
  rewrite E.
  destruct (negb (enableDealBreakerFiltering config)
            || (List.length dealBreakers2 =? 0)%nat); [reflexivity|].
  apply filter_ext. intros c. rewrite !passesDealBreakers_existsb.
  f_equal. apply existsb_same_members. exact H.
Qed.

Lemma unknown_deal_breaker_never_triggers (now : number)
  (userProfile candidate : UserProfile) (dealBreaker : string) :
  ~ In dealBreaker knownDealBreakers ->
  isDealBreakerTriggered now userProfile candidate dealBreaker = false.
Proof.
  intros H. unfold isDealBreakerTriggered.
  repeat match goal with
         | |- context [dealBreaker =? ?lit] =>
             let E := fresh "E" in
             destruct (dealBreaker =? lit) eqn:E;
             [ apply String.eqb_eq in E; exfalso; apply H; rewrite E;
               unfold knownDealBreakers; cbn [In]; tauto | ]
         end.
  reflexivity.
Qed.

(** X3. An id outside the catalog is a no-op: a list made of such ids only
    keeps the whole pool, and adding such an id to any list of deal
    breakers does not change which candidates are kept. *)
Theorem unknown_deal_breakers_keep_everyone
  (now : number) (config : PreferenceFilteringConfig)
  (userProfile : UserProfile) (pool : list UserProfile)
  (unknown : string) (dealBreakers : list string) :
  ~ In unknown knownDealBreakers ->
  Forall (fun d => ~ In d knownDealBreakers) dealBreakers ->
  applyDealBreakerFilters now config userProfile pool dealBreakers = pool
  /\ forall others,
       applyDealBreakerFilters now config userProfile pool
                               (unknown :: others)
       = applyDealBreakerFilters now config userProfile pool others.
Proof.
  intros Hu Hall.
  assert (Hkeep : forall l,
            (forall c, passesDealBreakers now userProfile c l = true) ->
            filter (fun c => passesDealBreakers now userProfile c l) pool
            = pool).
  { intros l Hl. induction pool as [|c pool IH]; cbn [filter]; [reflexivity|].
    rewrite Hl, IH. reflexivity. }
  split.
  - unfold applyDealBreakerFilters.
    destruct (negb (enableDealBreakerFiltering config)
              || (List.length dealBreakers =? 0)%nat); [reflexivity|].
    apply Hkeep. intros c. rewrite passesDealBreakers_existsb.
    apply negb_true_iff.
    induction Hall as [|d l Hd Hl IHl]; [reflexivity|].
    cbn [existsb].
    rewrite (unknown_deal_breaker_never_triggers now userProfile c d Hd).
    exact IHl.
  - intros others. unfold applyDealBreakerFilters.
    cbn [List.length Nat.eqb]. rewrite Bool.orb_false_r.
    destruct (negb (enableDealBreakerFiltering config)) eqn:E;
      cbn [orb]; [reflexivity|].
    assert (Hsame : forall c,
              passesDealBreakers now userProfile c (unknown :: others)
              = passesDealBreakers now userProfile c others).
    { intros c. cbn [passesDealBreakers].
      rewrite (unknown_deal_breaker_never_triggers now userProfile c unknown
                 Hu). reflexivity. }
    destruct others as [|d others]; cbn [List.length Nat.eqb].
    + apply Hkeep. intros c. rewrite Hsame. reflexivity.
    + apply filter_ext. exact Hsame.
Qed.

(** ** The preference analysis *)

Lemma analyzePreferenceMatch_dealBreakers
  (Math_pow : number -> number -> number) (config : PreferenceFilteringConfig)
  (now : number) (userProfile candidate : UserProfile)
  (criteria : AdvancedMatchingCriteria) (g : Rng) :
  dealBreakerAnalysis
    (fst (analyzePreferenceMatch Math_pow config now userProfile candidate
                                 criteria g))
  = analyzeDealBreakers now userProfile candidate (dealBreakers criteria).
Proof.
  unfold analyzePreferenceMatch, analyzeMustHaves, analyzeNiceToHaves,
    analyzePreferenceMatches, bind, ret.
  destruct (partitionM _ (mustHaves criteria) [] [] g) as [[s1 m1] g1].
  destruct (partitionM _ (niceToHaves criteria) [] [] g1) as [[s2 m2] g2].
  reflexivity.
Qed.

Lemma filter_none {A : Type} (f : A -> bool) (l : list A) :
  existsb f l = false -> filter f l = [] /\ filter (fun x => negb (f x)) l = l.
Proof.
  induction l as [|a l IH]; cbn [existsb filter]; [split; reflexivity|].
  intros H. apply orb_false_iff in H. destruct H as [Ha Hl].
  rewrite Ha. cbn [negb]. destruct (IH Hl) as [-> ->]. split; reflexivity.
Qed.

Lemma filter_partition_perm {A : Type} (f : A -> bool) (l : list A) :
  Permutation (filter f l ++ filter (fun x => negb (f x)) l)%list l.
Proof.
  induction l as [|a l IH]; cbn [filter]; [constructor|].
  destruct (f a); cbn [negb app].
  - constructor. exact IH.
  - rewrite <- Permutation_middle. constructor. exact IH.
Qed.

(** X4. The deal-breaker analysis agrees with the filter run before it: a
    candidate the filter kept (filtering enabled) is analysed, at any later
    instant, as [passed], with no triggered deal breaker and every deal
    breaker in the passed list, provided the criteria hold neither
    ['inactive_users'] nor ['new_profiles'], the two deal breakers that
    read the clock. *)
Theorem analysis_agrees_with_the_earlier_filter
  (Math_pow : number -> number -> number) (config : PreferenceFilteringConfig)
  (now1 now2 : number) (userProfile candidate : UserProfile)
  (pool : list UserProfile) (criteria : AdvancedMatchingCriteria) (g : Rng) :
  enableDealBreakerFiltering config = true ->
  includes (dealBreakers criteria) "inactive_users" = false ->
  includes (dealBreakers criteria) "new_profiles" = false ->
  In candidate (applyDealBreakerFilters now1 config userProfile pool
                                        (dealBreakers criteria)) ->
  let analysis :=
    dealBreakerAnalysis
      (fst (analyzePreferenceMatch Math_pow config now2 userProfile candidate
                                   criteria g)) in
  passed analysis = true
  /\ triggeredDealBreakers analysis = []
  /\ passedDealBreakers analysis = dealBreakers criteria.
Proof.
  intros Hcfg Hi Hn Hin. cbv zeta. rewrite analyzePreferenceMatch_dealBreakers.
  rewrite (applyDealBreakerFilters_clock_free now1 now2) in Hin by assumption.
  assert (Hnone : existsb (isDealBreakerTriggered now2 userProfile candidate)
                          (dealBreakers criteria) = false).
  { unfold applyDealBreakerFilters in Hin. rewrite Hcfg in Hin.
    cbn [negb orb] in Hin.
    destruct (dealBreakers criteria) as [|d l]; [reflexivity|].
    cbn [List.length Nat.eqb] in Hin. apply filter_In in Hin.
    destruct Hin as [_ Hp]. rewrite passesDealBreakers_existsb in Hp.
    apply negb_true_iff in Hp. exact Hp. }
  assert (H1 : filter (fun d =>
                         isDealBreakerTriggered now2 userProfile candidate d)
                      (dealBreakers criteria) = [])
    by (apply (filter_none _ _ Hnone)).
  assert (H2 : filter (fun d =>
                         negb (isDealBreakerTriggered now2 userProfile
                                                      candidate d))
                      (dealBreakers criteria) = dealBreakers criteria)
    by (apply (filter_none _ _ Hnone)).
  unfold analyzeDealBreakers. cbn [passed triggeredDealBreakers
                                     passedDealBreakers].
  rewrite H1, H2. repeat split.
Qed.

(** X5. For every candidate the triggered and the passed deal breakers of
    the analysis are, together, exactly the deal breakers of the criteria,
    and [passed] is true exactly when the candidate would pass the
    filter's test. *)
Theorem deal_breaker_analysis_partitions
  (now : number) (userProfile candidate : UserProfile)
  (dealBreakers : list string) :
  let analysis :=
    analyzeDealBreakers now userProfile candidate dealBreakers in
  Permutation (triggeredDealBreakers analysis ++ passedDealBreakers analysis)%list
              dealBreakers
  /\ passed analysis
     = passesDealBreakers now userProfile candidate dealBreakers.
Proof.
  cbv zeta. unfold analyzeDealBreakers.
  cbn [passed triggeredDealBreakers passedDealBreakers].
  split; [apply filter_partition_perm|].
  rewrite passesDealBreakers_existsb.
  induction dealBreakers as [|d l IH]; cbn [filter existsb]; [reflexivity|].
  destruct (isDealBreakerTriggered now userProfile candidate d);
    [reflexivity|exact IH].
Qed.

Lemma partitionM_accounts (test : string -> Rand bool)
  (items yes no : list string) (g : Rng) :
  let r := fst (partitionM test items yes no g) in
  Permutation (fst r ++ snd r)%list (yes ++ no ++ items)%list.
Proof.
  cbv zeta. revert yes no g.
  induction items as [|item rest IH]; intros yes no g.
  - cbn. rewrite app_nil_r. reflexivity.
  - cbn [partitionM]. unfold bind. destruct (test item g) as [[|] g'];
      cbv beta iota; (etransitivity; [apply IH|]);
      rewrite <- !app_assoc; cbn [app].
    + apply Permutation_app_head. apply Permutation_middle.
    + reflexivity.
Qed.

(** X6. Whatever [Math.random] returns, the must-have and nice-to-have
    analyses account for every item once: the satisfied (matched) and the
    missed items together are the items of the criteria, and the counts
    add up to the totals. *)
Theorem must_have_analysis_accounts_for_every_item
  (Math_pow : number -> number -> number) (config : PreferenceFilteringConfig)
  (now : number) (userProfile candidate : UserProfile)
  (criteria : AdvancedMatchingCriteria) (g : Rng) :
  let a := fst (analyzePreferenceMatch Math_pow config now userProfile
                                       candidate criteria g) in
  Permutation (satisfiedItems (mustHaveAnalysis a)
               ++ mh_missedItems (mustHaveAnalysis a))%list
              (mustHaves criteria)
  /\ (satisfiedMustHaves (mustHaveAnalysis a)
      + List.length (mh_missedItems (mustHaveAnalysis a))
      = totalMustHaves (mustHaveAnalysis a))%nat
  /\ Permutation (matchedItems (niceToHaveAnalysis a)
                  ++ nth_missedItems (niceToHaveAnalysis a))%list
                 (niceToHaves criteria)
  /\ (matchedNiceToHaves (niceToHaveAnalysis a)
      + List.length (nth_missedItems (niceToHaveAnalysis a))
      = totalNiceToHaves (niceToHaveAnalysis a))%nat.
Proof.
  cbv zeta.
  unfold analyzePreferenceMatch, analyzeMustHaves, analyzeNiceToHaves,
    analyzePreferenceMatches, bind, ret.
  pose proof (partitionM_accounts
                (fun _ => x <- Math_random ;; ret (x >? dec1 3)%js)
                (mustHaves criteria) [] [] g) as H1.
  cbv zeta in H1. unfold bind, ret in H1.
  destruct (partitionM _ (mustHaves criteria) [] [] g) as [[s1 m1] g1].
  pose proof (partitionM_accounts
                (fun _ => x <- Math_random ;; ret (x >? dec1 5)%js)
                (niceToHaves criteria) [] [] g1) as H2.
  cbv zeta in H2. unfold bind, ret in H2.
  destruct (partitionM _ (niceToHaves criteria) [] [] g1) as [[s2 m2] g2].
  cbn in *.
  split; [exact H1|]. split.
  - rewrite <- (Permutation_length H1). rewrite length_app. reflexivity.
  - split; [exact H2|].
    rewrite <- (Permutation_length H2). rewrite length_app. reflexivity.
Qed.

(** ** The aggregator on proper weights *)

Lemma Qdiv_nonneg_pos (w t : Q) : 0 <= w -> 0 < t -> 0 <= w / t.
Proof. intros Hw Ht. apply Qle_shift_div_l; lra. Qed.

Lemma weighted_sum_fin (sp sl ss sr p l s r : Q) :
  ~ p + l + s + r == 0 ->
  (Fin sp * (Fin p / Fin (p + l + s + r))
   + Fin sl * (Fin l / Fin (p + l + s + r))
   + Fin ss * (Fin s / Fin (p + l + s + r))
   + Fin sr * (Fin r / Fin (p + l + s + r)))%js
  = Fin (sp * (p / (p + l + s + r)) + sl * (l / (p + l + s + r))
         + ss * (s / (p + l + s + r)) + sr * (r / (p + l + s + r))).
Proof.
  intros Ht. cbn [JS.div]. rewrite (Qeq_bool_false _ Ht). reflexivity.
Qed.

Lemma weighted_sum_bounds (sp sl ss sr p l s r : Q) :
  0 <= sp <= 1 -> 0 <= sl <= 1 -> 0 <= ss <= 1 -> 0 <= sr <= 1 ->
  0 <= p -> 0 <= l -> 0 <= s -> 0 <= r -> 0 < p + l + s + r ->
  0 <= sp * (p / (p + l + s + r)) + sl * (l / (p + l + s + r))
       + ss * (s / (p + l + s + r)) + sr * (r / (p + l + s + r)) <= 1.
Proof.
  intros. apply convex_combination_in_unit; auto using Qdiv_nonneg_pos.
  apply normalized_sum_one. lra.
Qed.

Lemma in_unit_fin (a : number) :
  in_unit a -> exists x, a = Fin x /\ 0 <= x <= 1.
Proof.
  destruct a as [x| | | ]; cbn [in_unit]; try contradiction.
  intros H. exists x. split; [reflexivity|exact H].
Qed.

(** X7. For non-negative weights of ordinary magnitude with a positive sum
    and category scores of [[0,1]] of ordinary magnitude, the aggregate the
    code computes is, under every algorithm, known or not, a number that is
    not [NaN], not negative and above 1 by less than [2^-49].  ([Math.pow]
    at the exponent 1/4 maps [[0,1]] into itself.) *)
Theorem aggregate_stays_nearly_in_unit
  (Math_pow : number -> number -> number) (config : PreferenceFilteringConfig)
  (categoryScores : CategoryScores) (p l s r : Q) :
  (forall b, in_unit b -> in_unit (Math_pow b (of_Z 1 / of_Z 4)%b64)) ->
  ordinary p -> ordinary l -> ordinary s -> ordinary r ->
  0 < p + l + s + r ->
  ordinaryScore (score (physical categoryScores)) ->
  ordinaryScore (score (lifestyle_cat categoryScores)) ->
  ordinaryScore (score (social categoryScores)) ->
  ordinaryScore (score (relationship categoryScores)) ->
  nearly_unit (Binary64.calculateWeightedCompatibility Math_pow config
                 categoryScores (finiteWeights p l s r)).
Proof. apply aggregate64_nearly_unit. Qed.

Lemma calculateCategoryScores_in_unit (userProfile candidate : UserProfile) :
  let c := calculateCategoryScores userProfile candidate in
  in_unit (score (physical c)) /\ in_unit (score (lifestyle_cat c))
  /\ in_unit (score (social c)) /\ in_unit (score (relationship c)).
Proof.
  cbv zeta.
  assert (H : forall (B : Type) (factors : B -> list number)
                     (c : CategoryScore B),
             categoryWellFormed factors c -> in_unit (score c))
    by (intros B factors c (_ & _ & Hc); exact Hc).
  split; [|split; [|split]];
    [ apply (H _ physicalFactors) | apply (H _ lifestyleFactors)
    | apply (H _ socialFactors) | apply (H _ relationshipFactors) ];
    (apply category_from_mean;
     [ reflexivity
     | discriminate
     | repeat constructor; cbn; auto with scores;
       unfold calculateSocialHabitsCompatibility,
         calculateOccupationCompatibility,
         calculateCommitmentCompatibility,
         calculateFamilyGoalsCompatibility; auto with scores; lra ]).
Qed.

(** X9. Under [hybrid], for non-negative weights with a positive sum and
    scores in [[0,1]], the aggregate never exceeds the [weighted_average]
    aggregate of the same scores and weights, and equals it when no
    category score is below 0.3. *)
Theorem hybrid_never_exceeds_weighted_average
  (Math_pow : number -> number -> number)
  (hybridConfig averageConfig : PreferenceFilteringConfig)
  (categoryScores : CategoryScores) (p l s r : Q) :
  scoringAlgorithm hybridConfig = "hybrid" ->
  scoringAlgorithm averageConfig = "weighted_average" ->
  0 <= p -> 0 <= l -> 0 <= s -> 0 <= r -> 0 < p + l + s + r ->
  in_unit (score (physical categoryScores)) ->
  in_unit (score (lifestyle_cat categoryScores)) ->
  in_unit (score (social categoryScores)) ->
  in_unit (score (relationship categoryScores)) ->
  let h := calculateWeightedCompatibility Math_pow hybridConfig
             categoryScores (finiteWeights p l s r) in
  let a := calculateWeightedCompatibility Math_pow averageConfig
             categoryScores (finiteWeights p l s r) in
  (h <=? a)%js = true
  /\ ((JS.min (JS.min (JS.min (score (physical categoryScores))
                              (score (lifestyle_cat categoryScores)))
                      (score (social categoryScores)))
              (score (relationship categoryScores)) <? dec1 3)%js = false ->
      h =~ a).
Proof.
  intros Hh Ha Hp Hl Hs Hr Ht Hsp Hsl Hss Hsr. cbv zeta.
  assert (Hmin : in_unit
            (JS.min (JS.min (JS.min (score (physical categoryScores))
                                    (score (lifestyle_cat categoryScores)))
                            (score (social categoryScores)))
                    (score (relationship categoryScores))))
    by (repeat apply min_in_unit; assumption).
  pose proof (penalty_in_unit _ Hmin) as Hpen.
  unfold calculateWeightedCompatibility.
  rewrite Hh, Ha. cbn [String.eqb Ascii.eqb Bool.eqb].
  cbn [finiteWeights w_physical w_lifestyle w_social w_relationship JS.add].
  destruct (in_unit_fin _ Hsp) as (sp & Ep & Bp).
  destruct (in_unit_fin _ Hsl) as (sl & El & Bl).
  destruct (in_unit_fin _ Hss) as (ss & Es & Bs).
  destruct (in_unit_fin _ Hsr) as (sr & Er & Br).
  rewrite Ep, El, Es, Er in *.
  rewrite weighted_sum_fin by lra.
  pose proof (weighted_sum_bounds sp sl ss sr p l s r Bp Bl Bs Br
                Hp Hl Hs Hr Ht) as HA.
  set (A := sp * (p / (p + l + s + r)) + sl * (l / (p + l + s + r))
            + ss * (s / (p + l + s + r)) + sr * (r / (p + l + s + r))) in *.
  split.
  - destruct (in_unit_fin _ Hpen) as (q & Eq & Bq). rewrite Eq.
    cbn [JS.mul JS.le]. apply Qle_bool_iff. nra.
  - intros Hno. rewrite Hno. cbn [JS.mul one num_eq]. ring.
Qed.

(** X10. Under [multiplicative] and under an unknown algorithm the weights
    play no part: the aggregate is the same for any two weight quadruples,
    all-zero weights included. *)
Theorem weights_unused_outside_weighted_algorithms
  (Math_pow : number -> number -> number) (config : PreferenceFilteringConfig)
  (categoryScores : CategoryScores) (weights1 weights2 : PreferenceWeights) :
  scoringAlgorithm config <> "weighted_average" ->
  scoringAlgorithm config <> "hybrid" ->
  calculateWeightedCompatibility Math_pow config categoryScores weights1
  = calculateWeightedCompatibility Math_pow config categoryScores weights2.
Proof.
  intros Hw Hh. unfold calculateWeightedCompatibility.
  apply String.eqb_neq in Hw, Hh. rewrite Hw, Hh.
  destruct (scoringAlgorithm config =? "multiplicative"); reflexivity.
Qed.

(** ** Sub-factor scorers: boundaries and symmetry *)

#[global] Instance le_Proper : Proper (num_eq ==> num_eq ==> eq) JS.le.
Proof.
  intros [x| | | ] [y| | | ] H1 [u| | | ] [v| | | ] H2;
    simpl in *; auto; try contradiction.
  rewrite H1, H2; reflexivity.
Qed.

#[global] Instance eqb_Proper : Proper (num_eq ==> num_eq ==> eq) JS.eqb.
Proof.
  intros [x| | | ] [y| | | ] H1 [u| | | ] [v| | | ] H2;
    simpl in *; auto; try contradiction.
  rewrite H1, H2; reflexivity.
Qed.

Lemma abs_sub_comm (a b : number) : JS.abs (a - b)%js =~ JS.abs (b - a)%js.
Proof.
  destruct a as [x| | | ], b as [y| | | ]; try exact I.
  change (Qabs (x + - y) == Qabs (y + - x)).
  assert (E : y + - x == - (x + - y)) by ring.
  rewrite E. symmetry. apply Qabs_opp.
Qed.

(** X11. With a preferred age range [min <= max], the age sub-factor is
    1.0 exactly for the candidate ages inside the closed range: the two
    bounds included, every age outside scoring less. *)
Theorem age_in_closed_range_scores_one
  (userProfile candidate : UserProfile) (prefs : MatchingPreferences)
  (range : AgeRange) (a b x : Q) :
  preferences userProfile = Some prefs ->
  ageRange prefs = Some range ->
  ar_min range = Fin a -> ar_max range = Fin b -> a <= b ->
  age (personalInfo candidate) = Fin x ->
  (calculateAgeCompatibility userProfile candidate = one <-> a <= x <= b)
  /\ (x == a \/ x == b ->
      calculateAgeCompatibility userProfile candidate = one).
Proof.
  intros Hprefs Hrange Hmin Hmax Hab Hage.
  assert (Hiff : calculateAgeCompatibility userProfile candidate = one
                 <-> a <= x <= b).
  { unfold calculateAgeCompatibility.
    rewrite Hprefs, Hrange, Hmin, Hmax, Hage.
    unfold JS.ge. cbn [JS.le].
    destruct (Qle_bool a x) eqn:E1, (Qle_bool x b) eqn:E2; cbn [andb].
    - apply Qle_bool_iff in E1, E2. tauto.
    - split.
      + intros H. exfalso. revert H. split_tests; discriminate.
      + intros [_ H]. apply Qle_bool_iff in H. congruence.
    - split.
      + intros H. exfalso. revert H. split_tests; discriminate.
      + intros [H _]. apply Qle_bool_iff in H. congruence.
    - split.
      + intros H. exfalso. revert H. split_tests; discriminate.
      + intros [H _]. apply Qle_bool_iff in H. congruence. }
  split; [exact Hiff|].
  intros [H|H]; apply Hiff; rewrite H; split; lra.
Qed.

Lemma common_member_sym (l1 l2 : list string) :
  some l1 (fun x => includes l2 x) = some l2 (fun x => includes l1 x).
Proof.
  assert (H : forall a b,
            some a (fun x => includes b x) = true ->
            some b (fun x => includes a x) = true).
  { intros a b Hab. unfold some, includes in *.
    apply existsb_exists in Hab. destruct Hab as (x & Hx & Hy).
    apply existsb_exists in Hy. destruct Hy as (y & Hy & Exy).
    apply String.eqb_eq in Exy. subst y.
    apply existsb_exists. exists x. split; [exact Hy|].
    apply existsb_exists. exists x. split; [exact Hx|apply String.eqb_refl]. }
  destruct (some l1 (fun x => includes l2 x)) eqn:E1,
           (some l2 (fun x => includes l1 x)) eqn:E2; try reflexivity.
  - apply H in E1. congruence.
  - apply H in E2. congruence.
Qed.

Lemma calculateSmokingCompatibility_sym (u c : UserProfile) :
  calculateSmokingCompatibility u c = calculateSmokingCompatibility c u.
Proof.
  unfold calculateSmokingCompatibility.
  generalize (str_or (lifestyle_field smoking u) "unknown").
  generalize (str_or (lifestyle_field smoking c) "unknown").
  intros s2 s1. rewrite (String.eqb_sym s2 s1).
  destruct (s1 =? s2), (s1 =? "never"), (s1 =? "socially"),
    (s1 =? "regularly"), (s2 =? "never"), (s2 =? "socially"),
    (s2 =? "regularly"); reflexivity.
Qed.

Lemma levelCompatibility_sym (levels : list string) (far : number)
  (user candidate : string) :
  levelCompatibility levels far user candidate
  = levelCompatibility levels far candidate user.
Proof.
  unfold levelCompatibility. rewrite (String.eqb_sym candidate user).
  destruct (user =? candidate); [reflexivity|].
  rewrite (andb_comm (0 <=? indexOf levels candidate)%Z).
  replace (indexOf levels candidate - indexOf levels user)%Z
    with (- (indexOf levels user - indexOf levels candidate))%Z by lia.
  rewrite Z.abs_opp. reflexivity.
Qed.

Lemma calculateDietCompatibility_sym (u c : UserProfile) :
  calculateDietCompatibility u c = calculateDietCompatibility c u.
Proof.
  unfold calculateDietCompatibility.
  generalize (str_or (lifestyle_field diet u) "unknown").
  generalize (str_or (lifestyle_field diet c) "unknown").
  intros s2 s1. rewrite (String.eqb_sym s2 s1).
  destruct (s1 =? s2), (s1 =? "vegetarian"), (s1 =? "vegan"),
    (s1 =? "omnivore"), (s2 =? "vegetarian"), (s2 =? "vegan"),
    (s2 =? "omnivore"); reflexivity.
Qed.

Lemma calculateSexualOrientationCompatibility_sym (u c : UserProfile) :
  calculateSexualOrientationCompatibility u c
  = calculateSexualOrientationCompatibility c u.
Proof.
  unfold calculateSexualOrientationCompatibility.
  rewrite (String.eqb_sym (sexualOrientation (personalInfo c))
                          (sexualOrientation (personalInfo u))).
  rewrite (orb_comm (sexualOrientation (personalInfo c) =? "bisexual")).
  reflexivity.
Qed.

Lemma calculateHeightCompatibility_sym (u c : UserProfile) :
  calculateHeightCompatibility u c = calculateHeightCompatibility c u.
Proof.
  unfold calculateHeightCompatibility.
  destruct (height (personalInfo u)) as [hu|],
           (height (personalInfo c)) as [hc|]; try reflexivity.
  rewrite (orb_comm (negb (truthy hc))).
  destruct (negb (truthy hu) || negb (truthy hc)); [reflexivity|].
  cbv zeta. rewrite !(abs_sub_comm hc hu). reflexivity.
Qed.

(** X12. Compatibility of habits and of relationship goals does not depend
    on who is the seeker: the lifestyle and the relationship category
    scores, breakdowns included, and the height sub-factor are the same
    with seeker and candidate exchanged. *)
Theorem lifestyle_and_relationship_scores_are_symmetric
  (userProfile candidate : UserProfile) :
  calculateLifestyleScore userProfile candidate
  = calculateLifestyleScore candidate userProfile
  /\ calculateRelationshipScore userProfile candidate
     = calculateRelationshipScore candidate userProfile
  /\ calculateHeightCompatibility userProfile candidate
     = calculateHeightCompatibility candidate userProfile.
Proof.
  split; [|split].
  - unfold calculateLifestyleScore.
    rewrite (calculateSmokingCompatibility_sym userProfile candidate).
    rewrite (calculateDietCompatibility_sym userProfile candidate).
    unfold calculateDrinkingCompatibility, calculateExerciseCompatibility.
    rewrite (levelCompatibility_sym _ _
               (str_or (lifestyle_field drinking userProfile) "unknown")).
    rewrite (levelCompatibility_sym _ _
               (str_or (lifestyle_field exercise userProfile) "unknown")).
    reflexivity.
  - unfold calculateRelationshipScore,
      calculateRelationshipTypeCompatibility.
    rewrite (calculateSexualOrientationCompatibility_sym userProfile candidate).
    rewrite (common_member_sym
               (arr_or (lookingFor (personalInfo userProfile)))).
    reflexivity.
  - apply calculateHeightCompatibility_sym.
Qed.

(** The interests sub-factor is not symmetric when a list repeats an
    interest. *)
Example interests_score_is_not_symmetric :
  let withInterests := fun l =>
    sampleProfile "p" 28 None "average" "never" "never" "bachelors" l 1 in
  calculateInterestsCompatibility
    (withInterests ["a"; "a"; "b"; "c"]) (withInterests ["a"; "d"]) =~ one
  /\ calculateInterestsCompatibility
       (withInterests ["a"; "d"]) (withInterests ["a"; "a"; "b"; "c"])
     =~ dec1 5.
Proof. vm_compute. split; reflexivity. Qed.

(** ** The threshold gate on category thresholds *)

Lemma belowThreshold_mono (s lo hi : number) :
  in_unit s -> (lo <=? hi)%js = true ->
  belowThreshold (Some lo) s = true -> belowThreshold (Some hi) s = true.
Proof.
  destruct s as [x| | | ]; cbn [in_unit]; try contradiction.
  intros [H0 H1].
  destruct lo as [a| | | ], hi as [b| | | ];
    cbn [JS.le belowThreshold truthy JS.lt andb];
    try discriminate; try reflexivity.
  intros Hab H. apply Qle_bool_iff in Hab.
  apply andb_true_iff in H. destruct H as [_ Hx].
  apply negb_true_iff in Hx.
  assert (Hxa : x < a).
  { destruct (Qlt_le_dec x a) as [Hlt|Hle]; [exact Hlt|].
    apply Qle_bool_iff in Hle. congruence. }
  apply andb_true_iff. split.
  - apply negb_true_iff. apply Qeq_bool_false. lra.
  - apply negb_true_iff. apply Qle_bool_false. lra.
Qed.

Lemma belowThreshold_falsy (t : number) (s : number) :
  truthy t = false -> belowThreshold (Some t) s = false.
Proof. intros H. cbn [belowThreshold]. rewrite H. reflexivity. Qed.

(** X13. For the alignment [analyzePreferenceMatch] computes, raising any
    of the four per-category thresholds can only turn acceptance into
    rejection: a candidate that passes under the higher category
    thresholds passes under the lower ones.  A category threshold of 0
    rejects nobody. *)
Theorem raising_category_thresholds_shrinks
  (Math_pow : number -> number -> number) (config : PreferenceFilteringConfig)
  (now : number) (userProfile candidate : UserProfile)
  (criteria : AdvancedMatchingCriteria) (g : Rng)
  (overall lo1 lo2 lo3 lo4 hi1 hi2 hi3 hi4 : number) :
  (lo1 <=? hi1)%js = true -> (lo2 <=? hi2)%js = true ->
  (lo3 <=? hi3)%js = true -> (lo4 <=? hi4)%js = true ->
  let a := fst (analyzePreferenceMatch Math_pow config now userProfile
                                       candidate criteria g) in
  (meetsMinimumThresholds a
     {| t_overall := overall; t_physical := Some hi1;
        t_lifestyle := Some hi2; t_social := Some hi3;
        t_relationship := Some hi4 |} = true ->
   meetsMinimumThresholds a
     {| t_overall := overall; t_physical := Some lo1;
        t_lifestyle := Some lo2; t_social := Some lo3;
        t_relationship := Some lo4 |} = true)
  /\ meetsMinimumThresholds a
       {| t_overall := overall; t_physical := Some zero;
          t_lifestyle := Some zero; t_social := Some zero;
          t_relationship := Some zero |}
     = negb (totalScore a <? overall)%js.
Proof.
  intros H1 H2 H3 H4. cbv zeta.
  destruct (analyzePreferenceMatch_scores Math_pow config now userProfile
              candidate criteria g) as [Hcat _].
  cbv zeta in Hcat.
  destruct (calculateCategoryScores_in_unit userProfile candidate)
    as (U1 & U2 & U3 & U4).
  cbv zeta in U1, U2, U3, U4. rewrite <- Hcat in U1, U2, U3, U4.
  unfold meetsMinimumThresholds.
  cbn [t_overall t_physical t_lifestyle t_social t_relationship].
  split.
  - destruct (totalScore _ <? overall)%js; [discriminate|].
    pose proof (belowThreshold_mono _ _ _ U1 H1) as M1.
    pose proof (belowThreshold_mono _ _ _ U2 H2) as M2.
    pose proof (belowThreshold_mono _ _ _ U3 H3) as M3.
    pose proof (belowThreshold_mono _ _ _ U4 H4) as M4.
    destruct (belowThreshold (Some lo1) _);
      [rewrite (M1 eq_refl); discriminate|].
    destruct (belowThreshold (Some hi1) _); [discriminate|].
    destruct (belowThreshold (Some lo2) _);
      [rewrite (M2 eq_refl); discriminate|].
    destruct (belowThreshold (Some hi2) _); [discriminate|].
    destruct (belowThreshold (Some lo3) _);
      [rewrite (M3 eq_refl); discriminate|].
    destruct (belowThreshold (Some hi3) _); [discriminate|].
    destruct (belowThreshold (Some lo4) _);
      [rewrite (M4 eq_refl); discriminate|].
    trivial.
  - rewrite !belowThreshold_falsy by reflexivity.
    destruct (totalScore _ <? overall)%js; reflexivity.
Qed.

(** ** Ranking: size and contents of the result *)

Lemma slice0_length {A : Type} (k : Z) (l : list A) :
  (0 <= k)%Z ->
  (List.length (slice0 k l) <= Z.to_nat k)%nat
  /\ (List.length (slice0 k l) <= List.length l)%nat.
Proof.
  intros Hk. unfold slice0.
  destruct (k <? 0)%Z eqn:E; [apply Z.ltb_lt in E; lia|].
  rewrite length_firstn. lia.
Qed.

Lemma slice0_incl {A : Type} (k : Z) (l : list A) : incl (slice0 k l) l.
Proof.
  destruct (slice0_prefix k l) as [rest Hrest].
  intros x Hx. rewrite Hrest. apply in_or_app. left. exact Hx.
Qed.

Lemma sort_insert_perm_any {A : Type} (cmp : A -> A -> number)
  (x : A) (l : list A) :
  Permutation (sort_insert cmp x l) (x :: l).
Proof.
  induction l as [|y r IH]; cbn [sort_insert]; [reflexivity|].
  destruct (zero <? cmp x y)%js; [|reflexivity].
  rewrite IH. apply perm_swap.
Qed.

Lemma Array_sort_perm_any {A : Type} (cmp : A -> A -> number) (l : list A) :
  Permutation (Array_sort cmp l) l.
Proof.
  induction l as [|x r IH]; cbn [Array_sort]; [reflexivity|].
  rewrite sort_insert_perm_any. constructor. exact IH.
Qed.

(** X14. Whatever the sort specification and the scores ([NaN] included),
    the list [findAdvancedMatches] returns holds only scored matches that
    went in, none more often than it went in, and at most
    [maxResults] of them; when [maxResults] covers the list nothing is
    lost. *)
Theorem ranking_returns_at_most_maxResults
  (config : MatchingConfig) (criteria : AdvancedMatchingCriteria)
  (preferenceMatches : list PreferenceMatchResult) :
  (0 <= maxResults config)%Z ->
  let returned := findAdvancedMatches_rank config criteria preferenceMatches in
  (List.length returned <= Z.to_nat (maxResults config))%nat
  /\ (List.length returned <= List.length preferenceMatches)%nat
  /\ incl returned preferenceMatches
  /\ (exists dropped,
         Permutation (returned ++ dropped)%list preferenceMatches)
  /\ ((Z.of_nat (List.length preferenceMatches) <= maxResults config)%Z ->
      Permutation returned preferenceMatches).
Proof.
  intros Hk. cbv zeta. unfold findAdvancedMatches_rank.
  pose proof (Array_sort_perm_any (compareMatches criteria) preferenceMatches)
    as Hperm.
  destruct (slice0_length (maxResults config)
              (Array_sort (compareMatches criteria) preferenceMatches) Hk)
    as [L1 L2].
  rewrite (Permutation_length Hperm) in L2.
  split; [exact L1|]. split; [exact L2|].
  split.
  - intros x Hx. apply slice0_incl in Hx.
    eapply Permutation_in; eassumption.
  - split.
    + destruct (slice0_prefix (maxResults config)
                  (Array_sort (compareMatches criteria) preferenceMatches))
        as [rest Hrest].
      exists rest. rewrite <- Hrest. exact Hperm.
    + intros Hall. unfold slice0.
      destruct (maxResults config <? 0)%Z eqn:E;
        [apply Z.ltb_lt in E; lia|].
      rewrite firstn_all2; [exact Hperm|].
      rewrite (Permutation_length Hperm). lia.
Qed.

(** X15. The direction of the sort specification is read only for
    [sort.by = 'compatibility']: for any other key the ranking is by basic
    score, highest first, and two criteria that differ in key and
    direction give the same list. *)
Theorem direction_ignored_for_other_sort_keys
  (config : MatchingConfig) (criteria1 criteria2 : AdvancedMatchingCriteria)
  (preferenceMatches : list PreferenceMatchResult) :
  by_ (sort criteria1) <> "compatibility" ->
  by_ (sort criteria2) <> "compatibility" ->
  findAdvancedMatches_rank config criteria1 preferenceMatches
  = findAdvancedMatches_rank config criteria2 preferenceMatches
  /\ forall a b,
       compareMatches criteria1 a b = (basicScore b - basicScore a)%js.
Proof.
  intros H1 H2. apply String.eqb_neq in H1, H2.
  assert (E : forall c, (by_ (sort c) =? "compatibility") = false ->
                        forall a b, compareMatches c a b
                                    = (basicScore b - basicScore a)%js)
    by (intros c Hc a b; unfold compareMatches; rewrite Hc; reflexivity).
  split; [|exact (E criteria1 H1)].
  unfold findAdvancedMatches_rank. f_equal.
  induction preferenceMatches as [|x r IH]; cbn [Array_sort]; [reflexivity|].
  rewrite IH. generalize (Array_sort (compareMatches criteria2) r).
  intros l. induction l as [|y l IHl]; cbn [sort_insert]; [reflexivity|].
  rewrite (E criteria1 H1), (E criteria2 H2), IHl. reflexivity.
Qed.

(** ** Cooldowns *)

Lemma Date_of_integer (x : Q) (k : Z) :
  x == inject_Z k -> (Z.abs k <= 8640000000000000)%Z ->
  Date_of (Fin x) = of_Z k.
Proof.
  intros Hx Hk. unfold Date_of, of_Z.
  assert (Hb : Qle_bool (Qabs x) (inject_Z 8640000000000000) = true).
  { apply Qle_bool_iff. rewrite Hx.
    change (Qabs (inject_Z k)) with (inject_Z (Z.abs k)).
    rewrite <- Zle_Qle. exact Hk. }
  rewrite Hb.
  destruct (Qle_bool 0 x); rewrite Hx;
    [rewrite Qfloor_Z|rewrite Qceiling_Z]; reflexivity.
Qed.

Lemma cooldown_end (config : MatchingConfig) (n m : Z) :
  cooldownPeriod config = of_Z m ->
  (Z.abs (n + m * 60000) <= 8640000000000000)%Z ->
  Date_of (of_Z n + cooldownPeriod config * of_Z 60 * of_Z 1000)%js
  = of_Z (n + m * 60000).
Proof.
  intros Hp Hk. rewrite Hp. unfold of_Z. cbn [JS.mul JS.add].
  apply Date_of_integer; [|exact Hk].
  rewrite inject_Z_plus, inject_Z_mult.
  change (inject_Z 60000) with (inject_Z 60 * inject_Z 1000). ring.
Qed.

Lemma lt_of_Z (a b : Z) : (of_Z a <? of_Z b)%js = (a <? b)%Z.
Proof.
  unfold of_Z. cbn [JS.lt].
  destruct (a <? b)%Z eqn:E.
  - apply Z.ltb_lt in E. apply negb_true_iff. apply Qle_bool_false.
    rewrite <- Zlt_Qlt. exact E.
  - apply Z.ltb_ge in E. apply negb_false_iff. apply Qle_bool_iff.
    rewrite <- Zle_Qle. exact E.
Qed.

(** X16. A cooldown set at time [n] for a period of [m] minutes holds the
    user until [n + 60000 m] milliseconds and not from then on; it leaves
    every other user as before, and [clearCooldown] lifts it at once. *)
Theorem cooldown_lasts_for_the_period
  (userCooldowns : string -> option number) (config : MatchingConfig)
  (userId other : string) (n m n' : Z) :
  cooldownPeriod config = of_Z m ->
  (Z.abs (n + m * 60000) <= 8640000000000000)%Z ->
  other <> userId ->
  let after :=
    MatchingService.setCooldown userCooldowns (of_Z n) config userId in
  isUserOnCooldown after (of_Z n') userId = (n' <? n + m * 60000)%Z
  /\ isUserOnCooldown after (of_Z n') other
     = isUserOnCooldown userCooldowns (of_Z n') other
  /\ isUserOnCooldown (MatchingService.clearCooldown after userId)
                      (of_Z n') userId = false.
Proof.
  intros Hp Hk Hother. cbv zeta.
  unfold isUserOnCooldown, MatchingService.setCooldown,
    MatchingService.clearCooldown.
  rewrite (cooldown_end config n m Hp Hk).
  rewrite String.eqb_refl.
  apply String.eqb_neq in Hother. rewrite Hother.
  split; [apply lt_of_Z|]. split; reflexivity.
Qed.

(** X17. While the cooldown set by a search lasts, [findMatches] refuses
    the user with the cooldown error whatever the criteria, valid or not
    (the criteria are not validated and nothing is searched); from the end
    of the cooldown on it behaves as if the cooldown had been cleared. *)
Theorem findMatches_refuses_during_cooldown
  (userCooldowns : string -> option number) (config : MatchingConfig)
  (MatchResult : Type)
  (discover : string -> MatchingCriteria -> result (list MatchResult))
  (userId : string) (criteria : MatchingCriteria) (n m n' : Z) :
  cooldownPeriod config = of_Z m ->
  (Z.abs (n + m * 60000) <= 8640000000000000)%Z ->
  let after :=
    MatchingService.setCooldown userCooldowns (of_Z n) config userId in
  ((n' < n + m * 60000)%Z ->
   findMatches after (of_Z n') config MatchResult discover userId criteria
   = Throw (Error [Str "User is on cooldown until ";
                   ISODate (Some (of_Z (n + m * 60000)))]))
  /\ ((n + m * 60000 <= n')%Z ->
      findMatches after (of_Z n') config MatchResult discover userId criteria
      = findMatches (MatchingService.clearCooldown after userId) (of_Z n')
                    config MatchResult discover userId criteria).
Proof.
  intros Hp Hk. cbv zeta.
  unfold findMatches, isUserOnCooldown, MatchingService.setCooldown,
    MatchingService.clearCooldown.
  rewrite (cooldown_end config n m Hp Hk).
  rewrite String.eqb_refl. rewrite lt_of_Z.
  split; intros H.
  - apply Z.ltb_lt in H. rewrite H. reflexivity.
  - apply Z.ltb_ge in H. rewrite H. reflexivity.
Qed.

(** X18. [getActiveCooldowns] lists exactly the users [isUserOnCooldown]
    reports at that time, each with the end of the cooldown that is
    stored; listing the active cooldowns of its own result changes
    nothing. *)
Theorem active_cooldowns_are_the_users_on_cooldown
  (userCooldowns : string -> option number) (now : number) (userId : string) :
  let active := MatchingService.getActiveCooldowns userCooldowns now in
  isUserOnCooldown userCooldowns now userId
  = match active userId with Some _ => true | None => false end
  /\ (forall cooldownEnd,
         active userId = Some cooldownEnd ->
         userCooldowns userId = Some cooldownEnd)
  /\ MatchingService.getActiveCooldowns active now userId = active userId.
Proof.
  cbv zeta. unfold isUserOnCooldown, MatchingService.getActiveCooldowns.
  unfold JS.gt.
  destruct (userCooldowns userId) as [e|]; [|repeat split; discriminate].
  destruct (now <? e)%js eqn:E.
  - split; [reflexivity|]. split; [intros ? H; exact H|].
    rewrite E. reflexivity.
  - repeat split. discriminate.
Qed.

(** ** The basic matching weights and scores *)

(** *** Rounded sums of lists *)

Lemma sum64_close {A : Type} (sc : A -> number) (val : A -> Q) (a : Z)
  (l : list A) :
  forall (K : nat) (E acc : Q) (b : Z),
    (K + List.length l <= 2000)%nat -> (-1021 <= a)%Z ->
    (b + Z.of_nat (List.length l) <= 1022)%Z ->
    0 <= acc -> close K E acc -> magnitude a b E ->
    Forall (fun m => sc m = Fin (val m) /\ magnitude a b (val m)) l ->
    exists v,
      fold_left (fun s m => (s + sc m)%b64) l (Fin acc) = Fin v /\ 0 <= v
      /\ close (K + List.length l) (E + exactSum val l) v
      /\ magnitude a (b + Z.of_nat (List.length l)) (E + exactSum val l).
Proof.
  induction l as [|m l IH]; intros K E acc b HK Ha Hb Hacc HC HZ Hall.
  - cbn [fold_left List.length exactSum fold_right]. exists acc.
    split; [reflexivity|]. split; [exact Hacc|].
    replace (K + 0)%nat with K by lia.
    replace (b + Z.of_nat 0)%Z with b by lia.
    assert (Ez : E + 0 == E) by ring. rewrite Ez. split; assumption.
  - inversion Hall as [|? ? [Em Zm] Hall']; subst.
    cbn [fold_left List.length exactSum fold_right].
    rewrite Em, add_fin.
    pose proof (magnitude_nonneg _ _ _ Zm) as Hm. pose proof (magnitude_nonneg _ _ _ HZ) as HE.
    cbn [List.length] in HK, Hb. rewrite Nat2Z.inj_succ in Hb.
    destruct (round64_step K (E + val m) (acc + val m) a (b + 1))
      as [y [Ey [Hy Cy]]]; try lia.
    { lra. }
    { apply close_add; [exact HC|].
      apply (close_weaken 0); [lia|assumption|assumption|apply close_refl]. }
    { apply magnitude_add; assumption. }
    rewrite Ey.
    destruct (IH (S K) (E + val m) y (b + 1)%Z) as [v [Ev [Hv [Cv Zv]]]];
      try lia; try assumption.
    { apply magnitude_add; assumption. }
    { eapply Forall_impl; [|exact Hall'].
      intros x [Ex Zx]. split; [exact Ex|].
      apply (magnitude_weaken a b); [exact Zx|lia|lia]. }
    exists v. split; [exact Ev|]. split; [exact Hv|].
    fold (exactSum val l) in *.
    assert (Es : E + (val m + exactSum val l) == E + val m + exactSum val l)
      by ring.
    rewrite Es.
    replace (K + S (List.length l))%nat with (S K + List.length l)%nat by lia.
    replace (b + Z.of_nat (S (List.length l)))%Z
      with (b + 1 + Z.of_nat (List.length l))%Z by lia.
    split; assumption.
Qed.

Lemma exactSum_bounds {A : Type} (val : A -> Q) (lo hi : Q) (l : list A) :
  Forall (fun m => lo <= val m /\ val m <= hi) l ->
  inject_Z (Z.of_nat (List.length l)) * lo <= exactSum val l
  /\ exactSum val l <= inject_Z (Z.of_nat (List.length l)) * hi.
Proof.
  induction 1 as [|m l [L U] _ [IL IU]].
  - cbn [List.length exactSum fold_right Z.of_nat]. change (inject_Z 0) with 0.
    split; lra.
  - cbn [List.length exactSum fold_right]. fold (exactSum val l).
    rewrite Nat2Z.inj_succ, <- Z.add_1_r, inject_Z_plus.
    change (inject_Z 1) with 1.
    generalize dependent (inject_Z (Z.of_nat (List.length l))). intros.
    split; nra.
Qed.

(** *** [updateWeights] *)

Lemma share64_close (w T t : Q) :
  ordinary w -> 0 < t -> close 5 T t -> pow2 (-200) <= T -> T <= pow2 205 ->
  exists n, (Fin w / Fin t)%b64 = Fin n /\ 0 <= n /\ close 6 (w / T) n.
Proof.
  intros Hw Ht CT TL TU.
  pose proof (magnitude_nonneg _ _ _ Hw) as W0.
  assert (HT : 0 < T) by (pose proof (pow2_pos (-200)); lra).
  rewrite div_fin by lra.
  destruct (round64_step (0 + 5) (w / T) (w / t) (-200 - 205) (200 - -200))
    as [n [En [Hn Cn]]]; try lia.
  - apply Qle_shift_div_l; lra.
  - apply close_div; try assumption; try lra. apply close_refl.
  - apply magnitude_div; assumption.
  - exists n. auto.
Qed.

(** X19. After [updateWeights], when the merged weights are of ordinary
    magnitude, not negative and not all zero, every stored weight is a
    number that is not negative and equals its share of the merged total up
    to rounding (within the factor [rho^6]), and the five stored weights
    sum to 1 up to rounding, not exactly. *)
Theorem updateWeights_normalizes_up_to_rounding
  (weights : MatchingAlgorithmWeights) (newWeights : PartialWeights)
  (d a c v p : Q) :
  MatchingService.mergeWeights weights newWeights
  = {| distance := Fin d; age_weight := Fin a; commonInterests := Fin c;
       activityLevel := Fin v; profileCompleteness := Fin p |} ->
  ordinary d -> ordinary a -> ordinary c -> ordinary v -> ordinary p ->
  0 < d + a + c + v + p ->
  exists d' a' c' v' p',
    Binary64.updateWeights weights newWeights
    = {| distance := Fin d'; age_weight := Fin a'; commonInterests := Fin c';
         activityLevel := Fin v'; profileCompleteness := Fin p' |}
    /\ (0 <= d' /\ 0 <= a' /\ 0 <= c' /\ 0 <= v' /\ 0 <= p')
    /\ close 6 (d / (d + a + c + v + p)) d'
    /\ close 6 (a / (d + a + c + v + p)) a'
    /\ close 6 (c / (d + a + c + v + p)) c'
    /\ close 6 (v / (d + a + c + v + p)) v'
    /\ close 6 (p / (d + a + c + v + p)) p'
    /\ close 6 1 (d' + a' + c' + v' + p').
Proof.
  intros Hm Hd Ha Hc Hv Hp HT.
  unfold Binary64.updateWeights. rewrite Hm. unfold Binary64.totalOf.
  cbn [distance age_weight commonInterests activityLevel profileCompleteness].
  pose proof (magnitude_nonneg _ _ _ Hd) as D0. pose proof (magnitude_nonneg _ _ _ Ha) as A0.
  pose proof (magnitude_nonneg _ _ _ Hc) as C0. pose proof (magnitude_nonneg _ _ _ Hv) as V0.
  pose proof (magnitude_nonneg _ _ _ Hp) as P0.
  destruct (sum64_close Fin (fun x => x) (-200) [d; a; c; v; p] 0 0 0 200)
    as [t [Et [Ht [Ct Zt]]]]; try (cbn [List.length]; lia); try lra.
  { apply close_refl. }
  { left. reflexivity. }
  { repeat (apply Forall_cons; [split; [reflexivity|assumption]|]).
    apply Forall_nil. }
  cbn [fold_left List.length exactSum fold_right] in Et, Ct, Zt.
  unfold zero. rewrite Et.
  set (T := d + a + c + v + p) in *.
  assert (ET : 0 + (d + (a + (c + (v + (p + 0))))) == T) by (unfold T; ring).
  rewrite ET in Ct, Zt. clear ET.
  assert (TB : pow2 (-200) <= T /\ T <= pow2 205).
  { destruct Zt as [Zt|Zt]; [lra|exact Zt]. }
  destruct TB as [TL TU].
  assert (Ht' : 0 < t).
  { destruct Ct as [A _]. pose proof (rpow_ge_1 (0 + 5)).
    generalize dependent (rpow (0 + 5)). intros. nra. }
  cbn [JS.eqb one].
  destruct (Qeq_bool t 1) eqn:E1; cbn [negb].
  - apply Qeq_bool_eq in E1. rewrite E1 in Ct.
    assert (X : forall w, 0 <= w -> close 6 (w / T) w).
    { intros w Hw.
      assert (Ew : w == w / 1) by (unfold Qdiv; change (/ 1) with 1; ring).
      rewrite Ew at 2.
      apply (close_weaken (0 + (0 + 5))); try lia.
      - apply Qle_shift_div_l; lra.
      - apply Qle_shift_div_l; lra.
      - apply close_div; try lra; [apply close_refl|exact Ct]. }
    exists d, a, c, v, p. split; [reflexivity|].
    split; [repeat split; assumption|].
    repeat (split; [apply X; assumption|]).
    fold T. apply close_sym. apply (close_weaken (0 + 5)); try lia; try lra.
    exact Ct.
  - destruct (share64_close d T t Hd Ht' Ct TL TU) as [d' [Ed [Hd' Cd]]].
    destruct (share64_close a T t Ha Ht' Ct TL TU) as [a' [Ea [Ha' Ca]]].
    destruct (share64_close c T t Hc Ht' Ct TL TU) as [c' [Ec [Hc' Cc]]].
    destruct (share64_close v T t Hv Ht' Ct TL TU) as [v' [Ev [Hv' Cv]]].
    destruct (share64_close p T t Hp Ht' Ct TL TU) as [p' [Ep [Hp' Cp]]].
    rewrite Ed, Ea, Ec, Ev, Ep.
    exists d', a', c', v', p'. split; [reflexivity|].
    split; [repeat split; assumption|].
    repeat (split; [assumption|]).
    assert (E : 1 == d / T + a / T + c / T + v / T + p / T).
    { unfold T. field. fold T. lra. }
    rewrite E. repeat apply close_add; assumption.
Qed.

(** The sum is not 1 in general: after [updateWeights({distance: 0.8})] on
    the initial weights the five weights sum to 0.9999999999999999. *)
Example updated_weights_need_not_sum_to_one :
  Binary64.totalOf
    (Binary64.updateWeights Binary64.initialWeights
       {| new_distance := Some (lit64 (8 # 10)); new_age := None;
          new_commonInterests := None; new_activityLevel := None;
          new_profileCompleteness := None |})
  =~ Fin (9007199254740991 # 9007199254740992).
Proof. vm_compute. reflexivity. Qed.

(** X20. For a finite distance that is not negative and any finite
    [maxDistance], the distance score is in [[0,1]], it is 0 from
    [maxDistance] on, and it never grows with the distance. *)
Theorem distance_score_bounded_and_antitone (d1 d2 m : Q) :
  0 <= d1 -> d1 <= d2 ->
  in_unit (MatchingService.calculateDistanceScore (Fin d1) (Fin m))
  /\ (MatchingService.calculateDistanceScore (Fin d2) (Fin m)
      <=? MatchingService.calculateDistanceScore (Fin d1) (Fin m))%js = true
  /\ (m <= d1 ->
      MatchingService.calculateDistanceScore (Fin d1) (Fin m) = zero).
Proof.
  intros H0 H12.
  assert (Hlow : forall d, 0 <= d -> Qle_bool m d = false ->
            MatchingService.calculateDistanceScore (Fin d) (Fin m)
            = Fin (1 + - (d / m)) /\ 0 < m /\ d < m).
  { intros d Hd E. unfold MatchingService.calculateDistanceScore, JS.ge.
    cbn [JS.le]. rewrite E.
    assert (Hdm : d < m).
    { destruct (Qlt_le_dec d m) as [H|H]; [exact H|].
      apply Qle_bool_iff in H. congruence. }
    cbn [JS.div JS.sub JS.neg JS.add one].
    rewrite (Qeq_bool_false m) by lra. cbn [JS.neg].
    repeat split; lra. }
  assert (Hhigh : forall d, Qle_bool m d = true ->
            MatchingService.calculateDistanceScore (Fin d) (Fin m) = zero).
  { intros d E. unfold MatchingService.calculateDistanceScore, JS.ge.
    cbn [JS.le]. rewrite E. reflexivity. }
  assert (Hfrac : forall d, 0 <= d -> d < m -> 0 <= d / m /\ d / m < 1).
  { intros d Hd Hdm. split.
    - apply Qle_shift_div_l; lra.
    - apply Qlt_shift_div_r; lra. }
  split; [|split].
  - destruct (Qle_bool m d1) eqn:E.
    + rewrite (Hhigh d1 E). cbn. split; lra.
    + destruct (Hlow d1 H0 E) as (-> & Hm & Hd).
      destruct (Hfrac d1 H0 Hd). cbn [in_unit]. split; lra.
  - destruct (Qle_bool m d2) eqn:E2.
    + rewrite (Hhigh d2 E2).
      destruct (Qle_bool m d1) eqn:E1.
      * rewrite (Hhigh d1 E1). reflexivity.
      * destruct (Hlow d1 H0 E1) as (-> & Hm & Hd).
        destruct (Hfrac d1 H0 Hd).
        cbn [zero JS.le]. apply Qle_bool_iff. lra.
    + assert (H02 : 0 <= d2) by lra.
      destruct (Hlow d2 H02 E2) as (-> & Hm & Hd2).
      assert (E1 : Qle_bool m d1 = false) by (apply Qle_bool_false; lra).
      destruct (Hlow d1 H0 E1) as (-> & _ & Hd1).
      cbn [JS.le]. apply Qle_bool_iff.
      assert (d1 / m <= d2 / m).
      { apply Qle_shift_div_l; [exact Hm|].
        assert (Ed : d1 / m * m == d1) by (field; lra). rewrite Ed.
        exact H12. }
      lra.
  - intros Hmd. apply Hhigh. apply Qle_bool_iff. exact Hmd.
Qed.

(** ** Explanations and suggestions *)

Lemma lt_trans (a b c : number) :
  (a <? b)%js = true -> (b <? c)%js = true -> (a <? c)%js = true.
Proof.
  destruct a as [x| | | ], b as [y| | | ], c as [z| | | ];
    cbn [JS.lt]; try reflexivity; try discriminate.
  intros H1 H2. apply negb_true_iff in H1, H2. apply negb_true_iff.
  apply Qle_bool_false.
  assert (Hxy : x < y).
  { destruct (Qlt_le_dec x y) as [H|H]; [exact H|].
    apply Qle_bool_iff in H. congruence. }
  assert (Hyz : y < z).
  { destruct (Qlt_le_dec y z) as [H|H]; [exact H|].
    apply Qle_bool_iff in H. congruence. }
  lra.
Qed.

Lemma lt_irrefl (a : number) : (a <? a)%js = false.
Proof.
  destruct a as [x| | | ]; cbn [JS.lt]; try reflexivity.
  apply negb_false_iff. apply Qle_bool_iff. lra.
Qed.

(** What does not exceed [t] does not exceed anything above [t]. *)
Lemma not_above_mono (t s e : number) :
  (t <? e)%js = false -> (t <? s)%js = true -> (s <? e)%js = false.
Proof.
  destruct t as [x| | | ], s as [y| | | ], e as [z| | | ];
    cbn [JS.lt]; try reflexivity; try discriminate.
  intros H1 H2. apply negb_false_iff, Qle_bool_iff in H1.
  apply negb_true_iff in H2.
  assert (Hxy : x < y).
  { destruct (Qlt_le_dec x y) as [H|H]; [exact H|].
    apply Qle_bool_iff in H. congruence. }
  apply negb_false_iff, Qle_bool_iff. lra.
Qed.

Lemma topOf_spec (entries : list (string * number))
  (topCategory : string) (topScore : number) :
  let top := MatchingService.topOf entries topCategory topScore in
  (top = topCategory
   /\ forall e, In e entries -> (snd e >? topScore)%js = false)
  \/ (exists s, In (top, s) entries
                /\ (s >? topScore)%js = true
                /\ forall e, In e entries -> (snd e >? s)%js = false).
Proof.
  cbv zeta. revert topCategory topScore.
  induction entries as [|[c1 s1] rest IH]; intros topCategory topScore.
  - left. split; [reflexivity|]. intros e [].
  - cbn [MatchingService.topOf].
    destruct (s1 >? topScore)%js eqn:E.
    + right. destruct (IH c1 s1) as [[Htop Hall]|(s & Hin & Hs & Hall)].
      * exists s1. rewrite Htop. split; [left; reflexivity|].
        split; [exact E|].
        intros e [<-|He]; [apply lt_irrefl|apply Hall; exact He].
      * exists s. split; [right; exact Hin|].
        unfold JS.gt in *.
        split; [eapply lt_trans; eassumption|].
        intros e [<-|He]; [|apply Hall; exact He].
        cbn [snd].
        destruct (s <? s1)%js eqn:Es; [|reflexivity].
        pose proof (lt_trans _ _ _ Hs Es) as F.
        rewrite lt_irrefl in F. discriminate.
    + destruct (IH topCategory topScore)
        as [[Htop Hall]|(s & Hin & Hs & Hall)].
      * left. split; [exact Htop|].
        intros e [<-|He]; [exact E|apply Hall; exact He].
      * right. exists s. split; [right; exact Hin|].
        split; [exact Hs|].
        intros e [<-|He]; [|apply Hall; exact He].
        unfold JS.gt in *. cbn [snd]. eapply not_above_mono; eassumption.
Qed.

(** X21. [getTopScoringCategory] names a category whose score no category
    exceeds, and that score is above 0; it answers ['overall'] exactly
    when no category score is above 0. *)
Theorem top_category_has_the_highest_score (categoryScores : CategoryScores) :
  let top := MatchingService.getTopScoringCategory categoryScores in
  let entries := categoryEntries categoryScores in
  (top = "overall"
   <-> forall e, In e entries -> (snd e >? zero)%js = false)
  /\ (top = "overall"
      \/ exists s, In (top, s) entries
                   /\ (s >? zero)%js = true
                   /\ forall e, In e entries -> (snd e >? s)%js = false).
Proof.
  cbv zeta. unfold MatchingService.getTopScoringCategory.
  destruct (topOf_spec (categoryEntries categoryScores) "overall" zero)
    as [[Htop Hall]|(s & Hin & Hs & Hall)]; cbv zeta in *.
  - split; [|left; exact Htop]. split; [intros _; exact Hall|].
    intros _. exact Htop.
  - split; [|right; exists s; repeat split; assumption].
    split.
    + intros Htop. rewrite Htop in Hin. exfalso.
      unfold categoryEntries in Hin. cbn [In] in Hin.
      destruct Hin as [H|[H|[H|[H|[]]]]]; discriminate.
    + intros Hnone. apply Hnone in Hin. cbn [snd] in Hin. congruence.
Qed.

(** X22. [generateImprovementSuggestions] never returns an empty list: it
    returns one suggestion for each category scoring below 0.5, and the
    single "well-optimized" message when there is none; so between one and
    four texts. *)
Theorem improvement_suggestions_are_never_empty
  (userProfile : UserProfile) (preferenceAlignment : PreferenceAlignment) :
  let suggestions :=
    MatchingService.generateImprovementSuggestions userProfile
                                                   preferenceAlignment in
  let low :=
    filter (fun e : string * number => (snd e <? dec1 5)%js)
           (categoryEntries (categoryAlignments preferenceAlignment)) in
  (1 <= List.length suggestions <= 4)%nat
  /\ List.length suggestions = Nat.max 1 (List.length low)
  /\ (low = [] <->
      suggestions
      = [[Str "Your preferences are well-optimized for finding compatible matches"]]).
Proof.
  cbv zeta. unfold MatchingService.generateImprovementSuggestions.
  rewrite length_map.
  pose proof (filter_length_le
                (fun e : string * number => (snd e <? dec1 5)%js)
                (categoryEntries (categoryAlignments preferenceAlignment)))
    as Hle.
  change (List.length (categoryEntries
                         (categoryAlignments preferenceAlignment)))
    with 4%nat in Hle.
  destruct (filter _ (categoryEntries (categoryAlignments preferenceAlignment)))
    as [|e l] eqn:Ef.
  - cbn. repeat split; try lia; reflexivity.
  - cbn [List.length Nat.eqb map] in *. rewrite !length_map.
    split; [lia|]. split; [lia|].
    split; [discriminate|]. intros H. inversion H.
Qed.

Lemma round_percent_at_least (x : Q) (k : Z) :
  inject_Z k / 100 <= x ->
  (k <= Qfloor (x * inject_Z 100 + (1 # 2)))%Z.
Proof.
  intros H. rewrite <- (Qfloor_Z k). apply Qfloor_resp_le.
  assert (E : inject_Z k == inject_Z k / 100 * inject_Z 100)
    by (change (inject_Z 100) with 100; field).
  rewrite E. change (inject_Z 100) with 100 in *. nra.
Qed.

Lemma rounded_tier (x : Q) (k : Z) :
  Qle_bool (inject_Z k / 100) x = true ->
  (Math_round (Fin x * of_Z 100)%js >=? of_Z k)%js = true.
Proof.
  intros H. apply Qle_bool_iff in H.
  unfold Math_round, of_Z, JS.ge. cbn [JS.mul JS.le].
  apply Qle_bool_iff. rewrite <- Zle_Qle.
  apply round_percent_at_least. exact H.
Qed.

(** X23. The sentence [MatchingService.generateMatchExplanation] writes
    never rates a match lower than the [overallAssessment] of
    [PreferenceFilteringService.generateMatchExplanation] for the same
    alignment: the sentence compares the rounded percentage with 85, 70 and
    55, the assessment the score itself with 0.85, 0.7 and 0.55. *)
Theorem sentence_tier_never_below_assessment
  (userProfile candidate : UserProfile)
  (preferenceAlignment : PreferenceAlignment) :
  (assessmentTier
     (overallAssessment
        (generateMatchExplanation userProfile candidate preferenceAlignment))
   <= sentenceTier
        (MatchingService.generateMatchExplanation userProfile candidate
                                                  preferenceAlignment))%nat.
Proof.
  unfold generateMatchExplanation, MatchingService.generateMatchExplanation.
  destruct (explainCategories _ [] [] []) as [[primary secondary] concerns].
  cbn [overallAssessment].
  destruct (totalScore preferenceAlignment) as [x| | | ].
  - pose proof (rounded_tier x 85) as R85.
    pose proof (rounded_tier x 70) as R70.
    pose proof (rounded_tier x 55) as R55.
    unfold JS.ge at 1 2 3. cbn [JS.le dec1].
    change (inject_Z 85 / 100) with (85 # 100) in R85.
    change (inject_Z 70 / 100) with (70 # 100) in R70.
    change (inject_Z 55 / 100) with (55 # 100) in R55.
    assert (E70 : Qle_bool (7 # 10) x = Qle_bool (70 # 100) x).
    { apply Qleb_comp; reflexivity. }
    rewrite E70.
    destruct (Qle_bool (85 # 100) x);
      [rewrite (R85 eq_refl); cbn; lia|].
    destruct (Qle_bool (70 # 100) x).
    + rewrite (R70 eq_refl).
      destruct (_ >=? of_Z 85)%js; cbn; lia.
    + destruct (Qle_bool (55 # 100) x).
      * rewrite (R55 eq_refl).
        destruct (_ >=? of_Z 85)%js; [cbn; lia|].
        destruct (_ >=? of_Z 70)%js; cbn; lia.
      * cbn [assessmentTier String.eqb Ascii.eqb Bool.eqb]. lia.
  - cbn. lia.
  - cbn. lia.
  - cbn. lia.
Qed.

(** The two can differ: a score of 0.846 is ['very_good'], its rounded
    percentage 85 an "Excellent match". *)
Example sentence_can_rate_higher_than_assessment :
  let a := {| totalScore := Fin (846 # 1000);
              categoryAlignments := calculateCategoryScores user001 candidate001;
              matchedPreferences := emptyPreferenceLists;
              mismatchedPreferences := emptyPreferenceLists;
              dealBreakerAnalysis :=
                analyzeDealBreakers sampleNow user001 candidate001 [];
              mustHaveAnalysis :=
                {| totalMustHaves := 0; satisfiedMustHaves := 0;
                   satisfiedItems := []; mh_missedItems := [] |};
              niceToHaveAnalysis :=
                {| totalNiceToHaves := 0; matchedNiceToHaves := 0;
                   matchedItems := []; nth_missedItems := [] |} |} in
  overallAssessment (generateMatchExplanation user001 candidate001 a)
  = "very_good"
  /\ MatchingService.generateMatchExplanation user001 candidate001 a
     = [Str "Excellent match ("; Num (of_Z 85); Str "%) with outstanding ";
        Str "physical"; Str " compatibility and strong overall alignment."].
Proof. vm_compute. split; reflexivity. Qed.

(** ** Current settings *)

Lemma thresholds64 :
  exists c8 c65 c5 c35,
    lit64 (8 # 10) = Fin c8 /\ lit64 (65 # 100) = Fin c65
    /\ lit64 (5 # 10) = Fin c5 /\ lit64 (35 # 100) = Fin c35
    /\ c8 * (1 + (1 # 2199023255552)) < 81 # 100
    /\ (34 # 100) * (1 + (1 # 2199023255552)) < c35
    /\ c35 < c5 /\ c5 < c65 /\ c65 < c8.
Proof.
  do 4 eexists.
  repeat (split; [vm_compute; reflexivity|]).
  repeat split; reflexivity.
Qed.

Lemma rpow_1001 (k : nat) :
  (k <= 1001)%nat -> rpow k <= 1 + (1 # 2199023255552).
Proof.
  intros H. assert (H' : (k <= 2000)%nat) by lia.
  pose proof (rpow_linear k H') as L.
  assert (B1 : inject_Z (Z.of_nat k) <= 1001).
  { change 1001 with (inject_Z 1001). rewrite <- Zle_Qle. lia. }
  generalize dependent (inject_Z (Z.of_nat k)). intros. lra.
Qed.

Lemma average64_close (results : list PreferenceMatchResult) (lo hi : Q) :
  results <> [] -> (List.length results <= 1000)%nat ->
  Forall (fun m => scoreWithin lo hi (compatibilityScore m)) results ->
  exists avg,
    (fold_left (fun sum m => (sum + compatibilityScore m)%b64) results zero
     / of_nat (List.length results))%b64 = Fin avg
    /\ 0 <= avg
    /\ lo <= avg * (1 + (1 # 2199023255552))
    /\ avg <= hi * (1 + (1 # 2199023255552)).
Proof.
  intros Hne Hlen Hall.
  set (val := fun m : PreferenceMatchResult => valueOf (compatibilityScore m)).
  assert (H1 : Forall (fun m => compatibilityScore m = Fin (val m)
                               /\ magnitude (-200) 0 (val m)) results).
  { apply Forall_forall. intros m Hin.
    pose proof (proj1 (Forall_forall _ _) Hall m Hin) as Hm.
    cbv beta in Hm. unfold val. revert Hm.
    destruct (compatibilityScore m); cbn [scoreWithin valueOf];
      try contradiction.
    intros Hm. split; [reflexivity|apply Hm]. }
  assert (H2 : Forall (fun m => lo <= val m /\ val m <= hi) results).
  { apply Forall_forall. intros m Hin.
    pose proof (proj1 (Forall_forall _ _) Hall m Hin) as Hm.
    cbv beta in Hm. unfold val. revert Hm.
    destruct (compatibilityScore m); cbn [scoreWithin valueOf];
      try contradiction.
    intros Hm. apply Hm. }
  destruct (sum64_close compatibilityScore val (-200) results 0 0 0 0)
    as [t [Et [Ht [Ct Zt]]]]; try lia; try lra; try assumption.
  { apply close_refl. }
  { left. reflexivity. }
  destruct (exactSum_bounds val lo hi results H2) as [SL SU].
  unfold zero, of_nat. rewrite Et.
  set (n := List.length results) in *.
  assert (Hn : (1 <= n)%nat).
  { unfold n. destruct results; [congruence|cbn; lia]. }
  assert (N1 : 1 <= inject_Z (Z.of_nat n)).
  { change 1 with (inject_Z 1). rewrite <- Zle_Qle. lia. }
  assert (N2 : inject_Z (Z.of_nat n) <= pow2 11).
  { change (pow2 11) with (inject_Z 2048). rewrite <- Zle_Qle. lia. }
  set (N := inject_Z (Z.of_nat n)) in *.
  set (S := exactSum val results) in *.
  assert (ES : 0 + S == S) by ring. rewrite ES in Ct, Zt. clear ES.
  rewrite div_fin by lra.
  destruct (round64_step (0 + n + 0) (S / N) (t / N) (-200 - 11)
              (0 + Z.of_nat n - 0)) as [avg [Ea [Ha Ca]]]; try lia.
  - apply Qle_shift_div_l; lra.
  - apply close_div; try lra.
    + apply magnitude_nonneg in Zt. exact Zt.
    + exact Ct.
    + apply close_refl.
  - apply magnitude_div; [exact Zt| |exact N2]. change (pow2 0) with 1. exact N1.
  - exists avg. split; [exact Ea|]. split; [exact Ha|].
    assert (B : lo <= S / N /\ S / N <= hi).
    { split; [apply Qle_shift_div_l|apply Qle_shift_div_r]; lra. }
    destruct B as [BL BU]. destruct Ca as [CL CU].
    pose proof (rpow_1001 (Datatypes.S (0 + n + 0))) as R.
    assert (Hk : (Datatypes.S (0 + n + 0) <= 1001)%nat) by lia.
    specialize (R Hk). pose proof (rpow_ge_1 (Datatypes.S (0 + n + 0))) as R1.
    assert (S0 : 0 <= S / N).
    { apply Qle_shift_div_l; [lra|]. apply magnitude_nonneg in Zt. lra. }
    generalize dependent (rpow (Datatypes.S (0 + n + 0))).
    generalize dependent (S / N). intros. split; nra.
Qed.

(** X24. [analyzeCurrentSettings] on no results reports ['very_relaxed']
    with an average of 0, not [NaN]; on up to 1000 results whose
    compatibility scores are of ordinary magnitude and lie between [lo] and
    [hi], the average it computes lies between them up to rounding (within
    the factor [1 + 2^-41]), so scores all at least 0.81 give
    ['very_strict'] and scores all at most 0.34 give ['very_relaxed']. *)
Theorem current_settings_follow_the_scores_up_to_rounding
  (userProfile : UserProfile) (results : list PreferenceMatchResult)
  (lo hi : Q) :
  results <> [] -> (List.length results <= 1000)%nat ->
  Forall (fun m => scoreWithin lo hi (compatibilityScore m)) results ->
  let settings := Binary64.analyzeCurrentSettings userProfile results in
  Binary64.analyzeCurrentSettings userProfile []
  = {| restrictiveness := "very_relaxed"; expectedMatches := 0;
       averageCompatibility := zero |}
  /\ expectedMatches settings = List.length results
  /\ (exists avg,
         averageCompatibility settings = Fin avg
         /\ lo <= avg * (1 + (1 # 2199023255552))
         /\ avg <= hi * (1 + (1 # 2199023255552)))
  /\ (81 # 100 <= lo -> restrictiveness settings = "very_strict")
  /\ (hi <= 34 # 100 -> restrictiveness settings = "very_relaxed").
Proof.
  intros Hne Hlen Hall. cbv zeta.
  split; [vm_compute; reflexivity|]. split; [reflexivity|].
  unfold Binary64.analyzeCurrentSettings.
  cbn [averageCompatibility restrictiveness].
  assert (Hpos : (0 <? List.length results)%nat = true).
  { apply Nat.ltb_lt. destruct results; [congruence|cbn; lia]. }
  rewrite Hpos.
  destruct (average64_close results lo hi Hne Hlen Hall)
    as [avg [Ea [H0 [HL HU]]]].
  rewrite Ea.
  destruct thresholds64
    as (c8 & c65 & c5 & c35 & E8 & E65 & E5 & E35 & B8 & B35 & O1 & O2 & O3).
  rewrite E8, E65, E5, E35. unfold JS.gt. cbn [JS.lt].
  split; [exists avg; auto|]. split.
  - intros Hlo. rewrite (Qle_bool_false avg c8) by lra. reflexivity.
  - intros Hhi.
    rewrite (Qle_bool_true avg c8), (Qle_bool_true avg c65),
      (Qle_bool_true avg c5), (Qle_bool_true avg c35) by lra.
    reflexivity.
Qed.

(** At the thresholds themselves the rounding decides: six results of 0.35
    average to 0.35000000000000003, which is ['relaxed']. *)
Example average_at_a_threshold_rounds_up :
  restrictiveness
    (Binary64.analyzeCurrentSettings user001
       [scored "a" one (lit64 (35 # 100)); scored "b" one (lit64 (35 # 100));
        scored "c" one (lit64 (35 # 100)); scored "d" one (lit64 (35 # 100));
        scored "e" one (lit64 (35 # 100)); scored "f" one (lit64 (35 # 100))])
  = "relaxed".
Proof. vm_compute. reflexivity. Qed.

(** ** The further properties at concrete inputs *)

Lemma deal_breaker_order_is_irrelevant_at_sample :
  applyDealBreakerFilters sampleNow defaultConfig user001
    [candidate001; candidate002; candidate003] ["smoking"; "no_photos"]
  = applyDealBreakerFilters sampleNow defaultConfig user001
      [candidate001; candidate002; candidate003]
      ["no_photos"; "smoking"; "smoking"].
Proof.
  apply (deal_breaker_order_is_irrelevant sampleNow defaultConfig user001
           [candidate001; candidate002; candidate003]
           ["smoking"; "no_photos"] ["no_photos"; "smoking"; "smoking"]).
  intros d. cbn [In]. tauto.
Defined.

Lemma unknown_deal_breakers_keep_everyone_at_sample :
  applyDealBreakerFilters sampleNow defaultConfig user001
    [candidate001; candidate002] ["astrology"; "pets"]
  = [candidate001; candidate002]
  /\ forall others,
       applyDealBreakerFilters sampleNow defaultConfig user001
         [candidate001; candidate002] ("astrology" :: others)
       = applyDealBreakerFilters sampleNow defaultConfig user001
           [candidate001; candidate002] others.
Proof.
  assert (H : forall d, d = "astrology" \/ d = "pets" ->
                        ~ In d knownDealBreakers).
  { intros d [->| ->] Hin; cbn [knownDealBreakers In] in Hin;
      repeat (destruct Hin as [Hin|Hin]; [discriminate|]); exact Hin. }
  apply (unknown_deal_breakers_keep_everyone sampleNow defaultConfig user001
           [candidate001; candidate002] "astrology" ["astrology"; "pets"]).
  - apply H. left. reflexivity.
  - repeat constructor; apply H; [left|right]; reflexivity.
Defined.

Lemma clock_free_filter_is_idempotent_at_sample :
  let once :=
    applyDealBreakerFilters sampleNow defaultConfig user001
      [candidate001; candidate002; candidate003] ["smoking"; "no_photos"] in
  applyDealBreakerFilters (of_Z 1700000000001) defaultConfig user001 once
                          ["smoking"; "no_photos"] = once
  /\ incl once [candidate001; candidate002; candidate003]
  /\ (List.length once <= 3)%nat.
Proof.
  apply (clock_free_filter_is_idempotent sampleNow (of_Z 1700000000001)
           defaultConfig user001 [candidate001; candidate002; candidate003]
           ["smoking"; "no_photos"]); reflexivity.
Defined.

Lemma analysis_agrees_with_the_earlier_filter_at_sample :
  let analysis :=
    dealBreakerAnalysis
      (fst (analyzePreferenceMatch Math_pow_quarter defaultConfig
              (of_Z 1700000000001) user001 candidate001 smokingCriteria
              sampleRng)) in
  passed analysis = true
  /\ triggeredDealBreakers analysis = []
  /\ passedDealBreakers analysis = dealBreakers smokingCriteria.
Proof.
  apply (analysis_agrees_with_the_earlier_filter Math_pow_quarter
           defaultConfig sampleNow (of_Z 1700000000001) user001 candidate001
           [candidate001; candidate002; candidate003] smokingCriteria
           sampleRng).
  - reflexivity.
  - reflexivity.
  - reflexivity.
  - left. reflexivity.
Defined.

Lemma aggregate_stays_nearly_in_unit_at_sample :
  nearly_unit
    (Binary64.calculateWeightedCompatibility Math_pow_quarter
       (configWith "hybrid")
       (scoresOf (lit64 (9 # 10)) (lit64 (2 # 10)) (lit64 (5 # 10))
                 (lit64 (5 # 10)))
       (finiteWeights (6 # 10) (2 # 10) (1 # 10) (1 # 10))).
Proof.
  apply (aggregate_stays_nearly_in_unit Math_pow_quarter (configWith "hybrid")
           (scoresOf (lit64 (9 # 10)) (lit64 (2 # 10)) (lit64 (5 # 10))
                     (lit64 (5 # 10)))
           (6 # 10) (2 # 10) (1 # 10) (1 # 10)
           (fun b H => Math_pow_quarter_unit b H)); at_sample.
Defined.

Lemma hybrid_never_exceeds_weighted_average_at_sample :
  let h := calculateWeightedCompatibility Math_pow_quarter
             (configWith "hybrid")
             (scoresOf (dec1 9) (dec1 2) (dec1 5) (dec1 5))
             (finiteWeights (6 # 10) (2 # 10) (1 # 10) (1 # 10)) in
  let a := calculateWeightedCompatibility Math_pow_quarter defaultConfig
             (scoresOf (dec1 9) (dec1 2) (dec1 5) (dec1 5))
             (finiteWeights (6 # 10) (2 # 10) (1 # 10) (1 # 10)) in
  (h <=? a)%js = true
  /\ ((JS.min (JS.min (JS.min (dec1 9) (dec1 2)) (dec1 5)) (dec1 5)
       <? dec1 3)%js = false -> h =~ a).
Proof.
  apply (hybrid_never_exceeds_weighted_average Math_pow_quarter
           (configWith "hybrid") defaultConfig
           (scoresOf (dec1 9) (dec1 2) (dec1 5) (dec1 5))
           (6 # 10) (2 # 10) (1 # 10) (1 # 10));
    try reflexivity; vm_compute; try split; discriminate.
Defined.

(** The penalty at work: the weighted average 0.68 times 0.2 / 0.3 in exact
    arithmetic, 0.4533333333333335 as the program computes it. *)
Example hybrid_penalty_at_sample :
  calculateWeightedCompatibility Math_pow_quarter (configWith "hybrid")
    (scoresOf (dec1 9) (dec1 2) (dec1 5) (dec1 5))
    (finiteWeights (6 # 10) (2 # 10) (1 # 10) (1 # 10))
  =~ Fin ((68 # 100) * (2 # 3))
  /\ Binary64.calculateWeightedCompatibility Math_pow_quarter
       (configWith "hybrid")
       (scoresOf (lit64 (9 # 10)) (lit64 (2 # 10)) (lit64 (5 # 10))
                 (lit64 (5 # 10)))
       (literalWeights (6 # 10) (2 # 10) (1 # 10) (1 # 10))
     =~ Fin (4083263662149251 # 9007199254740992).
Proof. vm_compute. split; reflexivity. Qed.

Lemma weights_unused_outside_weighted_algorithms_at_sample :
  calculateWeightedCompatibility Math_pow_quarter
    (configWith "multiplicative")
    (scoresOf (dec1 9) (dec1 2) (dec1 5) (dec1 5))
    (finiteWeights (6 # 10) (2 # 10) (1 # 10) (1 # 10))
  = calculateWeightedCompatibility Math_pow_quarter
      (configWith "multiplicative")
      (scoresOf (dec1 9) (dec1 2) (dec1 5) (dec1 5))
      (finiteWeights 0 0 0 0).
Proof.
  apply (weights_unused_outside_weighted_algorithms Math_pow_quarter
           (configWith "multiplicative")
           (scoresOf (dec1 9) (dec1 2) (dec1 5) (dec1 5))
           (finiteWeights (6 # 10) (2 # 10) (1 # 10) (1 # 10))
           (finiteWeights 0 0 0 0)); discriminate.
Defined.

Lemma age_in_closed_range_scores_one_at_sample :
  (calculateAgeCompatibility user001 candidate003 = one
   <-> inject_Z 24 <= inject_Z 24 <= inject_Z 32)
  /\ (inject_Z 24 == inject_Z 24 \/ inject_Z 24 == inject_Z 32 ->
      calculateAgeCompatibility user001 candidate003 = one).
Proof.
  apply (age_in_closed_range_scores_one user001 candidate003
           {| ageRange := Some {| ar_min := of_Z 24; ar_max := of_Z 32 |};
              bodyTypes := Some ["athletic"; "slim"] |}
           {| ar_min := of_Z 24; ar_max := of_Z 32 |}
           (inject_Z 24) (inject_Z 32) (inject_Z 24));
    try reflexivity. vm_compute. discriminate.
Defined.

Lemma raising_category_thresholds_shrinks_at_sample :
  let a := fst (analyzePreferenceMatch Math_pow_quarter defaultConfig
                  sampleNow user001 candidate002 smokingCriteria sampleRng) in
  (meetsMinimumThresholds a
     {| t_overall := dec1 6; t_physical := Some (dec1 7);
        t_lifestyle := Some (dec1 3); t_social := Some (dec1 3);
        t_relationship := Some (dec1 4) |} = true ->
   meetsMinimumThresholds a
     {| t_overall := dec1 6; t_physical := Some (dec1 4);
        t_lifestyle := Some (dec1 3); t_social := Some (dec1 3);
        t_relationship := Some (dec1 4) |} = true)
  /\ meetsMinimumThresholds a
       {| t_overall := dec1 6; t_physical := Some zero;
          t_lifestyle := Some zero; t_social := Some zero;
          t_relationship := Some zero |}
     = negb (totalScore a <? dec1 6)%js.
Proof.
  apply (raising_category_thresholds_shrinks Math_pow_quarter defaultConfig
           sampleNow user001 candidate002 smokingCriteria sampleRng
           (dec1 6) (dec1 4) (dec1 3) (dec1 3) (dec1 4)
           (dec1 7) (dec1 3) (dec1 3) (dec1 4)); reflexivity.
Defined.

Lemma ranking_returns_at_most_maxResults_at_sample :
  let returned :=
    findAdvancedMatches_rank defaultMatchingConfig sampleCriteria
                             mixedMatches in
  (List.length returned <= Z.to_nat (maxResults defaultMatchingConfig))%nat
  /\ (List.length returned <= List.length mixedMatches)%nat
  /\ incl returned mixedMatches
  /\ (exists dropped, Permutation (returned ++ dropped)%list mixedMatches)
  /\ ((Z.of_nat (List.length mixedMatches)
       <= maxResults defaultMatchingConfig)%Z ->
      Permutation returned mixedMatches).
Proof.
  apply (ranking_returns_at_most_maxResults defaultMatchingConfig
           sampleCriteria mixedMatches).
  discriminate.
Defined.

Lemma direction_ignored_for_other_sort_keys_at_sample :
  findAdvancedMatches_rank defaultMatchingConfig
    (criteriaSortedBy "distance" "asc") mixedMatches
  = findAdvancedMatches_rank defaultMatchingConfig
      (criteriaSortedBy "activity" "desc") mixedMatches
  /\ forall a b,
       compareMatches (criteriaSortedBy "distance" "asc") a b
       = (basicScore b - basicScore a)%js.
Proof.
  apply (direction_ignored_for_other_sort_keys defaultMatchingConfig
           (criteriaSortedBy "distance" "asc")
           (criteriaSortedBy "activity" "desc") mixedMatches); discriminate.
Defined.

Lemma cooldown_lasts_for_the_period_at_sample :
  let after :=
    MatchingService.setCooldown noCooldowns (of_Z 1700000000000)
                                defaultMatchingConfig "user-001" in
  isUserOnCooldown after (of_Z 1700000060000) "user-001"
  = (1700000060000 <? 1700000000000 + 5 * 60000)%Z
  /\ isUserOnCooldown after (of_Z 1700000060000) "user-002"
     = isUserOnCooldown noCooldowns (of_Z 1700000060000) "user-002"
  /\ isUserOnCooldown (MatchingService.clearCooldown after "user-001")
                      (of_Z 1700000060000) "user-001" = false.
Proof.
  apply (cooldown_lasts_for_the_period noCooldowns defaultMatchingConfig
           "user-001" "user-002" 1700000000000 5 1700000060000);
    [reflexivity | vm_compute; discriminate | discriminate].
Defined.

Lemma findMatches_refuses_during_cooldown_at_sample :
  let after :=
    MatchingService.setCooldown noCooldowns (of_Z 1700000000000)
                                defaultMatchingConfig "user-001" in
  ((1700000060000 < 1700000000000 + 5 * 60000)%Z ->
   findMatches after (of_Z 1700000060000) defaultMatchingConfig
               PreferenceMatchResult (fun _ _ => Return []) "user-001"
               validCriteria
   = Throw (Error [Str "User is on cooldown until ";
                   ISODate (Some (of_Z (1700000000000 + 5 * 60000)))]))
  /\ ((1700000000000 + 5 * 60000 <= 1700000060000)%Z ->
      findMatches after (of_Z 1700000060000) defaultMatchingConfig
                  PreferenceMatchResult (fun _ _ => Return []) "user-001"
                  validCriteria
      = findMatches (MatchingService.clearCooldown after "user-001")
                    (of_Z 1700000060000) defaultMatchingConfig
                    PreferenceMatchResult (fun _ _ => Return []) "user-001"
                    validCriteria).
Proof.
  apply (findMatches_refuses_during_cooldown noCooldowns
           defaultMatchingConfig PreferenceMatchResult
           (fun _ _ => Return []) "user-001" validCriteria
           1700000000000 5 1700000060000);
    [reflexivity | vm_compute; discriminate].
Defined.

Lemma updateWeights_normalizes_up_to_rounding_at_sample :
  let d := valueOf (lit64 (5 # 10)) in
  let a := valueOf (lit64 (2 # 10)) in
  let c := valueOf (lit64 (25 # 100)) in
  let v := valueOf (lit64 (15 # 100)) in
  let p := valueOf (lit64 (1 # 10)) in
  exists d' a' c' v' p',
    Binary64.updateWeights Binary64.initialWeights newDistanceWeight64
    = {| distance := Fin d'; age_weight := Fin a'; commonInterests := Fin c';
         activityLevel := Fin v'; profileCompleteness := Fin p' |}
    /\ (0 <= d' /\ 0 <= a' /\ 0 <= c' /\ 0 <= v' /\ 0 <= p')
    /\ close 6 (d / (d + a + c + v + p)) d'
    /\ close 6 (a / (d + a + c + v + p)) a'
    /\ close 6 (c / (d + a + c + v + p)) c'
    /\ close 6 (v / (d + a + c + v + p)) v'
    /\ close 6 (p / (d + a + c + v + p)) p'
    /\ close 6 1 (d' + a' + c' + v' + p').
Proof.
  apply (updateWeights_normalizes_up_to_rounding Binary64.initialWeights
           newDistanceWeight64
           (valueOf (lit64 (5 # 10))) (valueOf (lit64 (2 # 10)))
           (valueOf (lit64 (25 # 100))) (valueOf (lit64 (15 # 100)))
           (valueOf (lit64 (1 # 10)))); at_sample.
Defined.

Lemma distance_score_bounded_and_antitone_at_sample :
  in_unit (MatchingService.calculateDistanceScore (Fin 5) (Fin 25))
  /\ (MatchingService.calculateDistanceScore (Fin 10) (Fin 25)
      <=? MatchingService.calculateDistanceScore (Fin 5) (Fin 25))%js = true
  /\ (25 <= 5 ->
      MatchingService.calculateDistanceScore (Fin 5) (Fin 25) = zero).
Proof.
  apply (distance_score_bounded_and_antitone 5 10 25);
    vm_compute; discriminate.
Defined.

Lemma current_settings_follow_the_scores_up_to_rounding_at_sample :
  restrictiveness (Binary64.analyzeCurrentSettings user001 strictMatches)
  = "very_strict"
  /\ restrictiveness (Binary64.analyzeCurrentSettings user001 relaxedMatches)
     = "very_relaxed"
  /\ (exists avg,
         averageCompatibility
           (Binary64.analyzeCurrentSettings user001 strictMatches) = Fin avg
         /\ 84 # 100 <= avg * (1 + (1 # 2199023255552))
         /\ avg <= (96 # 100) * (1 + (1 # 2199023255552))).
Proof.
  assert (Hs : Forall (fun m => scoreWithin (84 # 100) (96 # 100)
                                  (compatibilityScore m)) strictMatches).
  { unfold strictMatches, relaxedMatches.
    repeat (apply Forall_cons;
              [vm_compute; split; [right; split; discriminate|];
               split; discriminate|]).
    apply Forall_nil. }
  assert (Hr : Forall (fun m => scoreWithin (9 # 100) (31 # 100)
                                  (compatibilityScore m)) relaxedMatches).
  { unfold strictMatches, relaxedMatches.
    repeat (apply Forall_cons;
              [vm_compute; split; [right; split; discriminate|];
               split; discriminate|]).
    apply Forall_nil. }
  assert (Ns : strictMatches <> []) by discriminate.
  assert (Nr : relaxedMatches <> []) by discriminate.
  assert (Ls : (List.length strictMatches <= 1000)%nat) by (cbn; lia).
  assert (Lr : (List.length relaxedMatches <= 1000)%nat) by (cbn; lia).
  pose proof (current_settings_follow_the_scores_up_to_rounding user001
                strictMatches (84 # 100) (96 # 100) Ns Ls Hs) as S.
  pose proof (current_settings_follow_the_scores_up_to_rounding user001
                relaxedMatches (9 # 100) (31 # 100) Nr Lr Hr) as T.
  cbv zeta in S, T.
  destruct S as (_ & _ & Savg & Sstrict & _).
  destruct T as (_ & _ & _ & _ & Trelaxed).
  split; [apply Sstrict; vm_compute; discriminate|].
  split; [apply Trelaxed; vm_compute; discriminate|exact Savg].
Defined.

(** ** Deal breakers against the scorers *)

Lemma gt_fin_not_le (d a b : Q) :
  (Fin d >? Fin a)%js = true -> b <= a -> (Fin d <=? Fin b)%js = false.
Proof.
  unfold JS.gt. cbn [JS.lt JS.le]. intros H Hba.
  apply negb_true_iff in H. apply Qle_bool_false.
  destruct (Qlt_le_dec a d) as [Hlt|Hle]; [lra|].
  apply Qle_bool_iff in Hle. congruence.
Qed.

(** X25. When both heights are known (neither missing nor 0) and the
    [height_mismatch] deal breaker triggers, the height sub-factor is 0.6
    or 0.3, never more; when a height is missing the sub-factor is the
    neutral 0.7 whether or not the deal breaker triggers. *)
Theorem height_deal_breaker_against_height_score
  (now : number) (userProfile candidate : UserProfile) (hu hc : number) :
  height (personalInfo userProfile) = Some hu ->
  height (personalInfo candidate) = Some hc ->
  truthy hu = true -> truthy hc = true ->
  isDealBreakerTriggered now userProfile candidate "height_mismatch" = true ->
  (calculateHeightCompatibility userProfile candidate = dec1 6
   \/ calculateHeightCompatibility userProfile candidate = dec1 3)
  /\ forall other,
       height (personalInfo other) = None ->
       calculateHeightCompatibility userProfile other = dec1 7
       /\ calculateHeightCompatibility other candidate = dec1 7.
Proof.
  intros Hu Hc Tu Tc Htrig. split.
  - unfold isDealBreakerTriggered in Htrig.
    cbn [String.eqb Ascii.eqb Bool.eqb] in Htrig.
    rewrite Hu, Hc in Htrig. cbn [or_else] in Htrig.
    rewrite Tu, Tc in Htrig.
    unfold calculateHeightCompatibility. rewrite Hu, Hc, Tu, Tc.
    cbn [negb orb].
    destruct (JS.abs (hu - hc)%js) as [d| | | ]; try discriminate;
      unfold of_Z in *.
    + rewrite (gt_fin_not_le d _ (inject_Z 5) Htrig)
        by (unfold Qle; cbn; lia).
      rewrite (gt_fin_not_le d _ (inject_Z 15) Htrig)
        by (unfold Qle; cbn; lia).
      destruct (Fin d <=? Fin (inject_Z 25))%js; [left|right]; reflexivity.
    + right. reflexivity.
  - intros other Ho. unfold calculateHeightCompatibility.
    rewrite Ho, Hu. split; reflexivity.
Qed.

(** X26. When the [age_gaps] deal breaker triggers on finite ages (a
    difference of more than 15 years), the basic age score of
    [MatchingService] is its lowest, 0.2, and with no preferred age range
    the age sub-factor is its lowest, 0.3. *)
Theorem age_gap_deal_breaker_against_age_scores
  (now : number) (userProfile candidate : UserProfile) (x y : Q) :
  age (personalInfo userProfile) = Fin x ->
  age (personalInfo candidate) = Fin y ->
  isDealBreakerTriggered now userProfile candidate "age_gaps" = true ->
  MatchingService.calculateAgeCompatibility userProfile candidate = dec1 2
  /\ ((match preferences userProfile with
       | Some p => ageRange p
       | None => None
       end) = None ->
      calculateAgeCompatibility userProfile candidate = dec1 3).
Proof.
  intros Hx Hy Htrig.
  unfold isDealBreakerTriggered in Htrig.
  cbn [String.eqb Ascii.eqb Bool.eqb] in Htrig.
  rewrite Hx, Hy in Htrig. cbv zeta in Htrig.
  cbn [JS.sub JS.neg JS.add JS.abs] in Htrig.
  assert (L : forall b, b <= inject_Z 15 ->
            (Fin (Qabs (x + - y)) <=? Fin b)%js = false)
    by (intros b Hb; exact (gt_fin_not_le _ _ b Htrig Hb)).
  split.
  - unfold MatchingService.calculateAgeCompatibility.
    rewrite Hx, Hy. cbv zeta. cbn [JS.sub JS.neg JS.add JS.abs].
    unfold of_Z. rewrite !L by (unfold Qle; cbn; lia). reflexivity.
  - intros Hnone. unfold calculateAgeCompatibility.
    rewrite Hnone, Hx, Hy. cbv zeta. cbn [JS.sub JS.neg JS.add JS.abs].
    unfold of_Z. rewrite !L by (unfold Qle; cbn; lia). reflexivity.
Qed.

(** X27. The [relationship_mismatch] deal breaker triggers exactly when
    the relationship-type sub-factor is 0.2, and [language_barrier]
    triggers whenever the language sub-factor is 0.2; but with an empty
    language list on either side [language_barrier] triggers while the
    sub-factor is the neutral 0.7. *)
Theorem sharing_deal_breakers_against_scores
  (now : number) (userProfile candidate : UserProfile) :
  (isDealBreakerTriggered now userProfile candidate "relationship_mismatch"
   = true
   <-> calculateRelationshipTypeCompatibility userProfile candidate = dec1 2)
  /\ (calculateLanguageCompatibility userProfile candidate = dec1 2 ->
      isDealBreakerTriggered now userProfile candidate "language_barrier"
      = true)
  /\ (arr_or (languages (personalInfo userProfile)) = []
      \/ arr_or (languages (personalInfo candidate)) = [] ->
      isDealBreakerTriggered now userProfile candidate "language_barrier"
      = true
      /\ calculateLanguageCompatibility userProfile candidate = dec1 7).
Proof.
  split; [|split].
  - unfold isDealBreakerTriggered, calculateRelationshipTypeCompatibility.
    cbn [String.eqb Ascii.eqb Bool.eqb]. cbv zeta.
    destruct (some _ _); cbn [negb]; split; intros H;
      try reflexivity; discriminate.
  - unfold isDealBreakerTriggered, calculateLanguageCompatibility.
    cbn [String.eqb Ascii.eqb Bool.eqb]. cbv zeta.
    destruct (_ || _); [discriminate|].
    destruct (some _ _); [discriminate|reflexivity].
  - intros Hempty.
    unfold isDealBreakerTriggered, calculateLanguageCompatibility.
    cbn [String.eqb Ascii.eqb Bool.eqb]. cbv zeta.
    destruct Hempty as [-> | ->].
    + split; reflexivity.
    + cbn [List.length Nat.eqb]. rewrite Bool.orb_true_r.
      split; [|reflexivity].
      apply negb_true_iff. unfold some, includes.
      induction (arr_or (languages (personalInfo userProfile)))
        as [|l ls IH]; [reflexivity|exact IH].
Qed.

Lemma height_deal_breaker_against_height_score_at_sample :
  (calculateHeightCompatibility user001
     (sampleProfile "tall" 28 (Some 200%Z) "athletic" "never" "never"
                    "bachelors" [] 1) = dec1 6
   \/ calculateHeightCompatibility user001
        (sampleProfile "tall" 28 (Some 200%Z) "athletic" "never" "never"
                       "bachelors" [] 1) = dec1 3)
  /\ forall other,
       height (personalInfo other) = None ->
       calculateHeightCompatibility user001 other = dec1 7
       /\ calculateHeightCompatibility other
            (sampleProfile "tall" 28 (Some 200%Z) "athletic" "never" "never"
                           "bachelors" [] 1) = dec1 7.
Proof.
  apply (height_deal_breaker_against_height_score sampleNow user001
           (sampleProfile "tall" 28 (Some 200%Z) "athletic" "never" "never"
                          "bachelors" [] 1)
           (of_Z 175) (of_Z 200)); reflexivity.
Defined.

Lemma age_gap_deal_breaker_against_age_scores_at_sample :
  MatchingService.calculateAgeCompatibility user001
    (sampleProfile "older" 50 None "average" "never" "never" "phd" [] 1)
  = dec1 2
  /\ ((match preferences user001 with
       | Some p => ageRange p
       | None => None
       end) = None ->
      calculateAgeCompatibility user001
        (sampleProfile "older" 50 None "average" "never" "never" "phd" [] 1)
      = dec1 3).
Proof.
  apply (age_gap_deal_breaker_against_age_scores sampleNow user001
           (sampleProfile "older" 50 None "average" "never" "never" "phd"
                          [] 1)
           (inject_Z 28) (inject_Z 50)); reflexivity.
Defined.
